(** * planetaryLogger: the Keplerian propagation core

    A shallow embedding of [calculate_longitude] (keplerSim/kepler_sim.c),
    [calculate_position] (kepler_sim_3d.c) and of the daily simulation loop
    of the two [main] functions, followed by the properties of the
    specification that concern them.

    Arithmetic model.  A C [double] is a real number or the value [NaN].
    There is no rounding, there are no signed zeros and no infinities: an
    operation whose IEEE-754 result is not a finite number (a division by
    zero, the square root of a negative number) yields [NaN], and [NaN]
    propagates through every operation and makes every comparison false.
    A [time_t] is an integer number of seconds.

    The model is exact where binary64 rounds, overflows and underflows.
    The properties stated of the program are therefore those that do not
    rest on the exact value of a rounded result: the control flow, the
    values a result is computed from, the fields a call writes, what
    not-a-number does, the sign of the Newton divisor, and the remainder of
    [fmod], which binary64 computes without rounding, taken of a sum that is
    a number.  Lemmas on exact values (a radius, a mean motion, a range
    that excludes its upper end) are lemmas of exact arithmetic and say so.
    Where rounding or overflow decides a result, the arithmetic of the
    propagation is given a second time on binary64 numbers, in the module
    [Binary64], and evaluated there. *)

From Stdlib Require Import String Reals Lra Lia ZArith List FinFun Bool.
From Stdlib Require Floats QArith.
From Equations Require Import Equations.
Import ListNotations.

Set Implicit Arguments.

(** ** The type [double] *)

Inductive double : Type :=
| NaN : double
| Num : R -> double.

Definition time_t : Type := Z.

Declare Scope double_scope.
Delimit Scope double_scope with D.
Bind Scope double_scope with double.

Definition lift1 (f : R -> R) (x : double) : double :=
  match x with
  | Num a => Num (f a)
  | NaN => NaN
  end.

Definition lift2 (f : R -> R -> R) (x y : double) : double :=
  match x, y with
  | Num a, Num b => Num (f a b)
  | _, _ => NaN
  end.

Definition dadd : double -> double -> double := lift2 Rplus.
Definition dsub : double -> double -> double := lift2 Rminus.
Definition dmul : double -> double -> double := lift2 Rmult.
Definition dneg : double -> double := lift1 Ropp.

Definition ddiv (x y : double) : double :=
  match x, y with
  | Num a, Num b => if Req_EM_T b 0 then NaN else Num (a / b)
  | _, _ => NaN
  end.

(** [x <= y] and [x < y] of C: false as soon as one side is [NaN]. *)
Definition dle (x y : double) : bool :=
  match x, y with
  | Num a, Num b => if Rle_dec a b then true else false
  | _, _ => false
  end.

Definition dlt (x y : double) : bool :=
  match x, y with
  | Num a, Num b => if Rlt_dec a b then true else false
  | _, _ => false
  end.

Infix "+" := dadd : double_scope.
Infix "-" := dsub : double_scope.
Infix "*" := dmul : double_scope.
Infix "/" := ddiv : double_scope.
Notation "- x" := (dneg x) : double_scope.
Infix "<=?" := dle : double_scope.
Infix "<?" := dlt : double_scope.

(** ** The functions of <math.h> and <time.h> the core calls *)

(** Rounding toward zero, as [fmod] uses it for its integral quotient. *)
Definition Rtrunc (r : R) : R :=
  if Rle_dec 0 r then IZR (Int_part r) else (- IZR (Int_part (- r)))%R.

(** The angle of the point (x, y), in (-PI, PI]. *)
Definition Ratan2 (y x : R) : R :=
  if Rlt_dec 0 x then atan (y / x)
  else if Rlt_dec x 0 then
         if Rle_dec 0 y then (atan (y / x) + PI)%R else (atan (y / x) - PI)%R
  else if Rlt_dec 0 y then (PI / 2)%R
  else if Rlt_dec y 0 then (- PI / 2)%R
  else 0%R.

Module Libm.

Definition sin : double -> double := lift1 Rtrigo_def.sin.
Definition cos : double -> double := lift1 Rtrigo_def.cos.

Definition sqrt (x : double) : double :=
  match x with
  | Num a => if Rlt_dec a 0 then NaN else Num (R_sqrt.sqrt a)
  | NaN => NaN
  end.

(** [pow(x, n)] for an integral exponent; both call sites pass the
    literal 3. *)
Definition pow (x : double) (n : nat) : double :=
  lift1 (fun a => a ^ n)%R x.

(** [fmod(x, y) = x - trunc(x / y) * y]: the result has the sign of [x]
    and a magnitude below that of [y]. *)
Definition fmod (x y : double) : double :=
  match x, y with
  | Num a, Num b =>
      if Req_EM_T b 0 then NaN else Num (a - Rtrunc (a / b) * b)%R
  | _, _ => NaN
  end.

Definition atan2 : double -> double -> double := lift2 Ratan2.

Definition difftime (time1 time0 : time_t) : double :=
  Num (IZR (time1 - time0)).

End Libm.

(** ** Constants *)

Definition M_PI : double := Num 3.14159265358979323846.
Definition SECONDS_IN_DAY : Z := 24 * 60 * 60.

(** ** C loops *)

(** [for (int i = lo; i < hi; i++) s = body(s);] *)
Equations for_loop {A : Type} (hi : Z) (body : A -> A) (i : Z) (s : A) : A
  by wf (Z.to_nat (hi - i)) lt :=
  for_loop hi body i s with Z_lt_dec i hi := {
    | left _ => for_loop hi body (i + 1) (body s)
    | right _ => s }.
Next Obligation. lia. Qed.

(** ** The Kepler solver

    Lines 225-228 of kepler_sim.c and lines 410-413 of kepler_sim_3d.c, as
    a function of the two values the loop reads, [planet->eccentricity]
    and [M_rad]:

      double E_rad = M_rad;
      for (int i = 0; i < 10; i++) {
          E_rad = E_rad - (E_rad - e * sin(E_rad) - M_rad)
                          / (1 - e * cos(E_rad));
      } *)

Definition newton_denominator (eccentricity E_rad : double) : double :=
  (Num 1 - eccentricity * Libm.cos E_rad)%D.

Definition newton_update (eccentricity M_rad E_rad : double) : double :=
  (E_rad - (E_rad - eccentricity * Libm.sin E_rad - M_rad)
           / newton_denominator eccentricity E_rad)%D.

Definition kepler_solve (eccentricity M_rad : double) : double :=
  for_loop 10 (newton_update eccentricity M_rad) 0 M_rad.

(** ** The propagation shared by the two calculators

    Lines 220-240 of kepler_sim.c and lines 405-427 of kepler_sim_3d.c are
    the same text; each local variable of that text is one definition
    below, over the fields of the [struct Planet] it reads. *)

Section Orbit.

Variables eccentricity semi_major_axis_au inclination_deg
          lon_asc_node_deg arg_periapsis_deg mean_anomaly_deg : double.
Variable epoch : time_t.
Variable current_date : time_t.

Local Open Scope double_scope.

Definition days_since_epoch : double :=
  Libm.difftime current_date epoch / Num (IZR SECONDS_IN_DAY).

Definition mean_motion : double :=
  Num 360 / (Libm.sqrt (Libm.pow semi_major_axis_au 3) * Num 365.25).

Definition mean_anomaly : double :=
  Libm.fmod (mean_anomaly_deg + mean_motion * days_since_epoch) (Num 360).

Definition M_rad : double := mean_anomaly * M_PI / Num 180.

Definition E_rad : double := kepler_solve eccentricity M_rad.

Definition x_orb : double :=
  semi_major_axis_au * (Libm.cos E_rad - eccentricity).

Definition y_orb : double :=
  semi_major_axis_au
  * Libm.sqrt (Num 1 - eccentricity * eccentricity)
  * Libm.sin E_rad.

Definition w_rad : double := arg_periapsis_deg * M_PI / Num 180.
Definition N_rad : double := lon_asc_node_deg * M_PI / Num 180.
Definition i_rad : double := inclination_deg * M_PI / Num 180.

Definition x_ecl : double :=
  x_orb * (Libm.cos w_rad * Libm.cos N_rad
           - Libm.sin w_rad * Libm.sin N_rad * Libm.cos i_rad)
  - y_orb * (Libm.sin w_rad * Libm.cos N_rad
             + Libm.cos w_rad * Libm.sin N_rad * Libm.cos i_rad).

Definition y_ecl : double :=
  x_orb * (Libm.cos w_rad * Libm.sin N_rad
           + Libm.sin w_rad * Libm.cos N_rad * Libm.cos i_rad)
  + y_orb * (- Libm.sin w_rad * Libm.sin N_rad
             + Libm.cos w_rad * Libm.cos N_rad * Libm.cos i_rad).

(** The third component, computed by kepler_sim_3d.c only. *)
Definition z_ecl : double :=
  x_orb * (Libm.sin w_rad * Libm.sin i_rad)
  + y_orb * (Libm.cos w_rad * Libm.sin i_rad).

(** The reduction to a longitude, in kepler_sim.c only. *)
Definition longitude_rad : double := Libm.atan2 y_ecl x_ecl.

Definition longitude_deg : double :=
  let longitude_deg := longitude_rad * (Num 180 / M_PI) in
  if longitude_deg <? Num 0 then longitude_deg + Num 360 else longitude_deg.

End Orbit.

(** ** kepler_sim.c: the longitude calculator *)

Module KeplerSim.

Record Planet : Type := mkPlanet {
  name : string;
  id : string;
  eccentricity : double;
  semi_major_axis_au : double;
  inclination_deg : double;
  lon_asc_node_deg : double;
  arg_periapsis_deg : double;
  mean_anomaly_deg : double;
  epoch : time_t
}.

(** [double calculate_longitude(struct Planet *planet, time_t current_date)].
    The function reads through [planet] and never stores through it. *)
Definition calculate_longitude (planet : Planet) (current_date : time_t)
  : double :=
  if (semi_major_axis_au planet <=? Num 0)%D then NaN
  else
    longitude_deg (eccentricity planet) (semi_major_axis_au planet)
                  (inclination_deg planet) (lon_asc_node_deg planet)
                  (arg_periapsis_deg planet) (mean_anomaly_deg planet)
                  (epoch planet) current_date.

End KeplerSim.

(** ** kepler_sim_3d.c: the position calculator *)

Module KeplerSim3D.

Record Planet : Type := mkPlanet {
  name : string;
  id : string;
  eccentricity : double;
  semi_major_axis_au : double;
  inclination_deg : double;
  lon_asc_node_deg : double;
  arg_periapsis_deg : double;
  mean_anomaly_deg : double;
  epoch : time_t;
  x : double;
  y : double;
  z : double
}.

(** The three stores the function performs: [planet->x = v] and so on. *)
Definition set_x (v : double) (p : Planet) : Planet :=
  mkPlanet (name p) (id p) (eccentricity p) (semi_major_axis_au p)
           (inclination_deg p) (lon_asc_node_deg p) (arg_periapsis_deg p)
           (mean_anomaly_deg p) (epoch p) v (y p) (z p).

Definition set_y (v : double) (p : Planet) : Planet :=
  mkPlanet (name p) (id p) (eccentricity p) (semi_major_axis_au p)
           (inclination_deg p) (lon_asc_node_deg p) (arg_periapsis_deg p)
           (mean_anomaly_deg p) (epoch p) (x p) v (z p).

Definition set_z (v : double) (p : Planet) : Planet :=
  mkPlanet (name p) (id p) (eccentricity p) (semi_major_axis_au p)
           (inclination_deg p) (lon_asc_node_deg p) (arg_periapsis_deg p)
           (mean_anomaly_deg p) (epoch p) (x p) (y p) v.

(** [void calculate_position(struct Planet *planet, time_t current_date)]:
    the struct behind the pointer is passed in and handed back.  The three
    right-hand sides of lines 423-427 read locals only; those of [x] and
    [y] are the text of [x_ecl] and [y_ecl]. *)
Definition calculate_position (planet : Planet) (current_date : time_t)
  : Planet :=
  if (semi_major_axis_au planet <=? Num 0)%D then
    (* planet->x = planet->y = planet->z = NAN; *)
    let planet := set_z NaN planet in
    let planet := set_y (z planet) planet in
    set_x (y planet) planet
  else
    let e := eccentricity planet in
    let a := semi_major_axis_au planet in
    let i := inclination_deg planet in
    let N := lon_asc_node_deg planet in
    let w := arg_periapsis_deg planet in
    let M := mean_anomaly_deg planet in
    let t0 := epoch planet in
    let planet := set_x (x_ecl e a i N w M t0 current_date) planet in
    let planet := set_y (y_ecl e a i N w M t0 current_date) planet in
    set_z (z_ecl e a i w M t0 current_date) planet.

End KeplerSim3D.

(** ** The daily loop of the two [main] functions

    Lines 109-123 of kepler_sim.c and lines 297-311 of kepler_sim_3d.c:

      while (current_t <= end_t) {
          fprintf(outfile, "%s", date_str);
          for (int i = 0; i < num_planets; i++) {
              <call the calculator on &planets[i]>;
              fprintf(outfile, <the values of planets[i]>);
          }
          fprintf(outfile, "\n");
          current_t += SECONDS_IN_DAY;
      }

    The two loops differ in the call and in the format string only, which
    [visit] stands for: it hands back the struct after the call and the
    values printed for it.  A row of the file is the timestamp of its date
    and the values of its columns; the text of a date ([localtime],
    [strftime]) and of a number is not modelled.  [invocations] is a ghost
    log: it records each calculator call as (index of the body, date). *)

Section Simulation.

Variables Planet Result : Type.
Variable visit : Planet -> time_t -> Planet * Result.

Definition Row : Type := (time_t * list Result)%type.

Record Sim : Type := mkSim {
  planets : list Planet;
  outfile : list Row;
  invocations : list (nat * time_t)
}.

(** The inner [for] loop, from index [i] on over the rest of the array. *)
Fixpoint planets_loop (current_t : time_t) (i : nat) (rest : list Planet)
  : list Planet * list Result * list (nat * time_t) :=
  match rest with
  | [] => ([], [], [])
  | planet :: rest =>
      let '(planet, r) := visit planet current_t in
      let '(rest, rs, log) := planets_loop current_t (S i) rest in
      (planet :: rest, r :: rs, (i, current_t) :: log)
  end.

Equations main_loop (end_t current_t : time_t) (st : Sim) : Sim
  by wf (Z.to_nat (end_t - current_t + 1)) lt :=
  main_loop end_t current_t st with Z_le_dec current_t end_t := {
    | left _ =>
        let '(ps, rs, log) := planets_loop current_t 0 (planets st) in
        main_loop end_t (current_t + SECONDS_IN_DAY)%Z
                  (mkSim ps (outfile st ++ [(current_t, rs)])
                         (invocations st ++ log))
    | right _ => st }.
Next Obligation. unfold SECONDS_IN_DAY. lia. Qed.

(** The run from the freshly opened file: [time_t current_t = start_t;]. *)
Definition simulate (ps : list Planet) (start_t end_t : time_t) : Sim :=
  main_loop end_t start_t (mkSim ps [] []).

End Simulation.

Module KeplerSimMain.
Import KeplerSim.

(** [double longitude = calculate_longitude(&planets[i], current_t);
     fprintf(outfile, ",%.4f", longitude);] *)
Definition visit (planet : Planet) (current_t : time_t) : Planet * double :=
  (planet, calculate_longitude planet current_t).

Definition simulate := simulate visit.

End KeplerSimMain.

Module KeplerSim3DMain.
Import KeplerSim3D.

(** [calculate_position(&planets[i], current_t);
     fprintf(outfile, ",%.6f,%.6f,%.6f",
             planets[i].x, planets[i].y, planets[i].z);] *)
Definition visit (planet : Planet) (current_t : time_t)
  : Planet * (double * double * double) :=
  let planet := calculate_position planet current_t in
  (planet, (x planet, y planet, z planet)).

Definition simulate := simulate visit.

End KeplerSim3DMain.

(** ** Vocabulary of the specification *)

Definition finite (d : double) : Prop := exists r, d = Num r.

(** A valid element set: a bound orbit ([0 <= e < 1]), a positive
    semi-major axis, finite angles. *)
Definition valid_elements (e a i N w M : double) : Prop :=
  exists er ar,
    e = Num er /\ a = Num ar /\ (0 <= er < 1)%R /\ (0 < ar)%R
    /\ finite i /\ finite N /\ finite w /\ finite M.

(** The value in radians of an angle in degrees, with the code's [M_PI]. *)
Definition radians (deg : R) : R :=
  (deg * 3.14159265358979323846 / 180)%R.

(** "The mean anomaly in degrees lies in [0, 360)". *)
Definition normalized360 (d : double) : Prop :=
  exists m, d = Num m /\ (0 <= m < 360)%R.

(** The dates of the inclusive range, one day apart, from [start_t] on. *)
Definition dates (start_t end_t : time_t) : list time_t :=
  map (fun k => (start_t + SECONDS_IN_DAY * Z.of_nat k)%Z)
      (seq 0 (Z.to_nat ((end_t - start_t) / SECONDS_IN_DAY + 1))).

(** One calculator call per body, in array order, on date [d]. *)
Definition calls_on (num_planets : nat) (d : time_t) : list (nat * time_t) :=
  map (fun i => (i, d)) (seq 0 num_planets).

Module Elements2D.
Import KeplerSim.

(** The six elements and the epoch of two structs agree. *)
Definition same_elements (p q : Planet) : Prop :=
  eccentricity p = eccentricity q
  /\ semi_major_axis_au p = semi_major_axis_au q
  /\ inclination_deg p = inclination_deg q
  /\ lon_asc_node_deg p = lon_asc_node_deg q
  /\ arg_periapsis_deg p = arg_periapsis_deg q
  /\ mean_anomaly_deg p = mean_anomaly_deg q
  /\ epoch p = epoch q.

Definition valid (p : Planet) : Prop :=
  valid_elements (eccentricity p) (semi_major_axis_au p) (inclination_deg p)
                 (lon_asc_node_deg p) (arg_periapsis_deg p)
                 (mean_anomaly_deg p).

End Elements2D.

Module Elements3D.
Import KeplerSim3D.

Definition same_elements (p q : Planet) : Prop :=
  eccentricity p = eccentricity q
  /\ semi_major_axis_au p = semi_major_axis_au q
  /\ inclination_deg p = inclination_deg q
  /\ lon_asc_node_deg p = lon_asc_node_deg q
  /\ arg_periapsis_deg p = arg_periapsis_deg q
  /\ mean_anomaly_deg p = mean_anomaly_deg q
  /\ epoch p = epoch q.

(** Everything but the position fields agrees. *)
Definition same_but_position (p q : Planet) : Prop :=
  name p = name q /\ id p = id q /\ same_elements p q.

Definition valid (p : Planet) : Prop :=
  valid_elements (eccentricity p) (semi_major_axis_au p) (inclination_deg p)
                 (lon_asc_node_deg p) (arg_periapsis_deg p)
                 (mean_anomaly_deg p).

Definition position (p : Planet) : double * double * double :=
  (x p, y p, z p).

End Elements3D.

(** ** What the generator promises *)

Section Promises.

Variables Planet Result : Type.

(** One row per date: the dates of the rows are [start_t], one day later,
    and so on, up to the last such date that is not after [end_t]. *)
Definition one_row_per_date (start_t end_t : time_t) (rows : list (Row Result))
  : Prop :=
  exists n : nat,
    map fst rows
    = map (fun k => (start_t + SECONDS_IN_DAY * Z.of_nat k)%Z) (seq 0 (S n))
    /\ (start_t + SECONDS_IN_DAY * Z.of_nat n <= end_t
        < start_t + SECONDS_IN_DAY * Z.of_nat (S n))%Z.

(** Each row holds the result of [calc] for each body, in input order. *)
Definition one_result_per_body (calc : Planet -> time_t -> Result)
           (ps : list Planet) (rows : list (Row Result)) : Prop :=
  forall row, In row rows -> snd row = map (fun p => calc p (fst row)) ps.

(** The calculator ran once for each pair of a body and a date of the
    file, and for nothing else. *)
Definition one_call_per_pair (num_planets : nat) (ds : list time_t)
           (log : list (nat * time_t)) : Prop :=
  NoDup log
  /\ length log = (num_planets * length ds)%nat
  /\ forall i d, In (i, d) log <-> (i < num_planets)%nat /\ In d ds.

End Promises.

(** ** Sample inputs

    The element set of the concrete scenario of the specification, a second
    body, and a body whose semi-major axis was parsed as zero.  The position
    fields of the 3D structs start at zero, as the initialisers of [main]
    leave them. *)

Definition earth : KeplerSim.Planet :=
  KeplerSim.mkPlanet "Earth" "399" (Num 0.0167) (Num 1)
                     (Num 0) (Num 0) (Num 0) (Num 0) 0%Z.

Definition mars : KeplerSim.Planet :=
  KeplerSim.mkPlanet "Mars" "499" (Num 0.0934) (Num 1.524)
                     (Num 1.85) (Num 49.6) (Num 286.5) (Num 19.4) 0%Z.

Definition unparsed : KeplerSim.Planet :=
  KeplerSim.mkPlanet "Pluto" "999" (Num 0) (Num 0)
                     (Num 0) (Num 0) (Num 0) (Num 0) 0%Z.

Definition to3d (p : KeplerSim.Planet) : KeplerSim3D.Planet :=
  KeplerSim3D.mkPlanet
    (KeplerSim.name p) (KeplerSim.id p) (KeplerSim.eccentricity p)
    (KeplerSim.semi_major_axis_au p) (KeplerSim.inclination_deg p)
    (KeplerSim.lon_asc_node_deg p) (KeplerSim.arg_periapsis_deg p)
    (KeplerSim.mean_anomaly_deg p) (KeplerSim.epoch p)
    (Num 0) (Num 0) (Num 0).

(** A circular orbit of radius 1 AU. *)
Definition circular : KeplerSim3D.Planet :=
  KeplerSim3D.mkPlanet "Circular" "0" (Num 0) (Num 1)
                       (Num 7) (Num 48) (Num 29) (Num 174) 0%Z
                       (Num 0) (Num 0) (Num 0).

(** ** The propagation on binary64 numbers

    The arithmetic of lines 221-246 of kepler_sim.c and of lines 406-427 of
    kepler_sim_3d.c over binary64 numbers: the products, quotients, sums,
    square roots and comparisons are those of IEEE-754, rounded to nearest.
    The other functions of the C library are not part of it: each
    definition takes the values that [pow], [sin], [cos] and [atan2] have
    returned as arguments. *)

Module Binary64.
Import PrimFloat.

Local Open Scope float_scope.

Definition M_PI : float := 0x1.921fb54442d18p+1.

(** [degrees * M_PI / 180.0] *)
Definition radians (degrees : float) : float := degrees * M_PI / 180.

(** [360.0 / (sqrt(pow(a, 3)) * 365.25)], from the value [cube] of
    [pow(a, 3)]. *)
Definition mean_motion (cube : float) : float := 360 / (sqrt cube * 365.25).

(** One pass of the loop of the solver. *)
Definition newton_update (eccentricity M_rad E_rad sin_E cos_E : float)
  : float :=
  E_rad - (E_rad - eccentricity * sin_E - M_rad) / (1 - eccentricity * cos_E).

Definition x_orb (semi_major_axis_au eccentricity cos_E : float) : float :=
  semi_major_axis_au * (cos_E - eccentricity).

Definition y_orb (semi_major_axis_au eccentricity sin_E : float) : float :=
  semi_major_axis_au * sqrt (1 - eccentricity * eccentricity) * sin_E.

Definition x_ecl (x_orb y_orb cos_w sin_w cos_N sin_N cos_i : float)
  : float :=
  x_orb * (cos_w * cos_N - sin_w * sin_N * cos_i)
  - y_orb * (sin_w * cos_N + cos_w * sin_N * cos_i).

Definition y_ecl (x_orb y_orb cos_w sin_w cos_N sin_N cos_i : float)
  : float :=
  x_orb * (cos_w * sin_N + sin_w * cos_N * cos_i)
  + y_orb * (- sin_w * sin_N + cos_w * cos_N * cos_i).

Definition z_ecl (x_orb y_orb cos_w sin_w sin_i : float) : float :=
  x_orb * (sin_w * sin_i) + y_orb * (cos_w * sin_i).

(** [longitude_deg = longitude_rad * (180.0 / M_PI);
     if (longitude_deg < 0) longitude_deg += 360;] *)
Definition longitude_deg (longitude_rad : float) : float :=
  let longitude_deg := longitude_rad * (180 / M_PI) in
  if longitude_deg <? 0 then longitude_deg + 360 else longitude_deg.

(** The rational number that a finite binary64 number is. *)
Definition exact (f : float) : option QArith_base.Q :=
  match FloatOps.Prim2SF f with
  | SpecFloat.S754_zero _ => Some (QArith_base.Qmake 0 1)
  | SpecFloat.S754_finite negative m e =>
      Some (QArith_base.Qmult
              (QArith_base.Qmake (if negative then Zneg m else Zpos m) 1)
              (QArith_base.Qpower (QArith_base.Qmake 2 1) e))
  | _ => None
  end.

(** [x^2 + y^2 + z^2 = a^2] of the numbers themselves, without rounding. *)
Definition at_distance (x y z a : float) : bool :=
  match exact x, exact y, exact z, exact a with
  | Some x, Some y, Some z, Some a =>
      QArith_base.Qeq_bool
        (QArith_base.Qplus
           (QArith_base.Qplus (QArith_base.Qmult x x) (QArith_base.Qmult y y))
           (QArith_base.Qmult z z))
        (QArith_base.Qmult a a)
  | _, _, _, _ => false
  end.

End Binary64.
(** ** The reduction of a point to a longitude

    Lines 242-244 of kepler_sim.c and lines 74-76 of planetary_logger.c:

      double longitude_rad = atan2(y, x);
      longitude = longitude_rad * (180.0 / M_PI);
      if (longitude < 0) longitude += 360;

    The addition is exact here; [Binary64.longitude_deg] is the same text
    with the rounding of binary64. *)

Definition longitude_of_xy (y x : double) : double :=
  let longitude_rad := Libm.atan2 y x in
  let longitude := (longitude_rad * (Num 180 / M_PI))%D in
  if (longitude <? Num 0)%D then (longitude + Num 360)%D else longitude.

(** The elements and the epoch of a struct of kepler_sim.c and of a struct
    of kepler_sim_3d.c agree. *)
Definition same_elements_2d_3d
           (p : KeplerSim.Planet) (q : KeplerSim3D.Planet) : Prop :=
  KeplerSim.eccentricity p = KeplerSim3D.eccentricity q
  /\ KeplerSim.semi_major_axis_au p = KeplerSim3D.semi_major_axis_au q
  /\ KeplerSim.inclination_deg p = KeplerSim3D.inclination_deg q
  /\ KeplerSim.lon_asc_node_deg p = KeplerSim3D.lon_asc_node_deg q
  /\ KeplerSim.arg_periapsis_deg p = KeplerSim3D.arg_periapsis_deg q
  /\ KeplerSim.mean_anomaly_deg p = KeplerSim3D.mean_anomaly_deg q
  /\ KeplerSim.epoch p = KeplerSim3D.epoch q.

(** One of the six elements is not a number. *)
Definition some_element_NaN (e a i N w M : double) : Prop :=
  e = NaN \/ a = NaN \/ i = NaN \/ N = NaN \/ w = NaN \/ M = NaN.

(** ** The receive buffer of the three programs

    [WriteMemoryCallback] is the same text in kepler_sim.c (lines 134-144),
    kepler_sim_3d.c (lines 322-332) and planetary_logger.c (lines 42-52).
    A block of memory is the list of its bytes; a [size_t] is an integer
    modulo 2^64.  What the allocator does is an input: [None] when
    [realloc] returns NULL, [Some fresh] when it succeeds, [fresh] being the
    indeterminate bytes a grown block starts with beyond the old ones. *)

Module Buffer.

Definition size_t_modulus : Z := 2 ^ 64.

Record MemoryStruct : Type := mkMemoryStruct {
  memory : list Byte.byte;
  size : Z
}.

(** [realloc(block, n)] when it succeeds: a block of [n] bytes that keeps
    the old bytes up to the lesser of the two sizes. *)
Definition realloc (block : list Byte.byte) (n : Z) (fresh : list Byte.byte)
  : list Byte.byte :=
  firstn (Z.to_nat n) (block ++ fresh ++ repeat Byte.x00 (Z.to_nat n)).

(** [memcpy(&block[off], src, n)]. *)
Definition memcpy_at (block : list Byte.byte) (off : Z)
           (src : list Byte.byte) (n : Z) : list Byte.byte :=
  firstn (Z.to_nat off) block
  ++ firstn (Z.to_nat n) src
  ++ skipn (Z.to_nat (off + n)) block.

(** [block[idx] = v]. *)
Definition store_at (block : list Byte.byte) (idx : Z) (v : Byte.byte)
  : list Byte.byte :=
  firstn (Z.to_nat idx) block ++ v :: skipn (Z.to_nat (idx + 1)) block.

Definition WriteMemoryCallback
           (contents : list Byte.byte) (size nmemb : Z)
           (allocator : option (list Byte.byte)) (mem : MemoryStruct)
  : Z * MemoryStruct :=
  let realsize := ((size * nmemb) mod size_t_modulus)%Z in
  match allocator with
  | None => (0%Z, mem)
  | Some fresh =>
      let ptr :=
        realloc (memory mem)
                ((Buffer.size mem + realsize + 1) mod size_t_modulus)%Z
                fresh in
      let mem := mkMemoryStruct ptr (Buffer.size mem) in
      let mem :=
        mkMemoryStruct
          (memcpy_at (memory mem) (Buffer.size mem) contents realsize)
          (Buffer.size mem) in
      let mem :=
        mkMemoryStruct (memory mem)
                       ((Buffer.size mem + realsize) mod size_t_modulus)%Z in
      let mem :=
        mkMemoryStruct (store_at (memory mem) (Buffer.size mem) Byte.x00)
                       (Buffer.size mem) in
      (realsize, mem)
  end.

(** [struct MemoryStruct chunk = { .memory = malloc(1), .size = 0 };]: one
    byte, whose value is indeterminate. *)
Definition fresh_chunk (indeterminate : Byte.byte) : MemoryStruct :=
  mkMemoryStruct [indeterminate] 0.

(** libcurl hands the body of a response to the callback piece by piece,
    in order, with [size = 1] and [nmemb] the length of the piece; each
    piece comes with what the allocator does at that call.  The transfer
    stops at the first call that does not return [nmemb]. *)
Fixpoint receive (pieces : list (list Byte.byte * option (list Byte.byte)))
         (mem : MemoryStruct) : bool * MemoryStruct :=
  match pieces with
  | [] => (true, mem)
  | (contents, allocator) :: pieces =>
      let nmemb := Z.of_nat (length contents) in
      let '(written, mem) :=
        WriteMemoryCallback contents 1 nmemb allocator mem in
      if (written =? nmemb)%Z then receive pieces mem else (false, mem)
  end.

(** The buffer is a block of [size + 1] bytes that ends with a NUL. *)
Definition terminated (mem : MemoryStruct) : Prop :=
  exists data,
    memory mem = data ++ [Byte.x00] /\ size mem = Z.of_nat (length data).

(** The C string a block starts with: its bytes before the first NUL. *)
Fixpoint c_string (block : list Byte.byte) : list Byte.byte :=
  match block with
  | [] => []
  | b :: block => if Byte.eqb b Byte.x00 then [] else b :: c_string block
  end.

End Buffer.

(** The pieces of a transfer whose allocations all succeed, and the bytes
    they carry. *)
Definition all_allocated
           (pieces : list (list Byte.byte * option (list Byte.byte))) : Prop :=
  Forall (fun piece => snd piece <> None) pieces.

Definition body_of
           (pieces : list (list Byte.byte * option (list Byte.byte)))
  : list Byte.byte :=
  concat (map fst pieces).

(** ** The functions of <string.h> and <stdio.h> the parsers call *)

Module Libc.

(** [strstr(haystack, needle)]: the part of [haystack] from the first
    occurrence of [needle] on, or NULL. *)
Fixpoint strstr (haystack needle : string) : option string :=
  if String.prefix needle haystack then Some haystack
  else
    match haystack with
    | EmptyString => None
    | String _ rest => strstr rest needle
    end.

(** What [sscanf] does with a format of one [%lf] conversion: it assigns
    the converted number and returns 1, or assigns nothing and returns 0
    (the input does not match) or [EOF] (the input ends before the
    conversion). *)
Inductive scan_result : Type :=
| Assigned (v : double)
| MatchingFailure
| InputFailure.

Definition EOF : Z := -1.

Definition scan_count (r : scan_result) : Z :=
  match r with
  | Assigned _ => 1
  | MatchingFailure => 0
  | InputFailure => EOF
  end.

End Libc.

(** What a request to the Horizons service comes to: [curl_easy_init]
    gives no handle, [curl_easy_perform] does not return [CURLE_OK], or it
    does and [chunk.memory] holds the C string [memory]. *)
Inductive transfer : Type :=
| NoHandle
| TransferFailed
| Received (memory : string).

Definition AU_TO_KM : double := Num 149597870.7.

(** ** [fetch_orbital_elements]

    Lines 147-212 of kepler_sim.c and lines 334-397 of kepler_sim_3d.c are
    the same text but for the printing of the response.  The environment
    is a parameter: [sscanf_lf format input] is what [sscanf] does with a
    format of one [%lf]; [mktime_date s] is the [time_t] that
    [sscanf(s, "%d-%d-%d", ...)] into a zeroed [struct tm], the two
    adjustments of year and month and [mktime] give; and
    [horizons_elements id epoch_str] is what the request for the elements
    of body [id] at [epoch_str] comes to.  The stores into the struct are
    the setters [set_...], one per field written. *)

Section Fetch.

Variable sscanf_lf : string -> string -> Libc.scan_result.
Variable mktime_date : string -> time_t.
Variable horizons_elements : string -> string -> transfer.

Variable Planet : Type.
Variable id : Planet -> string.
Variables set_eccentricity set_semi_major_axis_au set_inclination_deg
          set_lon_asc_node_deg set_arg_periapsis_deg set_mean_anomaly_deg
  : double -> Planet -> Planet.
Variable set_epoch : time_t -> Planet -> Planet.

(** [if ((ptr = strstr(elements_start, key)))
       parsed_count += sscanf(ptr, format, &target);] *)
Definition scan_into (T : Type) (elements_start key format : string)
           (store : double -> T -> T) (parsed_count : Z) (target : T)
  : Z * T :=
  match Libc.strstr elements_start key with
  | Some ptr =>
      match sscanf_lf format ptr with
      | Libc.Assigned v => ((parsed_count + 1)%Z, store v target)
      | r => ((parsed_count + Libc.scan_count r)%Z, target)
      end
  | None => (parsed_count, target)
  end.

Definition fetch_orbital_elements (planet : Planet) (epoch_str : string)
  : Z * Planet :=
  match horizons_elements (id planet) epoch_str with
  | NoHandle => ((-1)%Z, planet)
  | TransferFailed => ((-1)%Z, planet)
  | Received memory =>
      match Libc.strstr memory "$$SOE" with
      | Some elements_start =>
          let parsed_count := 0%Z in
          let semi_major_axis_km := Num 0 in
          let '(parsed_count, planet) :=
            scan_into elements_start "EC=" "EC= %lf"
                      set_eccentricity parsed_count planet in
          let '(parsed_count, planet) :=
            scan_into elements_start "IN=" "IN= %lf"
                      set_inclination_deg parsed_count planet in
          let '(parsed_count, planet) :=
            scan_into elements_start "OM=" "OM= %lf"
                      set_lon_asc_node_deg parsed_count planet in
          let '(parsed_count, planet) :=
            scan_into elements_start "W =" "W = %lf"
                      set_arg_periapsis_deg parsed_count planet in
          let '(parsed_count, planet) :=
            scan_into elements_start "MA=" "MA= %lf"
                      set_mean_anomaly_deg parsed_count planet in
          let '(parsed_count, semi_major_axis_km) :=
            scan_into elements_start "A =" "A = %lf"
                      (fun v _ => v) parsed_count semi_major_axis_km in
          let planet :=
            set_semi_major_axis_au (semi_major_axis_km / AU_TO_KM)%D planet in
          if (parsed_count =? 6)%Z
          then (0%Z, set_epoch (mktime_date epoch_str) planet)
          else ((-1)%Z, planet)
      | None => ((-1)%Z, planet)
      end
  end.

(** The number [sscanf] converts for [key], when [key] is found and the
    conversion succeeds. *)
Definition scanned (elements_start key format : string) : option double :=
  match Libc.strstr elements_start key with
  | Some ptr =>
      match sscanf_lf format ptr with
      | Libc.Assigned v => Some v
      | _ => None
      end
  | None => None
  end.

(** The target of a conversion after the statement of [scan_into]. *)
Definition stored (T : Type) (elements_start key format : string)
           (store : double -> T -> T) (target : T) : T :=
  match scanned elements_start key format with
  | Some v => store v target
  | None => target
  end.

(** The six conversions all succeed. *)
Definition all_scanned (elements_start : string) : Prop :=
  scanned elements_start "EC=" "EC= %lf" <> None
  /\ scanned elements_start "IN=" "IN= %lf" <> None
  /\ scanned elements_start "OM=" "OM= %lf" <> None
  /\ scanned elements_start "W =" "W = %lf" <> None
  /\ scanned elements_start "MA=" "MA= %lf" <> None
  /\ scanned elements_start "A =" "A = %lf" <> None.

(** The struct after the six statements and the conversion to AU. *)
Definition parsed (elements_start : string) (planet : Planet) : Planet :=
  set_semi_major_axis_au
    (stored elements_start "A =" "A = %lf" (fun v _ => v) (Num 0)
     / AU_TO_KM)%D
    (stored elements_start "MA=" "MA= %lf" set_mean_anomaly_deg
       (stored elements_start "W =" "W = %lf" set_arg_periapsis_deg
          (stored elements_start "OM=" "OM= %lf" set_lon_asc_node_deg
             (stored elements_start "IN=" "IN= %lf" set_inclination_deg
                (stored elements_start "EC=" "EC= %lf" set_eccentricity
                   planet))))).

(** The fetch loop of [main]:

      for (int i = 0; i < num_planets; i++)
          if (fetch_orbital_elements(&planets[i], epoch) != 0) return 1;

    [None] when [main] returns 1 there; the second component is the ghost
    log of the requests made, by identifier. *)
Fixpoint fetch_loop (epoch_str : string) (rest : list Planet)
  : option (list Planet) * list string :=
  match rest with
  | [] => (Some [], [])
  | planet :: rest =>
      let '(status, planet') := fetch_orbital_elements planet epoch_str in
      if (status =? 0)%Z then
        let '(fetched, log) := fetch_loop epoch_str rest in
        (option_map (cons planet') fetched, id planet :: log)
      else (None, [id planet])
  end.

End Fetch.

(** ** The two [main] functions

    What the user types and whether [fopen] succeeds are inputs.  A file is
    its header line and its rows.  [requested] is the ghost log of the
    requests made, by identifier. *)

Definition newline : string := String (Ascii.ascii_of_nat 10) EmptyString.

Record Outcome (Result : Type) : Type := mkOutcome {
  exit_code : Z;
  requested : list string;
  file : option (string * list (Row Result))
}.

Module KeplerSimProgram.
Import KeplerSim.

Definition set_eccentricity (v : double) (p : Planet) : Planet :=
  mkPlanet (name p) (id p) v (semi_major_axis_au p) (inclination_deg p)
           (lon_asc_node_deg p) (arg_periapsis_deg p) (mean_anomaly_deg p)
           (epoch p).

Definition set_semi_major_axis_au (v : double) (p : Planet) : Planet :=
  mkPlanet (name p) (id p) (eccentricity p) v (inclination_deg p)
           (lon_asc_node_deg p) (arg_periapsis_deg p) (mean_anomaly_deg p)
           (epoch p).

Definition set_inclination_deg (v : double) (p : Planet) : Planet :=
  mkPlanet (name p) (id p) (eccentricity p) (semi_major_axis_au p) v
           (lon_asc_node_deg p) (arg_periapsis_deg p) (mean_anomaly_deg p)
           (epoch p).

Definition set_lon_asc_node_deg (v : double) (p : Planet) : Planet :=
  mkPlanet (name p) (id p) (eccentricity p) (semi_major_axis_au p)
           (inclination_deg p) v (arg_periapsis_deg p) (mean_anomaly_deg p)
           (epoch p).

Definition set_arg_periapsis_deg (v : double) (p : Planet) : Planet :=
  mkPlanet (name p) (id p) (eccentricity p) (semi_major_axis_au p)
           (inclination_deg p) (lon_asc_node_deg p) v (mean_anomaly_deg p)
           (epoch p).

Definition set_mean_anomaly_deg (v : double) (p : Planet) : Planet :=
  mkPlanet (name p) (id p) (eccentricity p) (semi_major_axis_au p)
           (inclination_deg p) (lon_asc_node_deg p) (arg_periapsis_deg p) v
           (epoch p).

Definition set_epoch (v : time_t) (p : Planet) : Planet :=
  mkPlanet (name p) (id p) (eccentricity p) (semi_major_axis_au p)
           (inclination_deg p) (lon_asc_node_deg p) (arg_periapsis_deg p)
           (mean_anomaly_deg p) v.

(** [{"Mercury", "199"}]: the members without an initialiser are zero. *)
Definition body (name id : string) : Planet :=
  mkPlanet name id (Num 0) (Num 0) (Num 0) (Num 0) (Num 0) (Num 0) 0%Z.

Definition planets : list Planet :=
  [body "Mercury" "199"; body "Venus" "299"; body "Earth" "399";
   body "Mars" "499"; body "Jupiter" "599"; body "Saturn" "699";
   body "Uranus" "799"; body "Neptune" "899"; body "Pluto" "999"].

Record Input : Type := mkInput {
  epoch_date_input : string;
  start_date_input : string;
  end_date_input : string;
  output_filename : string;
  fopen_ok : bool
}.

Section Program.

Variable sscanf_lf : string -> string -> Libc.scan_result.
Variable mktime_date : string -> time_t.
Variable horizons_elements : string -> string -> transfer.

Definition fetch_orbital_elements : Planet -> string -> Z * Planet :=
  fetch_orbital_elements
    sscanf_lf mktime_date horizons_elements id
    set_eccentricity set_semi_major_axis_au set_inclination_deg
    set_lon_asc_node_deg set_arg_periapsis_deg set_mean_anomaly_deg
    set_epoch.

Definition fetch_loop : string -> list Planet
                        -> option (list Planet) * list string :=
  fetch_loop
    sscanf_lf mktime_date horizons_elements id
    set_eccentricity set_semi_major_axis_au set_inclination_deg
    set_lon_asc_node_deg set_arg_periapsis_deg set_mean_anomaly_deg
    set_epoch.

(** [fprintf(outfile, "Date"); for (...) fprintf(outfile, ",%s", name);
     fprintf(outfile, "\n");] *)
Definition header (ps : list Planet) : string :=
  ("Date" ++ String.concat "" (map (fun p => "," ++ name p) ps) ++ newline)
    %string.

Definition main (input : Input) : Outcome double :=
  let '(fetched, log) := fetch_loop (epoch_date_input input) planets in
  match fetched with
  | None => mkOutcome 1 log None
  | Some planets =>
      if fopen_ok input then
        let start_t := mktime_date (start_date_input input) in
        let end_t := mktime_date (end_date_input input) in
        let st := KeplerSimMain.simulate planets start_t end_t in
        mkOutcome 0 log (Some (header planets, outfile st))
      else mkOutcome 1 log None
  end.

End Program.

End KeplerSimProgram.

Module KeplerSim3DProgram.
Import KeplerSim3D.

Definition set_eccentricity (v : double) (p : Planet) : Planet :=
  mkPlanet (name p) (id p) v (semi_major_axis_au p) (inclination_deg p)
           (lon_asc_node_deg p) (arg_periapsis_deg p) (mean_anomaly_deg p)
           (epoch p) (x p) (y p) (z p).

Definition set_semi_major_axis_au (v : double) (p : Planet) : Planet :=
  mkPlanet (name p) (id p) (eccentricity p) v (inclination_deg p)
           (lon_asc_node_deg p) (arg_periapsis_deg p) (mean_anomaly_deg p)
           (epoch p) (x p) (y p) (z p).

Definition set_inclination_deg (v : double) (p : Planet) : Planet :=
  mkPlanet (name p) (id p) (eccentricity p) (semi_major_axis_au p) v
           (lon_asc_node_deg p) (arg_periapsis_deg p) (mean_anomaly_deg p)
           (epoch p) (x p) (y p) (z p).

Definition set_lon_asc_node_deg (v : double) (p : Planet) : Planet :=
  mkPlanet (name p) (id p) (eccentricity p) (semi_major_axis_au p)
           (inclination_deg p) v (arg_periapsis_deg p) (mean_anomaly_deg p)
           (epoch p) (x p) (y p) (z p).

Definition set_arg_periapsis_deg (v : double) (p : Planet) : Planet :=
  mkPlanet (name p) (id p) (eccentricity p) (semi_major_axis_au p)
           (inclination_deg p) (lon_asc_node_deg p) v (mean_anomaly_deg p)
           (epoch p) (x p) (y p) (z p).

Definition set_mean_anomaly_deg (v : double) (p : Planet) : Planet :=
  mkPlanet (name p) (id p) (eccentricity p) (semi_major_axis_au p)
           (inclination_deg p) (lon_asc_node_deg p) (arg_periapsis_deg p) v
           (epoch p) (x p) (y p) (z p).

Definition set_epoch (v : time_t) (p : Planet) : Planet :=
  mkPlanet (name p) (id p) (eccentricity p) (semi_major_axis_au p)
           (inclination_deg p) (lon_asc_node_deg p) (arg_periapsis_deg p)
           (mean_anomaly_deg p) v (x p) (y p) (z p).

Definition body (name id : string) : Planet :=
  mkPlanet name id (Num 0) (Num 0) (Num 0) (Num 0) (Num 0) (Num 0) 0%Z
           (Num 0) (Num 0) (Num 0).

Definition planets : list Planet :=
  [body "Mercury" "199"; body "Venus" "299"; body "Earth" "399";
   body "Mars" "499"; body "Jupiter" "599"; body "Saturn" "699";
   body "Uranus" "799"; body "Neptune" "899"; body "Pluto" "999"].

(** Each of the three [scanf("%10s", ...)] gives a word or fails. *)
Record Input : Type := mkInput {
  start_date_input : option string;
  end_date_input : option string;
  output_filename : option string;
  fopen_ok : bool
}.

Section Program.

Variable sscanf_lf : string -> string -> Libc.scan_result.
Variable mktime_date : string -> time_t.
Variable horizons_elements : string -> string -> transfer.

Definition fetch_orbital_elements : Planet -> string -> Z * Planet :=
  fetch_orbital_elements
    sscanf_lf mktime_date horizons_elements id
    set_eccentricity set_semi_major_axis_au set_inclination_deg
    set_lon_asc_node_deg set_arg_periapsis_deg set_mean_anomaly_deg
    set_epoch.

Definition fetch_loop : string -> list Planet
                        -> option (list Planet) * list string :=
  fetch_loop
    sscanf_lf mktime_date horizons_elements id
    set_eccentricity set_semi_major_axis_au set_inclination_deg
    set_lon_asc_node_deg set_arg_periapsis_deg set_mean_anomaly_deg
    set_epoch.

(** [fprintf(outfile, ",%s_x,%s_y,%s_z", name, name, name)] per body. *)
Definition header (ps : list Planet) : string :=
  ("Date"
   ++ String.concat ""
        (map (fun p => "," ++ name p ++ "_x," ++ name p ++ "_y,"
                       ++ name p ++ "_z") ps)
   ++ newline)%string.

(** The epoch of the elements is the start date of the simulation. *)
Definition main (input : Input) : Outcome (double * double * double) :=
  match start_date_input input with
  | None => mkOutcome 1 [] None
  | Some start_date_input =>
      match end_date_input input with
      | None => mkOutcome 1 [] None
      | Some end_date_input =>
          match output_filename input with
          | None => mkOutcome 1 [] None
          | Some _ =>
              let '(fetched, log) := fetch_loop start_date_input planets in
              match fetched with
              | None => mkOutcome 1 log None
              | Some planets =>
                  if fopen_ok input then
                    let start_t := mktime_date start_date_input in
                    let end_t := mktime_date end_date_input in
                    let st :=
                      KeplerSim3DMain.simulate planets start_t end_t in
                    mkOutcome 0 log (Some (header planets, outfile st))
                  else mkOutcome 1 log None
              end
          end
      end
  end.

End Program.

End KeplerSim3DProgram.

(** ** What a fetch leaves in a struct *)

Module Fetched2D.
Import KeplerSim.

(** Each element of [p] is the number converted for its key, the
    semi-major axis being the one converted for ["A ="], in kilometres,
    over [AU_TO_KM]. *)
Definition elements_scanned
           (sscanf_lf : string -> string -> Libc.scan_result)
           (elements_start : string) (p : Planet) : Prop :=
  scanned sscanf_lf elements_start "EC=" "EC= %lf" = Some (eccentricity p)
  /\ scanned sscanf_lf elements_start "IN=" "IN= %lf"
     = Some (inclination_deg p)
  /\ scanned sscanf_lf elements_start "OM=" "OM= %lf"
     = Some (lon_asc_node_deg p)
  /\ scanned sscanf_lf elements_start "W =" "W = %lf"
     = Some (arg_periapsis_deg p)
  /\ scanned sscanf_lf elements_start "MA=" "MA= %lf"
     = Some (mean_anomaly_deg p)
  /\ exists km,
       scanned sscanf_lf elements_start "A =" "A = %lf" = Some km
       /\ semi_major_axis_au p = (km / AU_TO_KM)%D.

(** A field after a failed fetch that saw the marker: the number
    converted for its key, or what it held. *)
Definition kept_or_scanned
           (sscanf_lf : string -> string -> Libc.scan_result)
           (elements_start key format : string) (old new : double) : Prop :=
  match scanned sscanf_lf elements_start key format with
  | Some v => new = v
  | None => new = old
  end.

End Fetched2D.

Module Fetched3D.
Import KeplerSim3D.

Definition elements_scanned
           (sscanf_lf : string -> string -> Libc.scan_result)
           (elements_start : string) (p : Planet) : Prop :=
  scanned sscanf_lf elements_start "EC=" "EC= %lf" = Some (eccentricity p)
  /\ scanned sscanf_lf elements_start "IN=" "IN= %lf"
     = Some (inclination_deg p)
  /\ scanned sscanf_lf elements_start "OM=" "OM= %lf"
     = Some (lon_asc_node_deg p)
  /\ scanned sscanf_lf elements_start "W =" "W = %lf"
     = Some (arg_periapsis_deg p)
  /\ scanned sscanf_lf elements_start "MA=" "MA= %lf"
     = Some (mean_anomaly_deg p)
  /\ exists km,
       scanned sscanf_lf elements_start "A =" "A = %lf" = Some km
       /\ semi_major_axis_au p = (km / AU_TO_KM)%D.

(** Name, identifier and position fields agree. *)
Definition same_labels_and_position (p q : Planet) : Prop :=
  name p = name q /\ id p = id q /\ x p = x q /\ y p = y q /\ z p = z q.

End Fetched3D.

(** A sample response and a sample [sscanf]: every conversion gives 2. *)
Definition sample_response : string :=
  "$$SOE EC= 2 IN= 2 OM= 2 W = 2 MA= 2 A = 2 $$EOE".

Definition sample_sscanf (format input : string) : Libc.scan_result :=
  Libc.Assigned (Num 2).

Definition sample_horizons (id epoch_str : string) : transfer :=
  Received sample_response.

Definition sample_mktime (date : string) : time_t := 0%Z.

Definition failing_horizons (id epoch_str : string) : transfer :=
  TransferFailed.

(** A [sscanf] that converts the eccentricity and nothing else. *)
Definition eccentricity_only_sscanf (format input : string)
  : Libc.scan_result :=
  if String.eqb format "EC= %lf" then Libc.Assigned (Num 2)
  else Libc.MatchingFailure.

(** ** planetary_logger.c

    The environment is a parameter again: [json_result text] is what
    [json_loads] and the lookup of the member "result" come to; the numbers
    [x_km] and [y_km] are locals without an initialiser, whose value when
    [sscanf] assigns nothing is indeterminate and is an input of each call
    of its own: [x_km_indeterminate id date] and [y_km_indeterminate id date]
    are what the two locals hold in the call made for body [id] on the day
    that starts at [date]; and [horizons_vectors id date] is what the
    request for the position of that body on that day comes to. *)

Inductive json_outcome : Type :=
| ParseError
| NoResultString
| ResultText (result_text : string).

Module PlanetaryLogger.

Record Planet : Type := mkPlanet {
  name : string;
  id : string;
  longitude : double
}.

Definition set_longitude (v : double) (p : Planet) : Planet :=
  mkPlanet (name p) (id p) v.

Definition body (name id : string) : Planet := mkPlanet name id (Num 0).

Record Input : Type := mkInput {
  start_date_input : string;
  num_days_to_log : Z;
  output_filename : string;
  fopen_ok : bool
}.

Section Parse.

Variable json_result : string -> json_outcome.
Variable sscanf_lf : string -> string -> Libc.scan_result.

(** [int parse_planet_data(const char *json_text, double *longitude)]: the
    status and what [*longitude] holds afterwards.  The first two
    arguments are what the locals [x_km] and [y_km] of this call hold
    before the two [sscanf]. *)
Definition parse_planet_data (x_km_indeterminate y_km_indeterminate : double)
           (json_text : string) (longitude : double)
  : Z * double :=
  match json_result json_text with
  | ParseError => ((-1)%Z, longitude)
  | NoResultString => ((-1)%Z, longitude)
  | ResultText result_text =>
      match Libc.strstr result_text "$$SOE" with
      | None => ((-1)%Z, longitude)
      | Some data_start =>
          match Libc.strstr data_start "X =",
                Libc.strstr data_start "Y =" with
          | Some x_ptr, Some y_ptr =>
              let x_km :=
                match sscanf_lf "X =%lf" x_ptr with
                | Libc.Assigned v => v
                | _ => x_km_indeterminate
                end in
              let y_km :=
                match sscanf_lf "Y =%lf" y_ptr with
                | Libc.Assigned v => v
                | _ => y_km_indeterminate
                end in
              (0%Z, longitude_of_xy y_km x_km)
          | _, _ => ((-1)%Z, longitude)
          end
      end
  end.

End Parse.

Section Program.

Variable json_result : string -> json_outcome.
Variable sscanf_lf : string -> string -> Libc.scan_result.
Variables x_km_indeterminate y_km_indeterminate : string -> time_t -> double.
Variable horizons_vectors : string -> time_t -> transfer.

(** The body of the inner loop: the request, the parse when the transfer
    succeeds (its status is not looked at), and
    [fprintf(outfile, ",%.4f", planets[i].longitude)]. *)
Definition visit (planet : Planet) (current_t : time_t) : Planet * double :=
  match horizons_vectors (id planet) current_t with
  | Received memory =>
      let '(_, l) :=
        parse_planet_data json_result sscanf_lf
                          (x_km_indeterminate (id planet) current_t)
                          (y_km_indeterminate (id planet) current_t)
                          memory (longitude planet) in
      (set_longitude l planet, l)
  | _ => (planet, longitude planet)
  end.

(** One day of the outer loop: a row, then [current_t = next_t]. *)
Definition day (state : time_t * Sim Planet double)
  : time_t * Sim Planet double :=
  let '(current_t, st) := state in
  let next_t := (current_t + 24 * 60 * 60)%Z in
  let '(ps, rs, log) := planets_loop visit current_t 0 (planets st) in
  (next_t,
   mkSim ps (outfile st ++ [(current_t, rs)]) (invocations st ++ log)).

(** The struct of a body after the visits of the first [k] days. *)
Fixpoint tracked (start_t : time_t) (planet : Planet) (k : nat) : Planet :=
  match k with
  | O => planet
  | S k =>
      fst (visit (tracked start_t planet k)
                 (start_t + SECONDS_IN_DAY * Z.of_nat k)%Z)
  end.

End Program.

Definition planets : list Planet :=
  [body "Sun" "10"; body "Moon" "301"; body "Mercury" "199";
   body "Venus" "299"; body "Mars" "499"; body "Jupiter" "599";
   body "Saturn" "699"; body "Uranus" "799"; body "Neptune" "899";
   body "Pluto" "999"].

Definition header (ps : list Planet) : string :=
  ("Date" ++ String.concat "" (map (fun p => "," ++ name p) ps) ++ newline)
    %string.

Section Main.

Variable json_result : string -> json_outcome.
Variable sscanf_lf : string -> string -> Libc.scan_result.
Variables x_km_indeterminate y_km_indeterminate : string -> time_t -> double.
Variable mktime_date : string -> time_t.
Variable horizons_vectors : string -> time_t -> transfer.

(** The exit status and the output file, when one is written:

      for (int day = 0; day < num_days_to_log; day++) { ... } *)
Definition main (input : Input) : Z * option (string * list (Row double)) :=
  if fopen_ok input then
    let current_t := mktime_date (start_date_input input) in
    let '(_, st) :=
      for_loop (num_days_to_log input)
               (day json_result sscanf_lf
                    x_km_indeterminate y_km_indeterminate horizons_vectors)
               0 (current_t, mkSim planets [] []) in
    (0%Z, Some (header planets, outfile st))
  else (1%Z, None).

End Main.

End PlanetaryLogger.

(** A service that answers no request, and a JSON reader that finds the
    sample response in every text. *)
Definition failing_vectors (id : string) (date : time_t) : transfer :=
  TransferFailed.

Definition sample_json (text : string) : json_outcome :=
  ResultText "$$SOE X = 1 Y = 1 $$EOE".

(** Locals that hold zero at every call. *)
Definition zero_indeterminate (id : string) (date : time_t) : double :=
  Num 0.

(** ** Arithmetic of [double] *)

Lemma dle_true (x y : double) :
  (x <=? y)%D = true <-> exists a b, x = Num a /\ y = Num b /\ (a <= b)%R.
Proof.
  destruct x as [|a], y as [|b]; simpl; split;
    try discriminate; try (intros (a' & b' & H1 & H2 & _); discriminate).
  - destruct (Rle_dec a b); [eauto | discriminate].
  - intros (a' & b' & H1 & H2 & H). inversion H1; inversion H2; subst.
    destruct (Rle_dec a' b'); [reflexivity | contradiction].
Qed.

Lemma Num_inj (a b : R) : Num a = Num b -> a = b.
Proof. intros H. injection H as ->. reflexivity. Qed.

Lemma dle_Num (a b : R) : (a <= b)%R -> (Num a <=? Num b)%D = true.
Proof. intros H. apply dle_true. eauto. Qed.

Lemma dle_Num_false (a b : R) : (b < a)%R -> (Num a <=? Num b)%D = false.
Proof. intros H. simpl. destruct (Rle_dec a b); [lra | reflexivity]. Qed.

Lemma dlt_Num (a b : R) : (a < b)%R -> (Num a <? Num b)%D = true.
Proof. intros H. simpl. destruct (Rlt_dec a b); [reflexivity | lra]. Qed.

Lemma dlt_Num_false (a b : R) : (b <= a)%R -> (Num a <? Num b)%D = false.
Proof. intros H. simpl. destruct (Rlt_dec a b); [lra | reflexivity]. Qed.

Lemma ddiv_Num (a b : R) : b <> 0%R -> (Num a / Num b)%D = Num (a / b).
Proof. intros H. simpl. destruct (Req_EM_T b 0); [contradiction | reflexivity]. Qed.

Lemma sqrt_Num (a : R) : (0 <= a)%R -> Libm.sqrt (Num a) = Num (sqrt a).
Proof. intros H. simpl. destruct (Rlt_dec a 0); [lra | reflexivity]. Qed.

Lemma fmod_Num (a b : R) :
  b <> 0%R -> Libm.fmod (Num a) (Num b) = Num (a - Rtrunc (a / b) * b).
Proof. intros H. simpl. destruct (Req_EM_T b 0); [contradiction | reflexivity]. Qed.

(** ** The [for] loop runs its body [hi - i] times *)

Lemma for_loop_iter (A : Type) (hi : Z) (body : A -> A) (i : Z) (s : A) :
  for_loop hi body i s = Nat.iter (Z.to_nat (hi - i)) body s.
Proof.
  funelim (for_loop hi body i s).
  - rewrite H. replace (Z.to_nat (hi - i)) with (S (Z.to_nat (hi - (i + 1)))) by lia.
    rewrite Nat.iter_succ_r. reflexivity.
  - replace (Z.to_nat (hi - i)) with 0%nat by lia. reflexivity.
Qed.

(** ** Rounding toward zero and [fmod] *)

Lemma Rtrunc_nonneg (r : R) :
  (0 <= r)%R -> (Rtrunc r <= r /\ r - 1 < Rtrunc r)%R.
Proof.
  intros Hr. unfold Rtrunc. destruct (Rle_dec 0 r) as [_ | Hn]; [| contradiction].
  destruct (base_Int_part r). lra.
Qed.

Lemma Rtrunc_neg (r : R) :
  (r < 0)%R -> (r <= Rtrunc r /\ Rtrunc r < r + 1)%R.
Proof.
  intros Hr. unfold Rtrunc. destruct (Rle_dec 0 r) as [Hp | _]; [lra |].
  destruct (base_Int_part (- r)). lra.
Qed.

Lemma Rtrunc_small (r : R) : (-1 < r < 1)%R -> Rtrunc r = 0%R.
Proof.
  intros Hr. unfold Rtrunc. destruct (Rle_dec 0 r) as [Hp | Hn].
  - rewrite <- (Int_part_spec r 0); [reflexivity | simpl; lra].
  - rewrite <- (Int_part_spec (- r) 0); [simpl; lra | simpl; lra].
Qed.

(** The remainder of a non-negative number by [b > 0] lies in [0, b). *)
Lemma fmod_range_nonneg (s b : R) :
  (0 < b)%R -> (0 <= s)%R ->
  (0 <= s - Rtrunc (s / b) * b < b)%R.
Proof.
  intros Hb Hs.
  assert (Hq : (0 <= s / b)%R).
  { unfold Rdiv. apply Rmult_le_pos; [lra |].
    apply Rlt_le, Rinv_0_lt_compat; lra. }
  destruct (Rtrunc_nonneg Hq) as [H1 H2].
  assert (Hsb : (s = s / b * b)%R) by (field; lra).
  split.
  - assert ((Rtrunc (s / b) * b <= s / b * b)%R) by (apply Rmult_le_compat_r; lra).
    lra.
  - assert (((s / b - 1) * b < Rtrunc (s / b) * b)%R) by (apply Rmult_lt_compat_r; lra).
    lra.
Qed.

(** The remainder of a negative number by [b > 0] lies in (-b, 0]. *)
Lemma fmod_range_neg (s b : R) :
  (0 < b)%R -> (s < 0)%R ->
  (- b < s - Rtrunc (s / b) * b <= 0)%R.
Proof.
  intros Hb Hs.
  assert (Hq : (s / b < 0)%R) by (apply Rdiv_neg_pos; lra).
  destruct (Rtrunc_neg Hq) as [H1 H2].
  assert (Hsb : (s = s / b * b)%R) by (field; lra).
  split.
  - assert ((Rtrunc (s / b) * b < (s / b + 1) * b)%R) by (apply Rmult_lt_compat_r; lra).
    lra.
  - assert ((s / b * b <= Rtrunc (s / b) * b)%R) by (apply Rmult_le_compat_r; lra).
    lra.
Qed.

(** ** The locals of the propagation on finite elements

    Lemmas of exact arithmetic: in the model a positive semi-major axis
    always gives a mean motion that is a number. *)

Lemma IZR_SECONDS_IN_DAY : IZR SECONDS_IN_DAY = 86400%R.
Proof. reflexivity. Qed.

Lemma days_since_epoch_Num (ep t : time_t) :
  days_since_epoch ep t = Num (IZR (t - ep) / 86400).
Proof.
  unfold days_since_epoch, Libm.difftime. rewrite IZR_SECONDS_IN_DAY.
  apply ddiv_Num. lra.
Qed.

Lemma mean_motion_Num (a : R) :
  (0 < a)%R ->
  mean_motion (Num a) = Num (360 / (sqrt (a ^ 3) * 365.25))
  /\ (0 < sqrt (a ^ 3) * 365.25)%R.
Proof.
  intros Ha. unfold mean_motion, Libm.pow. cbn [lift1].
  assert (H3 : (0 < a ^ 3)%R) by (apply pow_lt; exact Ha).
  rewrite sqrt_Num by lra.
  assert (Hs : (0 < sqrt (a ^ 3))%R) by (apply sqrt_lt_R0; exact H3).
  cbn [dmul lift2].
  assert (Hd : (0 < sqrt (a ^ 3) * 365.25)%R) by nra.
  split; [apply ddiv_Num; lra | exact Hd].
Qed.

Lemma mean_sum_Num (a M0 : R) (ep t : time_t) :
  (0 < a)%R ->
  (Num M0 + mean_motion (Num a) * days_since_epoch ep t)%D
  = Num (M0 + 360 / (sqrt (a ^ 3) * 365.25) * (IZR (t - ep) / 86400)).
Proof.
  intros Ha. destruct (mean_motion_Num Ha) as [-> _].
  rewrite days_since_epoch_Num. reflexivity.
Qed.

Lemma mean_anomaly_Num (a M0 : R) (ep t : time_t) :
  (0 < a)%R ->
  exists s, (Num M0 + mean_motion (Num a) * days_since_epoch ep t)%D = Num s
            /\ mean_anomaly (Num a) (Num M0) ep t
               = Num (s - Rtrunc (s / 360) * 360).
Proof.
  intros Ha. eexists. split; [apply mean_sum_Num; exact Ha |].
  unfold mean_anomaly. rewrite mean_sum_Num by exact Ha.
  apply fmod_Num. lra.
Qed.

Lemma M_rad_finite (a M0 : R) (ep t : time_t) :
  (0 < a)%R -> finite (M_rad (Num a) (Num M0) ep t).
Proof.
  intros Ha. destruct (mean_anomaly_Num M0 ep t Ha) as (s & _ & Hm).
  unfold M_rad, M_PI. rewrite Hm. cbn [dmul lift2].
  rewrite ddiv_Num by lra. eexists. reflexivity.
Qed.

(** ** The Kepler solver *)

Lemma kepler_solve_iter (e M : double) :
  kepler_solve e M = Nat.iter 10 (newton_update e M) M.
Proof. unfold kepler_solve. rewrite for_loop_iter. reflexivity. Qed.

(** C2.  For every eccentricity [e] and mean anomaly [M] the solver hands
    back the result of exactly ten Newton-Raphson updates
    [E <- E - (E - e sin E - M) / (1 - e cos E)] applied in turn to the
    start value [E0 = M]: the loop has no convergence test and no early
    exit, it is defined on every input, and its result is the tenth
    iterate whatever that is; the calculators use it at [M = M_rad]. *)
Theorem kepler_solver_ten_fixed_iterations (e M : double) :
  let update := fun E : double =>
    (E - (E - e * Libm.sin E - M) / (Num 1 - e * Libm.cos E))%D in
  kepler_solve e M = Nat.iter 10 update M
  /\ kepler_solve e M
     = update (update (update (update (update
         (update (update (update (update (update M)))))))))
  /\ forall (a M0 : double) (ep t : time_t),
       E_rad e a M0 ep t = kepler_solve e (M_rad a M0 ep t).
Proof.
  intros update.
  assert (H : kepler_solve e M = Nat.iter 10 update M)
    by apply kepler_solve_iter.
  split; [exact H |]. split; [rewrite H; reflexivity |].
  reflexivity.
Qed.

Lemma newton_denominator_Num (e E : R) :
  (0 <= e < 1)%R ->
  newton_denominator (Num e) (Num E) = Num (1 - e * cos E)
  /\ (0 < 1 - e * cos E)%R.
Proof.
  intros He. split; [reflexivity |].
  destruct (COS_bound E) as [Hlo Hhi]. nra.
Qed.

Lemma newton_update_finite (e M E : R) :
  (0 <= e < 1)%R -> finite (newton_update (Num e) (Num M) (Num E)).
Proof.
  intros He. unfold newton_update.
  destruct (newton_denominator_Num E He) as [-> Hpos].
  cbn [Libm.sin lift1 dmul dsub lift2].
  rewrite ddiv_Num by lra. eexists. reflexivity.
Qed.

Lemma newton_iterates_finite (e M : R) (k : nat) :
  (0 <= e < 1)%R ->
  finite (Nat.iter k (newton_update (Num e) (Num M)) (Num M)).
Proof.
  intros He. induction k as [| k IH].
  - eexists. reflexivity.
  - simpl. destruct IH as [E ->]. apply newton_update_finite. exact He.
Qed.

Lemma kepler_solve_finite (e M : R) :
  (0 <= e < 1)%R -> finite (kepler_solve (Num e) (Num M)).
Proof.
  intros He. rewrite kepler_solve_iter.
  apply newton_iterates_finite. exact He.
Qed.

(** C10.  For an eccentricity in [0, 1) the divisor [1 - e cos E] of the
    update is a positive number at every real [E]; hence, from every real
    start value [M], each iterate of the loop is a number and the divisor
    met at it is positive: the solver never divides by zero and its result
    is a number. *)
Theorem newton_denominator_positive (e M : R) :
  (0 <= e < 1)%R ->
  (forall E : R,
      exists d, newton_denominator (Num e) (Num E) = Num d /\ (0 < d)%R)
  /\ (forall k : nat,
         exists E d,
           Nat.iter k (newton_update (Num e) (Num M)) (Num M) = Num E
           /\ newton_denominator (Num e) (Num E) = Num d /\ (0 < d)%R)
  /\ finite (kepler_solve (Num e) (Num M)).
Proof.
  intros He. split; [| split].
  - intros E. destruct (newton_denominator_Num E He) as [H1 H2]. eauto.
  - intros k. destruct (newton_iterates_finite M k He) as [E HE].
    destruct (newton_denominator_Num E He) as [H1 H2]. eauto.
  - apply kepler_solve_finite. exact He.
Qed.

Lemma newton_denominator_positive_witness :
  (forall E : R,
      exists d, newton_denominator (Num 0.0167) (Num E) = Num d /\ (0 < d)%R)
  /\ (forall k : nat,
         exists E d,
           Nat.iter k (newton_update (Num 0.0167) (Num 1.5)) (Num 1.5) = Num E
           /\ newton_denominator (Num 0.0167) (Num E) = Num d /\ (0 < d)%R)
  /\ finite (kepler_solve (Num 0.0167) (Num 1.5)).
Proof.
  apply (@newton_denominator_positive 0.0167 1.5). lra.
Defined.

Lemma E_rad_finite (e a M0 : R) (ep t : time_t) :
  (0 <= e < 1)%R -> (0 < a)%R ->
  finite (E_rad (Num e) (Num a) (Num M0) ep t).
Proof.
  intros He Ha. unfold E_rad.
  destruct (M_rad_finite M0 ep t Ha) as [m ->].
  apply kepler_solve_finite. exact He.
Qed.

(** ** The three-angle rotation *)

Lemma rotation_preserves_norm (xo yo cw sw cN sN ci si : R) :
  (cw * cw + sw * sw = 1)%R ->
  (cN * cN + sN * sN = 1)%R ->
  (ci * ci + si * si = 1)%R ->
  let X := (xo * (cw * cN - sw * sN * ci) - yo * (sw * cN + cw * sN * ci))%R in
  let Y := (xo * (cw * sN + sw * cN * ci) + yo * (- sw * sN + cw * cN * ci))%R in
  let Z := (xo * (sw * si) + yo * (cw * si))%R in
  (X * X + Y * Y + Z * Z = xo * xo + yo * yo)%R.
Proof.
  intros Hw HN Hi X Y Z. unfold X, Y, Z.
  transitivity
    (xo * xo * (cw * cw * (cN * cN + sN * sN)
                + sw * sw * (ci * ci * (cN * cN + sN * sN) + si * si))
     + yo * yo * (sw * sw * (cN * cN + sN * sN)
                  + cw * cw * (ci * ci * (cN * cN + sN * sN) + si * si))
     + 2 * xo * yo * (sw * cw * (ci * ci * (cN * cN + sN * sN) + si * si
                                 - (cN * cN + sN * sN))))%R.
  - ring.
  - rewrite HN. rewrite !Rmult_1_r. rewrite Hi.
    replace (xo * xo * (cw * cw + sw * sw * 1))%R
      with (xo * xo * (cw * cw + sw * sw))%R by ring.
    replace (yo * yo * (sw * sw + cw * cw * 1))%R
      with (yo * yo * (cw * cw + sw * sw))%R by ring.
    rewrite Hw. ring.
Qed.

Lemma cos_sin_unit (r : R) : (cos r * cos r + sin r * sin r = 1)%R.
Proof. pose proof (sin2_cos2 r) as H. unfold Rsqr in H. lra. Qed.

(** The angles in radians of finite angles in degrees. *)
Lemma deg_to_rad_Num (d : R) : (Num d * M_PI / Num 180)%D = Num (radians d).
Proof. unfold M_PI, radians. cbn [dmul lift2]. apply ddiv_Num. lra. Qed.

(** ** The circular orbit

    The fixed point of the update is what binary64 computes too; the two
    lemmas on a positive semi-major axis are lemmas of exact arithmetic. *)

Lemma newton_update_circular_fixed (m : R) :
  newton_update (Num 0) (Num m) (Num m) = Num m.
Proof.
  unfold newton_update, newton_denominator.
  cbn [Libm.sin Libm.cos lift1 dmul dsub lift2].
  rewrite ddiv_Num by lra. cbn [dsub lift2]. f_equal.
  replace (m - 0 * sin m - m)%R with 0%R by ring.
  unfold Rdiv. ring.
Qed.

Lemma iter_fixed (A : Type) (f : A -> A) (x : A) (k : nat) :
  f x = x -> Nat.iter k f x = x.
Proof.
  intros H. induction k as [| k IH]; [reflexivity |].
  simpl. rewrite IH. exact H.
Qed.

Lemma E_rad_circular (a M0 : R) (ep t : time_t) :
  (0 < a)%R ->
  E_rad (Num 0) (Num a) (Num M0) ep t = M_rad (Num a) (Num M0) ep t.
Proof.
  intros Ha. unfold E_rad.
  destruct (M_rad_finite M0 ep t Ha) as [m ->].
  rewrite kepler_solve_iter.
  apply iter_fixed. apply newton_update_circular_fixed.
Qed.

Lemma orbit_circular (a M0 : R) (ep t : time_t) :
  (0 < a)%R ->
  exists E,
    E_rad (Num 0) (Num a) (Num M0) ep t = Num E
    /\ x_orb (Num 0) (Num a) (Num M0) ep t = Num (a * cos E)
    /\ y_orb (Num 0) (Num a) (Num M0) ep t = Num (a * sin E).
Proof.
  intros Ha. destruct (M_rad_finite M0 ep t Ha) as [m Hm].
  exists m. pose proof (E_rad_circular M0 ep t Ha) as HE. rewrite Hm in HE.
  split; [exact HE |]. unfold x_orb, y_orb. rewrite HE.
  cbn [Libm.sin Libm.cos lift1 dmul dsub lift2].
  replace (1 - 0 * 0)%R with 1%R by ring.
  rewrite sqrt_Num by lra. rewrite sqrt_1. cbn [dmul lift2].
  split; f_equal; ring.
Qed.

(** ** The rotated coordinates on finite values

    Lemmas of exact arithmetic. *)

Section Rotated.

Variables (e a M0 : double) (ep t : time_t).
Variables (xo yo i N w : R).
Hypothesis Hx : x_orb e a M0 ep t = Num xo.
Hypothesis Hy : y_orb e a M0 ep t = Num yo.

Lemma x_ecl_Num :
  x_ecl e a (Num i) (Num N) (Num w) M0 ep t
  = Num (xo * (cos (radians w) * cos (radians N) - sin (radians w) * sin (radians N) * cos (radians i))
         - yo * (sin (radians w) * cos (radians N) + cos (radians w) * sin (radians N) * cos (radians i))).
Proof.
  unfold x_ecl, w_rad, N_rad, i_rad. rewrite Hx, Hy, !deg_to_rad_Num.
  reflexivity.
Qed.

Lemma y_ecl_Num :
  y_ecl e a (Num i) (Num N) (Num w) M0 ep t
  = Num (xo * (cos (radians w) * sin (radians N) + sin (radians w) * cos (radians N) * cos (radians i))
         + yo * (- sin (radians w) * sin (radians N) + cos (radians w) * cos (radians N) * cos (radians i))).
Proof.
  unfold y_ecl, w_rad, N_rad, i_rad. rewrite Hx, Hy, !deg_to_rad_Num.
  reflexivity.
Qed.

Lemma z_ecl_Num :
  z_ecl e a (Num i) (Num w) M0 ep t
  = Num (xo * (sin (radians w) * sin (radians i)) + yo * (cos (radians w) * sin (radians i))).
Proof.
  unfold z_ecl, w_rad, i_rad. rewrite Hx, Hy, !deg_to_rad_Num.
  reflexivity.
Qed.

Lemma ecl_norm :
  exists X Y Z,
    x_ecl e a (Num i) (Num N) (Num w) M0 ep t = Num X
    /\ y_ecl e a (Num i) (Num N) (Num w) M0 ep t = Num Y
    /\ z_ecl e a (Num i) (Num w) M0 ep t = Num Z
    /\ (X * X + Y * Y + Z * Z = xo * xo + yo * yo)%R.
Proof.
  do 3 eexists. split; [apply x_ecl_Num |].
  split; [apply y_ecl_Num |]. split; [apply z_ecl_Num |].
  apply rotation_preserves_norm; apply cos_sin_unit.
Qed.

End Rotated.

(** ** The guard on the semi-major axis *)

Lemma position_of_calculate_position (p : KeplerSim3D.Planet) (t : time_t) :
  (KeplerSim3D.semi_major_axis_au p <=? Num 0)%D = false ->
  Elements3D.position (KeplerSim3D.calculate_position p t)
  = (x_ecl (KeplerSim3D.eccentricity p) (KeplerSim3D.semi_major_axis_au p)
           (KeplerSim3D.inclination_deg p) (KeplerSim3D.lon_asc_node_deg p)
           (KeplerSim3D.arg_periapsis_deg p) (KeplerSim3D.mean_anomaly_deg p)
           (KeplerSim3D.epoch p) t,
     y_ecl (KeplerSim3D.eccentricity p) (KeplerSim3D.semi_major_axis_au p)
           (KeplerSim3D.inclination_deg p) (KeplerSim3D.lon_asc_node_deg p)
           (KeplerSim3D.arg_periapsis_deg p) (KeplerSim3D.mean_anomaly_deg p)
           (KeplerSim3D.epoch p) t,
     z_ecl (KeplerSim3D.eccentricity p) (KeplerSim3D.semi_major_axis_au p)
           (KeplerSim3D.inclination_deg p) (KeplerSim3D.arg_periapsis_deg p)
           (KeplerSim3D.mean_anomaly_deg p) (KeplerSim3D.epoch p) t).
Proof.
  intros Hg. unfold KeplerSim3D.calculate_position. rewrite Hg. reflexivity.
Qed.

Lemma position_of_invalid (p : KeplerSim3D.Planet) (t : time_t) :
  (KeplerSim3D.semi_major_axis_au p <=? Num 0)%D = true ->
  Elements3D.position (KeplerSim3D.calculate_position p t) = (NaN, NaN, NaN).
Proof.
  intros Hg. unfold KeplerSim3D.calculate_position. rewrite Hg. reflexivity.
Qed.

(** ** The circular orbit in space *)

(** C5, as the code has it.  With an eccentricity of 0 a Newton-Raphson
    update hands back the value it is given when that value is the mean
    anomaly, so that the solver hands back the value it starts from,
    [E = M], and the point of the orbital plane is
    [(a * cos(M_rad), a * sin(M_rad))], the point at the angle [M_rad] of
    the circle of radius [a] as far as the rounding of [cos], [sin] and
    the two products goes; this for every semi-major axis, mean anomaly
    at epoch and date, not-a-number included. *)
Theorem circular_solver_returns_mean_anomaly
        (M a M0 : double) (ep t : time_t) :
  newton_update (Num 0) M M = M
  /\ kepler_solve (Num 0) M = M
  /\ E_rad (Num 0) a M0 ep t = M_rad a M0 ep t
  /\ x_orb (Num 0) a M0 ep t = (a * Libm.cos (M_rad a M0 ep t))%D
  /\ y_orb (Num 0) a M0 ep t = (a * Libm.sin (M_rad a M0 ep t))%D.
Proof.
  assert (Hstep : forall m : double, newton_update (Num 0) m m = m).
  { intros [| m]; [reflexivity | apply newton_update_circular_fixed]. }
  assert (Hsolve : forall m : double, kepler_solve (Num 0) m = m).
  { intros m. rewrite kepler_solve_iter. apply iter_fixed. apply Hstep. }
  assert (HE : E_rad (Num 0) a M0 ep t = M_rad a M0 ep t)
    by (unfold E_rad; apply Hsolve).
  split; [apply Hstep |]. split; [apply Hsolve |]. split; [exact HE |].
  unfold x_orb, y_orb. rewrite HE.
  cbn [dmul dsub lift2]. rewrite sqrt_Num by lra.
  replace (1 - 0 * 0)%R with 1%R by ring. rewrite sqrt_1.
  destruct a as [| ar]; destruct (M_rad _ M0 ep t) as [| m];
    cbn [Libm.sin Libm.cos lift1 dmul dsub lift2];
    split; try reflexivity; f_equal; ring.
Qed.


(** Exact arithmetic.  On a valid element set with eccentricity 0 the
    solver hands back its start value, [E = M], the point of the orbital
    plane is at distance [a] from the centre, [x_orb^2 + y_orb^2 = a^2],
    and so is the rotated position, [x^2 + y^2 + z^2 = a^2].  Of these,
    [E = M] is also what binary64 computes; the two distances are those of
    the real numbers [cos E] and [sin E], which binary64 reaches up to
    rounding only, and only while [a^3] does not underflow. *)
Theorem circular_orbit_constant_radius
  (p : KeplerSim3D.Planet) (t : time_t) (a : R) :
  Elements3D.valid p ->
  KeplerSim3D.eccentricity p = Num 0 ->
  KeplerSim3D.semi_major_axis_au p = Num a ->
  let e := KeplerSim3D.eccentricity p in
  let M0 := KeplerSim3D.mean_anomaly_deg p in
  let ep := KeplerSim3D.epoch p in
  (forall m : R, kepler_solve (Num 0) (Num m) = Num m)
  /\ E_rad e (Num a) M0 ep t = M_rad (Num a) M0 ep t
  /\ (exists xo yo,
         x_orb e (Num a) M0 ep t = Num xo /\ y_orb e (Num a) M0 ep t = Num yo
         /\ (xo * xo + yo * yo = a * a)%R)
  /\ (exists X Y Z,
         Elements3D.position (KeplerSim3D.calculate_position p t)
         = (Num X, Num Y, Num Z)
         /\ (X * X + Y * Y + Z * Z = a * a)%R).
Proof.
  intros Hv He Ha e M0 ep. subst e M0 ep.
  destruct Hv as (er & ar & _ & Har & _ & Hpos & [i Hi] & [N HN] & [w Hw] & [m Hm]).
  rewrite Ha in Har. injection Har as <-.
  rewrite He, Hm.
  destruct (orbit_circular m (KeplerSim3D.epoch p) t Hpos) as (E & HE & Hxo & Hyo).
  assert (Hnorm : (a * cos E * (a * cos E) + a * sin E * (a * sin E) = a * a)%R).
  { pose proof (cos_sin_unit E) as Hu.
    replace (a * cos E * (a * cos E) + a * sin E * (a * sin E))%R
      with (a * a * (cos E * cos E + sin E * sin E))%R by ring.
    rewrite Hu. ring. }
  split.
  { intros m'. rewrite kepler_solve_iter. apply iter_fixed.
    apply newton_update_circular_fixed. }
  split; [apply E_rad_circular; exact Hpos |]. split.
  - exists (a * cos E)%R, (a * sin E)%R. auto.
  - rewrite position_of_calculate_position
      by (rewrite Ha; apply dle_Num_false; exact Hpos).
    rewrite He, Ha, Hi, HN, Hw, Hm.
    destruct (@ecl_norm _ _ _ _ _ _ _ i N w Hxo Hyo) as (X & Y & Z & -> & -> & -> & HXYZ).
    exists X, Y, Z. split; [reflexivity | lra].
Qed.

(** ** The dates of a range *)

Lemma dates_empty (start_t end_t : time_t) :
  (end_t < start_t)%Z -> dates start_t end_t = [].
Proof.
  intros H. unfold dates.
  assert (Hq : ((end_t - start_t) / SECONDS_IN_DAY < 0)%Z).
  { apply Z.div_lt_upper_bound; unfold SECONDS_IN_DAY; lia. }
  replace (Z.to_nat ((end_t - start_t) / SECONDS_IN_DAY + 1)) with 0%nat by lia.
  reflexivity.
Qed.

Lemma dates_count_step (start_t end_t : time_t) :
  (start_t <= end_t)%Z ->
  Z.to_nat ((end_t - start_t) / SECONDS_IN_DAY + 1)
  = S (Z.to_nat ((end_t - (start_t + SECONDS_IN_DAY)) / SECONDS_IN_DAY + 1)).
Proof.
  intros H.
  replace (end_t - (start_t + SECONDS_IN_DAY))%Z
    with (end_t - start_t + (-1) * SECONDS_IN_DAY)%Z by ring.
  rewrite Z.div_add by (unfold SECONDS_IN_DAY; lia).
  assert (0 <= (end_t - start_t) / SECONDS_IN_DAY)%Z.
  { apply Z.div_pos; unfold SECONDS_IN_DAY; lia. }
  lia.
Qed.

Lemma dates_step (start_t end_t : time_t) :
  (start_t <= end_t)%Z ->
  dates start_t end_t = start_t :: dates (start_t + SECONDS_IN_DAY)%Z end_t.
Proof.
  intros H. unfold dates. rewrite (dates_count_step H).
  cbn [seq map].
  replace (start_t + SECONDS_IN_DAY * Z.of_nat 0)%Z with start_t by lia.
  apply (f_equal (cons start_t)).
  rewrite <- seq_shift, map_map. apply map_ext. intros k. lia.
Qed.

Lemma dates_progression (start_t end_t : time_t) :
  (start_t <= end_t)%Z ->
  exists n : nat,
    dates start_t end_t
    = map (fun k => (start_t + SECONDS_IN_DAY * Z.of_nat k)%Z) (seq 0 (S n))
    /\ (start_t + SECONDS_IN_DAY * Z.of_nat n <= end_t
        < start_t + SECONDS_IN_DAY * Z.of_nat (S n))%Z.
Proof.
  intros H.
  assert (Hq : (0 <= (end_t - start_t) / SECONDS_IN_DAY)%Z).
  { apply Z.div_pos; unfold SECONDS_IN_DAY; lia. }
  exists (Z.to_nat ((end_t - start_t) / SECONDS_IN_DAY)). split.
  - unfold dates. f_equal. f_equal. lia.
  - pose proof (Z.div_mod (end_t - start_t) SECONDS_IN_DAY) as Hdm.
    pose proof (Z.mod_pos_bound (end_t - start_t) SECONDS_IN_DAY) as Hmb.
    unfold SECONDS_IN_DAY in *. lia.
Qed.

Lemma dates_NoDup (start_t end_t : time_t) : NoDup (dates start_t end_t).
Proof.
  unfold dates. apply Injective_map_NoDup_in; [| apply seq_NoDup].
  intros j k _ _ Hjk. unfold SECONDS_IN_DAY in Hjk. lia.
Qed.

(** ** The calls of a run *)

Lemma in_calls_on (num_planets : nat) (d : time_t) (i : nat) (d' : time_t) :
  In (i, d') (calls_on num_planets d) <-> (i < num_planets)%nat /\ d' = d.
Proof.
  unfold calls_on. rewrite in_map_iff. split.
  - intros (k & Hk & Hin). injection Hk as -> ->.
    apply in_seq in Hin. split; [lia | reflexivity].
  - intros [Hi ->]. exists i. split; [reflexivity |]. apply in_seq. lia.
Qed.

Lemma calls_on_NoDup (num_planets : nat) (d : time_t) :
  NoDup (calls_on num_planets d).
Proof.
  unfold calls_on. apply Injective_map_NoDup_in; [| apply seq_NoDup].
  intros j k _ _ Hjk. injection Hjk as ->. reflexivity.
Qed.

Lemma calls_on_length (num_planets : nat) (d : time_t) :
  length (calls_on num_planets d) = num_planets.
Proof. unfold calls_on. rewrite length_map, length_seq. reflexivity. Qed.

Lemma one_call_per_pair_flat (num_planets : nat) (ds : list time_t) :
  NoDup ds ->
  one_call_per_pair num_planets ds (flat_map (calls_on num_planets) ds).
Proof.
  intros Hnd. unfold one_call_per_pair. split; [| split].
  - induction Hnd as [| d ds Hd Hnd IH]; [constructor |].
    cbn [flat_map]. apply NoDup_app; [apply calls_on_NoDup | exact IH |].
    intros [i d'] H1 H2. apply in_calls_on in H1 as [_ ->].
    apply in_flat_map in H2 as (d2 & Hd2 & Hin).
    apply in_calls_on in Hin as [_ ->]. contradiction.
  - clear Hnd. induction ds as [| d ds IH]; [simpl; lia |].
    cbn [flat_map]. rewrite length_app, calls_on_length, IH. simpl. lia.
  - intros i d. rewrite in_flat_map. split.
    + intros (d' & Hd' & Hin). apply in_calls_on in Hin as [Hi ->]. auto.
    + intros [Hi Hd]. exists d. split; [exact Hd |]. apply in_calls_on. auto.
Qed.

(** ** The daily loop, for any calculator

    [same] relates the struct of a body before and after calculator calls:
    a call keeps it, and the values printed depend on it alone. *)

Section SimulationFacts.

Variables Planet Result : Type.
Variable visit : Planet -> time_t -> Planet * Result.
Variable same : Planet -> Planet -> Prop.

Hypothesis same_trans : forall p q r, same p q -> same q r -> same p r.
Hypothesis visit_same : forall p t, same p (fst (visit p t)).
Hypothesis visit_result :
  forall p q t, same p q -> snd (visit p t) = snd (visit q t).

Lemma planets_loop_spec (t : time_t) (ps0 ps : list Planet) :
  Forall2 same ps0 ps ->
  forall i : nat,
    Forall2 same ps0 (fst (fst (planets_loop visit t i ps)))
    /\ snd (fst (planets_loop visit t i ps))
       = map (fun p => snd (visit p t)) ps0
    /\ snd (planets_loop visit t i ps)
       = map (fun k => (k, t)) (seq i (length ps0)).
Proof.
  induction 1 as [| p0 p ps0 ps Hp Hps IH]; intros i.
  - repeat split. constructor.
  - cbn [planets_loop].
    pose proof (visit_same p t) as Hs.
    pose proof (visit_result t Hp) as Hr.
    destruct (visit p t) as [p' r].
    specialize (IH (S i)). destruct (planets_loop visit t (S i) ps) as [[ps' rs] log].
    cbn [fst snd] in *. destruct IH as (IH1 & IH2 & IH3).
    split; [| split].
    + constructor; [eapply same_trans; eassumption | exact IH1].
    + cbn [map]. rewrite Hr, IH2. reflexivity.
    + cbn [length seq map]. rewrite IH3. reflexivity.
Qed.

Lemma main_loop_spec (end_t current_t : time_t) (st : Sim Planet Result) :
  forall ps0 : list Planet,
    Forall2 same ps0 (planets st) ->
    Forall2 same ps0 (planets (main_loop visit end_t current_t st))
    /\ outfile (main_loop visit end_t current_t st)
       = outfile st
         ++ map (fun d => (d, map (fun p => snd (visit p d)) ps0))
                (dates current_t end_t)
    /\ invocations (main_loop visit end_t current_t st)
       = invocations st
         ++ flat_map (calls_on (length ps0)) (dates current_t end_t).
Proof.
  funelim (main_loop visit end_t current_t st); intros ps0 Hps0.
  - clear Heqcall.
    destruct (planets_loop_spec current_t Hps0 0) as (L1 & L2 & L3).
    destruct (planets_loop visit current_t 0 (planets st)) as [[ps rs] log].
    cbn [fst snd] in *.
    destruct (H (ps, rs) log ps rs ps0 L1) as (H1 & H2 & H3).
    rewrite (dates_step l). cbn [map flat_map].
    split; [exact H1 | split].
    + rewrite H2. cbn [outfile]. rewrite <- app_assoc, L2. reflexivity.
    + rewrite H3. cbn [invocations]. rewrite <- app_assoc, L3. reflexivity.
  - rewrite dates_empty by lia. cbn [map flat_map]. rewrite !app_nil_r.
    auto.
Qed.

Lemma simulate_spec (ps : list Planet) (start_t end_t : time_t) :
  (forall p, same p p) ->
  Forall2 same ps (planets (simulate visit ps start_t end_t))
  /\ outfile (simulate visit ps start_t end_t)
     = map (fun d => (d, map (fun p => snd (visit p d)) ps))
           (dates start_t end_t)
  /\ invocations (simulate visit ps start_t end_t)
     = flat_map (calls_on (length ps)) (dates start_t end_t).
Proof.
  intros same_refl. unfold simulate.
  apply (main_loop_spec end_t start_t (mkSim ps [] [])).
  cbn [planets]. induction ps; constructor; auto.
Qed.

End SimulationFacts.

(** ** What [calculate_position] reads and writes *)

Lemma same_but_position_refl (p : KeplerSim3D.Planet) :
  Elements3D.same_but_position p p.
Proof. unfold Elements3D.same_but_position, Elements3D.same_elements. tauto. Qed.

Lemma same_but_position_trans (p q r : KeplerSim3D.Planet) :
  Elements3D.same_but_position p q -> Elements3D.same_but_position q r ->
  Elements3D.same_but_position p r.
Proof.
  unfold Elements3D.same_but_position, Elements3D.same_elements.
  intros (A1 & A2 & A3 & A4 & A5 & A6 & A7 & A8 & A9)
         (B1 & B2 & B3 & B4 & B5 & B6 & B7 & B8 & B9).
  repeat split; etransitivity; eassumption.
Qed.

Lemma calculate_position_frame (p : KeplerSim3D.Planet) (t : time_t) :
  KeplerSim3D.calculate_position p t
  = KeplerSim3D.mkPlanet
      (KeplerSim3D.name p) (KeplerSim3D.id p) (KeplerSim3D.eccentricity p)
      (KeplerSim3D.semi_major_axis_au p) (KeplerSim3D.inclination_deg p)
      (KeplerSim3D.lon_asc_node_deg p) (KeplerSim3D.arg_periapsis_deg p)
      (KeplerSim3D.mean_anomaly_deg p) (KeplerSim3D.epoch p)
      (KeplerSim3D.x (KeplerSim3D.calculate_position p t))
      (KeplerSim3D.y (KeplerSim3D.calculate_position p t))
      (KeplerSim3D.z (KeplerSim3D.calculate_position p t)).
Proof.
  unfold KeplerSim3D.calculate_position.
  destruct (KeplerSim3D.semi_major_axis_au p <=? Num 0)%D; reflexivity.
Qed.

Lemma calculate_position_same (p : KeplerSim3D.Planet) (t : time_t) :
  Elements3D.same_but_position p (KeplerSim3D.calculate_position p t).
Proof.
  rewrite calculate_position_frame.
  unfold Elements3D.same_but_position, Elements3D.same_elements.
  cbn. tauto.
Qed.

Lemma position_depends_on_elements (p q : KeplerSim3D.Planet) (t : time_t) :
  Elements3D.same_elements p q ->
  Elements3D.position (KeplerSim3D.calculate_position p t)
  = Elements3D.position (KeplerSim3D.calculate_position q t).
Proof.
  intros (H1 & H2 & H3 & H4 & H5 & H6 & H7).
  unfold KeplerSim3D.calculate_position.
  rewrite H1, H2, H3, H4, H5, H6, H7.
  destruct (KeplerSim3D.semi_major_axis_au q <=? Num 0)%D; reflexivity.
Qed.

Lemma longitude_depends_on_elements (p q : KeplerSim.Planet) (t : time_t) :
  Elements2D.same_elements p q ->
  KeplerSim.calculate_longitude p t = KeplerSim.calculate_longitude q t.
Proof.
  intros (H1 & H2 & H3 & H4 & H5 & H6 & H7).
  unfold KeplerSim.calculate_longitude.
  rewrite H1, H2, H3, H4, H5, H6, H7. reflexivity.
Qed.

(** ** The two runs *)

Lemma simulate2d_spec (ps : list KeplerSim.Planet) (start_t end_t : time_t) :
  planets (KeplerSimMain.simulate ps start_t end_t) = ps
  /\ outfile (KeplerSimMain.simulate ps start_t end_t)
     = map (fun d => (d, map (fun p => KeplerSim.calculate_longitude p d) ps))
           (dates start_t end_t)
  /\ invocations (KeplerSimMain.simulate ps start_t end_t)
     = flat_map (calls_on (length ps)) (dates start_t end_t).
Proof.
  destruct (@simulate_spec _ _ KeplerSimMain.visit eq) with
    (ps := ps) (start_t := start_t) (end_t := end_t)
    as (H1 & H2 & H3).
  - intros; congruence.
  - reflexivity.
  - intros p q t ->. reflexivity.
  - reflexivity.
  - split; [| split; assumption].
    symmetry. clear H2 H3. unfold KeplerSimMain.simulate.
    induction H1; congruence.
Qed.

Lemma simulate3d_spec (ps : list KeplerSim3D.Planet) (start_t end_t : time_t) :
  Forall2 Elements3D.same_but_position ps
          (planets (KeplerSim3DMain.simulate ps start_t end_t))
  /\ outfile (KeplerSim3DMain.simulate ps start_t end_t)
     = map (fun d =>
              (d, map (fun p => Elements3D.position
                                  (KeplerSim3D.calculate_position p d)) ps))
           (dates start_t end_t)
  /\ invocations (KeplerSim3DMain.simulate ps start_t end_t)
     = flat_map (calls_on (length ps)) (dates start_t end_t).
Proof.
  apply (@simulate_spec _ _ KeplerSim3DMain.visit Elements3D.same_but_position).
  - apply same_but_position_trans.
  - intros p t. apply calculate_position_same.
  - intros p q t (_ & _ & H). apply (position_depends_on_elements t H).
  - apply same_but_position_refl.
Qed.

Lemma rows_dates (Planet Result : Type) (calc : Planet -> time_t -> Result)
      (ps : list Planet) (ds : list time_t) :
  map fst (map (fun d => (d, map (fun p => calc p d) ps)) ds) = ds.
Proof. rewrite map_map. cbn [fst]. apply map_id. Qed.

Lemma rows_promises (Planet Result : Type) (calc : Planet -> time_t -> Result)
      (ps : list Planet) (start_t end_t : time_t) (rows : list (Row Result))
      (log : list (nat * time_t)) :
  (start_t <= end_t)%Z ->
  rows = map (fun d => (d, map (fun p => calc p d) ps)) (dates start_t end_t) ->
  log = flat_map (calls_on (length ps)) (dates start_t end_t) ->
  one_row_per_date start_t end_t rows
  /\ one_result_per_body calc ps rows
  /\ log = flat_map (calls_on (length ps)) (map fst rows)
  /\ one_call_per_pair (length ps) (map fst rows) log.
Proof.
  intros Hle -> ->. rewrite rows_dates. split; [| split; [| split]].
  - unfold one_row_per_date. rewrite rows_dates.
    apply dates_progression. exact Hle.
  - intros row Hin. apply in_map_iff in Hin as (d & <- & _). reflexivity.
  - reflexivity.
  - apply one_call_per_pair_flat. apply dates_NoDup.
Qed.

(** ** The rows and the calls of a run *)

(** C6.  Over an inclusive range with [start_t <= end_t] both generators
    write one row per date, the dates going up from [start_t] by one day
    at a time as far as [end_t] allows; each row holds the result of the
    calculator for each body, not-a-number results included, in the order
    of the input; and the calculator is called once for each pair of a
    body and a date, date after date and body after body. *)
Theorem generator_rows_and_calls
  (ps2 : list KeplerSim.Planet) (ps3 : list KeplerSim3D.Planet)
  (start_t end_t : time_t) :
  (start_t <= end_t)%Z ->
  (let st := KeplerSimMain.simulate ps2 start_t end_t in
   one_row_per_date start_t end_t (outfile st)
   /\ one_result_per_body KeplerSim.calculate_longitude ps2 (outfile st)
   /\ invocations st
      = flat_map (calls_on (length ps2)) (map fst (outfile st))
   /\ one_call_per_pair (length ps2) (map fst (outfile st)) (invocations st))
  /\
  (let st := KeplerSim3DMain.simulate ps3 start_t end_t in
   one_row_per_date start_t end_t (outfile st)
   /\ one_result_per_body
        (fun p d => Elements3D.position (KeplerSim3D.calculate_position p d))
        ps3 (outfile st)
   /\ invocations st
      = flat_map (calls_on (length ps3)) (map fst (outfile st))
   /\ one_call_per_pair (length ps3) (map fst (outfile st)) (invocations st)).
Proof.
  intros Hle. split.
  - destruct (simulate2d_spec ps2 start_t end_t) as (_ & H2 & H3).
    exact (rows_promises _ _ Hle H2 H3).
  - destruct (simulate3d_spec ps3 start_t end_t) as (_ & H2 & H3).
    exact (rows_promises _ _ Hle H2 H3).
Qed.

(** The multi-body scenario: three bodies over a range of three days; the
    third body, whose semi-major axis is zero, is part of every row. *)
Lemma generator_rows_and_calls_witness :
  (let st := KeplerSimMain.simulate [earth; mars; unparsed] 0%Z 172800%Z in
   one_row_per_date 0%Z 172800%Z (outfile st)
   /\ one_result_per_body KeplerSim.calculate_longitude
                          [earth; mars; unparsed] (outfile st)
   /\ invocations st = flat_map (calls_on 3) (map fst (outfile st))
   /\ one_call_per_pair 3 (map fst (outfile st)) (invocations st))
  /\
  (let st := KeplerSim3DMain.simulate
               [to3d earth; to3d mars; to3d unparsed] 0%Z 172800%Z in
   one_row_per_date 0%Z 172800%Z (outfile st)
   /\ one_result_per_body
        (fun p d => Elements3D.position (KeplerSim3D.calculate_position p d))
        [to3d earth; to3d mars; to3d unparsed] (outfile st)
   /\ invocations st = flat_map (calls_on 3) (map fst (outfile st))
   /\ one_call_per_pair 3 (map fst (outfile st)) (invocations st)).
Proof.
  apply (@generator_rows_and_calls
           [earth; mars; unparsed]
           [to3d earth; to3d mars; to3d unparsed] 0%Z 172800%Z).
  lia.
Defined.

(** ** The guard, body by body *)

Lemma calculate_longitude_invalid (p : KeplerSim.Planet) (t : time_t) (a : R) :
  KeplerSim.semi_major_axis_au p = Num a -> (a <= 0)%R ->
  KeplerSim.calculate_longitude p t = NaN.
Proof.
  intros Ha Hle. unfold KeplerSim.calculate_longitude.
  rewrite Ha, (dle_Num Hle). reflexivity.
Qed.

Lemma calculate_position_invalid (p : KeplerSim3D.Planet) (t : time_t) (a : R) :
  KeplerSim3D.semi_major_axis_au p = Num a -> (a <= 0)%R ->
  Elements3D.position (KeplerSim3D.calculate_position p t) = (NaN, NaN, NaN).
Proof.
  intros Ha Hle. apply position_of_invalid. rewrite Ha. apply dle_Num. exact Hle.
Qed.

(** C1.  When the semi-major axis of a body is zero or negative,
    [calculate_longitude] returns not-a-number and [calculate_position]
    stores not-a-number in each of x, y and z, at every date; and in a run
    over several bodies every row still holds a result for each body:
    not-a-number in the column of that body, the result of the calculator
    in the columns before and after it. *)
Theorem nonpositive_axis_short_circuits
  (a : R) (bad2 : KeplerSim.Planet) (bad3 : KeplerSim3D.Planet)
  (before2 after2 : list KeplerSim.Planet)
  (before3 after3 : list KeplerSim3D.Planet)
  (t start_t end_t : time_t) :
  (a <= 0)%R ->
  KeplerSim.semi_major_axis_au bad2 = Num a ->
  KeplerSim3D.semi_major_axis_au bad3 = Num a ->
  KeplerSim.calculate_longitude bad2 t = NaN
  /\ Elements3D.position (KeplerSim3D.calculate_position bad3 t)
     = (NaN, NaN, NaN)
  /\ outfile (KeplerSimMain.simulate (before2 ++ bad2 :: after2)
                                     start_t end_t)
     = map (fun d =>
              (d, map (fun p => KeplerSim.calculate_longitude p d) before2
                  ++ NaN
                  :: map (fun p => KeplerSim.calculate_longitude p d) after2))
           (dates start_t end_t)
  /\ outfile (KeplerSim3DMain.simulate (before3 ++ bad3 :: after3)
                                       start_t end_t)
     = map (fun d =>
              (d, map (fun p => Elements3D.position
                                  (KeplerSim3D.calculate_position p d)) before3
                  ++ (NaN, NaN, NaN)
                  :: map (fun p => Elements3D.position
                                     (KeplerSim3D.calculate_position p d))
                         after3))
           (dates start_t end_t).
Proof.
  intros Hle H2 H3. split; [| split; [| split]].
  - apply (calculate_longitude_invalid _ t H2 Hle).
  - apply (calculate_position_invalid _ t H3 Hle).
  - destruct (simulate2d_spec (before2 ++ bad2 :: after2) start_t end_t)
      as (_ & -> & _).
    apply map_ext. intros d. rewrite map_app. cbn [map].
    rewrite (calculate_longitude_invalid _ d H2 Hle). reflexivity.
  - destruct (simulate3d_spec (before3 ++ bad3 :: after3) start_t end_t)
      as (_ & -> & _).
    apply map_ext. intros d. rewrite map_app. cbn [map].
    rewrite (calculate_position_invalid _ d H3 Hle). reflexivity.
Qed.

Lemma nonpositive_axis_short_circuits_witness :
  KeplerSim.calculate_longitude unparsed 86400%Z = NaN
  /\ Elements3D.position
       (KeplerSim3D.calculate_position (to3d unparsed) 86400%Z)
     = (NaN, NaN, NaN)
  /\ outfile (KeplerSimMain.simulate ([earth] ++ unparsed :: [mars])
                                     0%Z 86400%Z)
     = map (fun d =>
              (d, map (fun p => KeplerSim.calculate_longitude p d) [earth]
                  ++ NaN
                  :: map (fun p => KeplerSim.calculate_longitude p d) [mars]))
           (dates 0%Z 86400%Z)
  /\ outfile (KeplerSim3DMain.simulate
                ([to3d earth] ++ to3d unparsed :: [to3d mars]) 0%Z 86400%Z)
     = map (fun d =>
              (d, map (fun p => Elements3D.position
                                  (KeplerSim3D.calculate_position p d))
                      [to3d earth]
                  ++ (NaN, NaN, NaN)
                  :: map (fun p => Elements3D.position
                                     (KeplerSim3D.calculate_position p d))
                         [to3d mars]))
           (dates 0%Z 86400%Z).
Proof.
  apply (@nonpositive_axis_short_circuits
           0 unparsed (to3d unparsed) [earth] [mars]
           [to3d earth] [to3d mars] 86400%Z 0%Z 86400%Z).
  - lra.
  - reflexivity.
  - reflexivity.
Defined.

(** ** The calculators as functions of elements and date *)

(** C7.  The result of a calculator is a function of the six elements, the
    epoch and the date: two structs that agree on these give the same
    longitude and the same position, whatever their other fields hold; a
    call of [calculate_position] at any date in between leaves the result
    of the next call as it would have been; and a second call on the same
    date changes nothing. *)
Theorem propagation_is_pure
  (p q : KeplerSim.Planet) (p3 q3 : KeplerSim3D.Planet) (t t' : time_t) :
  Elements2D.same_elements p q ->
  Elements3D.same_elements p3 q3 ->
  KeplerSim.calculate_longitude p t = KeplerSim.calculate_longitude q t
  /\ Elements3D.position (KeplerSim3D.calculate_position p3 t)
     = Elements3D.position (KeplerSim3D.calculate_position q3 t)
  /\ Elements3D.position
       (KeplerSim3D.calculate_position
          (KeplerSim3D.calculate_position p3 t') t)
     = Elements3D.position (KeplerSim3D.calculate_position p3 t)
  /\ KeplerSim3D.calculate_position (KeplerSim3D.calculate_position p3 t) t
     = KeplerSim3D.calculate_position p3 t.
Proof.
  intros H2 H3.
  assert (Hagain : forall d,
             Elements3D.position
               (KeplerSim3D.calculate_position
                  (KeplerSim3D.calculate_position p3 d) t)
             = Elements3D.position (KeplerSim3D.calculate_position p3 t)).
  { intros d. symmetry. apply position_depends_on_elements.
    apply (calculate_position_same p3 d). }
  split; [apply longitude_depends_on_elements; exact H2 |].
  split; [apply position_depends_on_elements; exact H3 |].
  split; [apply Hagain |].
  rewrite (calculate_position_frame (KeplerSim3D.calculate_position p3 t) t).
  specialize (Hagain t). unfold Elements3D.position in Hagain.
  injection Hagain as Hx Hy Hz. rewrite Hx, Hy, Hz.
  destruct (calculate_position_same p3 t)
    as (E1 & E2 & E3 & E4 & E5 & E6 & E7 & E8 & E9).
  rewrite <- E1, <- E2, <- E3, <- E4, <- E5, <- E6, <- E7, <- E8, <- E9.
  symmetry. apply calculate_position_frame.
Qed.

Lemma propagation_is_pure_witness :
  let terra :=
    KeplerSim.mkPlanet "Terra" "3" (Num 0.0167) (Num 1)
                       (Num 0) (Num 0) (Num 0) (Num 0) 0%Z in
  let moved := KeplerSim3D.set_x NaN (KeplerSim3D.set_z (Num 5) (to3d mars)) in
  KeplerSim.calculate_longitude earth 86400%Z
  = KeplerSim.calculate_longitude terra 86400%Z
  /\ Elements3D.position (KeplerSim3D.calculate_position (to3d mars) 86400%Z)
     = Elements3D.position (KeplerSim3D.calculate_position moved 86400%Z)
  /\ Elements3D.position
       (KeplerSim3D.calculate_position
          (KeplerSim3D.calculate_position (to3d mars) 0%Z) 86400%Z)
     = Elements3D.position (KeplerSim3D.calculate_position (to3d mars) 86400%Z)
  /\ KeplerSim3D.calculate_position
       (KeplerSim3D.calculate_position (to3d mars) 86400%Z) 86400%Z
     = KeplerSim3D.calculate_position (to3d mars) 86400%Z.
Proof.
  intros terra moved.
  apply (@propagation_is_pure earth terra (to3d mars) moved 86400%Z 0%Z).
  - unfold Elements2D.same_elements. cbn. repeat split.
  - unfold Elements3D.same_elements. cbn. repeat split.
Defined.

(** ** What a call may change *)

(** C9.  A call of [calculate_position] leaves the name, the identifier,
    the six elements and the epoch of the struct as they were and writes
    x, y and z only; [calculate_longitude] has no store at all, so a whole
    run of kepler_sim.c leaves the array of bodies as it was, and a whole
    run of kepler_sim_3d.c changes the position fields of the bodies
    only. *)
Theorem calculators_keep_elements
  (p3 : KeplerSim3D.Planet) (t : time_t)
  (ps2 : list KeplerSim.Planet) (ps3 : list KeplerSim3D.Planet)
  (start_t end_t : time_t) :
  Elements3D.same_but_position p3 (KeplerSim3D.calculate_position p3 t)
  /\ KeplerSim3D.calculate_position p3 t
     = KeplerSim3D.set_x (KeplerSim3D.x (KeplerSim3D.calculate_position p3 t))
         (KeplerSim3D.set_y (KeplerSim3D.y (KeplerSim3D.calculate_position p3 t))
            (KeplerSim3D.set_z
               (KeplerSim3D.z (KeplerSim3D.calculate_position p3 t)) p3))
  /\ planets (KeplerSimMain.simulate ps2 start_t end_t) = ps2
  /\ Forall2 Elements3D.same_but_position ps3
             (planets (KeplerSim3DMain.simulate ps3 start_t end_t)).
Proof.
  split; [apply calculate_position_same |].
  split; [apply calculate_position_frame |].
  split.
  - apply (simulate2d_spec ps2 start_t end_t).
  - apply (simulate3d_spec ps3 start_t end_t).
Qed.

(** ** The mean motion *)

Lemma sqrt_cube_Rpower (a : R) : (0 < a)%R -> sqrt (a ^ 3) = Rpower a 1.5.
Proof.
  intros Ha.
  rewrite <- Rpower_sqrt by (apply pow_lt; exact Ha).
  rewrite <- (Rpower_pow 3 a Ha), Rpower_mult.
  f_equal. simpl. lra.
Qed.

(** Exact arithmetic.  For a semi-major axis [a > 0] the real number
    [sqrt(a^3)] is [a^1.5], so that the mean motion of the model is
    [360 / (a^1.5 * 365.25)].  In binary64 [pow(a, 3)] is rounded before
    [sqrt] is, and overflows or underflows where [a^1.5] does not. *)
Theorem mean_motion_is_keplers_third_law (a : R) :
  (0 < a)%R ->
  Libm.sqrt (Libm.pow (Num a) 3) = Num (Rpower a 1.5)
  /\ mean_motion (Num a) = Num (360 / (Rpower a 1.5 * 365.25)).
Proof.
  intros Ha. split.
  - unfold Libm.pow. cbn [lift1].
    rewrite sqrt_Num by (apply Rlt_le, pow_lt; exact Ha).
    rewrite (sqrt_cube_Rpower Ha). reflexivity.
  - destruct (mean_motion_Num Ha) as [-> _].
    rewrite (sqrt_cube_Rpower Ha). reflexivity.
Qed.

Lemma mean_motion_nonneg (a : double) (n : R) :
  mean_motion a = Num n -> (0 <= n)%R.
Proof.
  unfold mean_motion, Libm.pow. destruct a as [| ar]; [discriminate |].
  cbn [lift1 Libm.sqrt].
  destruct (Rlt_dec (ar ^ 3) 0) as [Hneg | Hpos]; [discriminate |].
  cbn [dmul lift2 ddiv].
  destruct (Req_EM_T (sqrt (ar ^ 3) * 365.25) 0) as [Hz | Hnz];
    [discriminate |].
  intros H. apply Num_inj in H. subst n.
  pose proof (sqrt_pos (ar ^ 3)) as Hs.
  apply Rlt_le, Rdiv_lt_0_compat; [lra |].
  destruct Hs as [Hs | Hs]; [lra |]. exfalso. apply Hnz. rewrite <- Hs. ring.
Qed.

(** C8, as the code has it.  The mean motion is the quotient
    [360.0 / (sqrt(pow(a, 3)) * 365.25)]: whenever the cube [pow(a, 3)] is
    a positive number, it is a positive number, and whenever it is a
    number at all it is not negative. *)
Theorem mean_motion_of_positive_cube (a : double) (p : R) :
  Libm.pow a 3 = Num p -> (0 < p)%R ->
  mean_motion a = (Num 360 / (Libm.sqrt (Num p) * Num 365.25))%D
  /\ (exists n, mean_motion a = Num n /\ (0 < n)%R)
  /\ (forall b n, mean_motion b = Num n -> (0 <= n)%R).
Proof.
  intros Hp Hpos. unfold mean_motion at 1 2. rewrite Hp.
  split; [reflexivity |]. split; [| intros b n; apply mean_motion_nonneg].
  rewrite sqrt_Num by lra. cbn [dmul lift2].
  assert (Hs : (0 < sqrt p)%R) by (apply sqrt_lt_R0; exact Hpos).
  rewrite ddiv_Num by lra. eexists. split; [reflexivity |].
  apply Rdiv_lt_0_compat; lra.
Qed.

Lemma mean_motion_of_positive_cube_witness :
  mean_motion (Num 1)
  = (Num 360 / (Libm.sqrt (Num (1 ^ 3)) * Num 365.25))%D
  /\ (exists n, mean_motion (Num 1) = Num n /\ (0 < n)%R)
  /\ (forall b n, mean_motion b = Num n -> (0 <= n)%R).
Proof.
  apply (@mean_motion_of_positive_cube (Num 1) (1 ^ 3)).
  - reflexivity.
  - lra.
Defined.

(** ** The propagated mean anomaly *)

Lemma earth_valid : Elements2D.valid earth.
Proof.
  unfold Elements2D.valid, valid_elements, finite. cbn.
  exists 0.0167%R, 1%R. repeat split; eauto; lra.
Qed.

Lemma sqrt_cube_1 : sqrt (1 ^ 3) = 1%R.
Proof. rewrite pow1. apply sqrt_1. Qed.

(** One day before its epoch the mean anomaly of [earth] is negative:
    [fmod] keeps the sign of the sum it reduces. *)
Lemma mean_anomaly_day_before_epoch :
  mean_anomaly (KeplerSim.semi_major_axis_au earth)
               (KeplerSim.mean_anomaly_deg earth)
               (KeplerSim.epoch earth) (-86400)%Z
  = Num (- (360 / 365.25)).
Proof.
  cbn [earth KeplerSim.semi_major_axis_au KeplerSim.mean_anomaly_deg
       KeplerSim.epoch].
  destruct (@mean_anomaly_Num 1 0 0%Z (-86400)%Z) as (s & Hs & ->); [lra |].
  rewrite mean_sum_Num in Hs by lra.
  assert (Hval : s = (- (360 / 365.25))%R).
  { rewrite sqrt_cube_1 in Hs.
    replace (IZR (-86400 - 0)) with (-86400)%R in Hs by reflexivity.
    apply Num_inj in Hs. lra. }
  rewrite Hval. rewrite Rtrunc_small by lra. f_equal. ring.
Qed.

Lemma mean_anomaly_not_normalized_before_epoch :
  Elements2D.valid earth
  /\ ~ normalized360
         (mean_anomaly (KeplerSim.semi_major_axis_au earth)
                       (KeplerSim.mean_anomaly_deg earth)
                       (KeplerSim.epoch earth) (-86400)%Z).
Proof.
  split; [exact earth_valid |].
  rewrite mean_anomaly_day_before_epoch. intros (m & Hm & Hrange).
  injection Hm as <-. lra.
Qed.

(** C3, as the code has it.  Whenever the sum
    [meanAnomalyAtEpochDeg + n * days] that the code reduces is a number
    [s], the mean anomaly handed to the solver is [fmod(s, 360)], the
    number [s - 360 * trunc(s / 360)]: it lies strictly between -360 and
    360 and has the sign of [s], so it lies in [0, 360) when [s] is not
    negative, as it is for a non-negative mean anomaly at epoch and a date
    not before the epoch, and in (-360, 0] when [s] is negative. *)
Theorem mean_anomaly_is_fmod_of_sum
        (a M0 : double) (ep t : time_t) (s : R) :
  (M0 + mean_motion a * days_since_epoch ep t)%D = Num s ->
  exists m,
    mean_anomaly a M0 ep t = Num m
    /\ m = (s - Rtrunc (s / 360) * 360)%R
    /\ (-360 < m < 360)%R
    /\ ((0 <= s)%R -> normalized360 (mean_anomaly a M0 ep t))
    /\ ((s < 0)%R -> (-360 < m <= 0)%R)
    /\ ((Num 0 <=? M0)%D = true -> (ep <= t)%Z -> (0 <= s)%R).
Proof.
  intros Hs.
  assert (Hm : mean_anomaly a M0 ep t = Num (s - Rtrunc (s / 360) * 360)).
  { unfold mean_anomaly. rewrite Hs. apply fmod_Num. lra. }
  exists (s - Rtrunc (s / 360) * 360)%R.
  split; [exact Hm |]. split; [reflexivity |].
  assert (Hpos : (0 <= s)%R -> (0 <= s - Rtrunc (s / 360) * 360 < 360)%R).
  { intros H. apply fmod_range_nonneg; lra. }
  assert (Hneg : (s < 0)%R -> (-360 < s - Rtrunc (s / 360) * 360 <= 0)%R).
  { intros H. apply fmod_range_neg; lra. }
  split; [| split; [| split]].
  - destruct (Rle_or_lt 0 s) as [H | H]; [apply Hpos in H | apply Hneg in H]; lra.
  - intros H. rewrite Hm. eexists. split; [reflexivity | apply Hpos; exact H].
  - exact Hneg.
  - intros HM Ht.
    apply dle_true in HM. destruct HM as (z & m0 & Hz & HM0 & Hle).
    apply Num_inj in Hz. subst z M0.
    rewrite days_since_epoch_Num in Hs.
    destruct (mean_motion a) as [| n] eqn:Hn; [discriminate |].
    apply mean_motion_nonneg in Hn.
    cbn [dmul dadd lift2] in Hs. apply Num_inj in Hs. subst s.
    assert (Hdays : (0 <= IZR (t - ep) / 86400)%R).
    { apply IZR_le in Ht. rewrite minus_IZR. unfold Rdiv.
      apply Rmult_le_pos; lra. }
    apply Rplus_le_le_0_compat; [exact Hle |].
    apply Rmult_le_pos; assumption.
Qed.

Lemma mean_anomaly_is_fmod_of_sum_witness :
  let s := (0 + 360 / (sqrt (1 ^ 3) * 365.25) * (IZR (-86400 - 0) / 86400))%R in
  exists m,
    mean_anomaly (Num 1) (Num 0) 0%Z (-86400)%Z = Num m
    /\ m = (s - Rtrunc (s / 360) * 360)%R
    /\ (-360 < m < 360)%R
    /\ ((0 <= s)%R ->
        normalized360 (mean_anomaly (Num 1) (Num 0) 0%Z (-86400)%Z))
    /\ ((s < 0)%R -> (-360 < m <= 0)%R)
    /\ ((Num 0 <=? Num 0)%D = true -> (0 <= -86400)%Z -> (0 <= s)%R).
Proof.
  intros s.
  apply (@mean_anomaly_is_fmod_of_sum (Num 1) (Num 0) 0%Z (-86400)%Z s).
  apply mean_sum_Num. lra.
Defined.

(** ** The longitude

    Lemmas of exact arithmetic: with an addition that does not round, the
    reduction of [atan2] to degrees stays below 360. *)

Lemma atan_pos (r : R) : (0 < r)%R -> (0 < atan r)%R.
Proof. intros H. rewrite <- atan_0. apply atan_increasing. exact H. Qed.

Lemma atan_nonpos (r : R) : (r <= 0)%R -> (atan r <= 0)%R.
Proof.
  intros [H | ->].
  - left. rewrite <- atan_0. apply atan_increasing. exact H.
  - rewrite atan_0. lra.
Qed.

Lemma Ratan2_bound (y x : R) : (- PI < Ratan2 y x <= PI)%R.
Proof.
  pose proof PI_RGT_0 as Hpi. unfold Ratan2.
  destruct (Rlt_dec 0 x) as [Hx | Hx].
  - pose proof (atan_bound (y / x)). lra.
  - destruct (Rlt_dec x 0) as [Hx' | Hx'].
    + pose proof (atan_bound (y / x)) as Hb.
      assert (Hinv : (/ x < 0)%R) by (apply Rinv_lt_0_compat; exact Hx').
      destruct (Rle_dec 0 y) as [Hy | Hy].
      * assert (Hq : (y / x <= 0)%R) by (unfold Rdiv; nra).
        pose proof (atan_nonpos Hq). lra.
      * assert (Hq : (0 < y / x)%R) by (unfold Rdiv; nra).
        pose proof (atan_pos Hq). lra.
    + destruct (Rlt_dec 0 y); [lra |]. destruct (Rlt_dec y 0); lra.
Qed.

Lemma normalized_degrees (r : R) :
  (- PI < r <= PI)%R ->
  let deg := (r * (180 / 3.14159265358979323846))%R in
  (deg < 0 -> 0 <= deg + 360 < 360)%R /\ (0 <= deg -> 0 <= deg < 360)%R.
Proof.
  intros Hr deg. pose proof PI_4 as H4. unfold deg.
  set (k := (180 / 3.14159265358979323846)%R).
  assert (Hk : (57 < k < 58)%R) by (unfold k; lra).
  split; intros H; nra.
Qed.

Lemma longitude_deg_range
      (e a i N w M0 : double) (ep t : time_t) (l : R) :
  longitude_deg e a i N w M0 ep t = Num l ->
  (0 <= l < 360)%R
  /\ exists X Y,
       x_ecl e a i N w M0 ep t = Num X /\ y_ecl e a i N w M0 ep t = Num Y
       /\ let deg := (Ratan2 Y X * (180 / 3.14159265358979323846))%R in
          l = if Rlt_dec deg 0 then (deg + 360)%R else deg.
Proof.
  unfold longitude_deg, longitude_rad, Libm.atan2, M_PI.
  rewrite ddiv_Num by lra.
  destruct (y_ecl e a i N w M0 ep t) as [| Y]; cbn [lift2 dmul dlt];
    [discriminate |].
  destruct (x_ecl e a i N w M0 ep t) as [| X]; cbn [lift2 dmul dlt];
    [discriminate |].
  destruct (normalized_degrees (Ratan2_bound Y X)) as [Hneg Hpos].
  intros Hl. split.
  - destruct (Rlt_dec (Ratan2 Y X * (180 / 3.14159265358979323846)) 0)
      as [H | H]; cbn [dadd lift2] in Hl; apply Num_inj in Hl; subst l.
    + apply Hneg. exact H.
    + apply Hpos. lra.
  - exists X, Y. split; [reflexivity |]. split; [reflexivity |]. cbv zeta.
    destruct (Rlt_dec (Ratan2 Y X * (180 / 3.14159265358979323846)) 0);
      cbn [dadd lift2] in Hl; apply Num_inj in Hl; auto.
Qed.

(** ** The propagation in binary64 *)

Section Binary64Facts.

Import PrimFloat.

(** C4.  In binary64 [calculate_longitude] can return exactly 360, which
    is outside [0, 360).  The input is an orbit of eccentricity 0.0167
    (the binary64 number 0x1.119ce075f6fd2p-6) and
    semi-major axis 1 with inclination 0, node at 180 degrees, periapsis
    at 180 degrees and mean anomaly 0, at its epoch.  There the sum that
    [fmod] reduces is 0, [M_rad] is 0 and the update leaves [E_rad] at 0,
    so that [cos(E_rad)] is 1 and [sin(E_rad)] is 0; the two angles of 180
    degrees become [M_PI], whose cosine is -1 and whose sine is the
    binary64 number 0x1.1a62633145c07p-53 (about 1.22e-16), not 0.  The
    rotation then gives a positive [x_ecl] and a negative [y_ecl] of about
    -2.4e-16, [atan2] of the two is their quotient to within one unit in
    the last place, and for that quotient and for its two neighbours the
    addition [longitude_deg + 360] rounds to 360.  It does so down to the
    negative number nearest to zero. *)
Theorem longitude_reaches_360_in_binary64 :
  let e := 0x1.119ce075f6fd2p-6%float in
  let sin_pi := 0x1.1a62633145c07p-53%float in
  let x_orb := Binary64.x_orb 1%float e 1%float in
  let y_orb := Binary64.y_orb 1%float e 0%float in
  let cos_pi := (-1)%float in
  let x := Binary64.x_ecl x_orb y_orb cos_pi sin_pi cos_pi sin_pi 1%float in
  let y := Binary64.y_ecl x_orb y_orb cos_pi sin_pi cos_pi sin_pi 1%float in
  (0 + Binary64.mean_motion 1 * (0 / 86400))%float = 0%float
  /\ Binary64.radians 0%float = 0%float
  /\ Binary64.newton_update e 0%float 0%float 0%float 1%float = 0%float
  /\ Binary64.radians 180%float = Binary64.M_PI
  /\ (0 <? x)%float = true
  /\ (y <? 0)%float = true
  /\ Binary64.longitude_deg (y / x)%float = 360%float
  /\ Binary64.longitude_deg (next_up (y / x)%float) = 360%float
  /\ Binary64.longitude_deg (next_down (y / x)%float) = 360%float
  /\ Binary64.longitude_deg (-0x1p-1074)%float = 360%float
  /\ (360 <? 360)%float = false.
Proof.
  vm_compute. repeat split; reflexivity.
Qed.

(** A circular orbit of radius 1 whose three angles are 0, with a mean
    anomaly of 8 degrees, at its epoch.  The sum that [fmod] reduces is 8,
    [M_rad] is [radians 8], the update leaves it where it is, and [cos]
    and [sin] of it are the binary64 numbers 0x1.fb046a930947ap-1 and
    0x1.1d06c968d9e19p-3.  The cosine and the sine of the three angles
    are 1 and 0, so that the position is [(cos_M, sin_M, 0)]: its squared
    norm is not 1, neither as binary64 computes it (it is
    1.0000000000000002) nor as a sum of rational numbers. *)
Lemma circular_radius_not_exact_in_binary64 :
  let M_rad := Binary64.radians 8%float in
  let cos_M := 0x1.fb046a930947ap-1%float in
  let sin_M := 0x1.1d06c968d9e19p-3%float in
  let x_orb := Binary64.x_orb 1%float 0%float cos_M in
  let y_orb := Binary64.y_orb 1%float 0%float sin_M in
  let x := Binary64.x_ecl x_orb y_orb 1%float 0%float 1%float 0%float
                          1%float in
  let y := Binary64.y_ecl x_orb y_orb 1%float 0%float 1%float 0%float
                          1%float in
  let z := Binary64.z_ecl x_orb y_orb 1%float 0%float 0%float in
  (8 + Binary64.mean_motion 1 * (0 / 86400))%float = 8%float
  /\ Binary64.newton_update 0%float M_rad M_rad sin_M cos_M = M_rad
  /\ (x_orb, y_orb) = (cos_M, sin_M)
  /\ (x, y, z) = (cos_M, sin_M, 0%float)
  /\ (x_orb * x_orb + y_orb * y_orb =? 1 * 1)%float = false
  /\ (x * x + y * y + z * z =? 1 * 1)%float = false
  /\ Binary64.at_distance x_orb y_orb 0%float 1%float = false
  /\ Binary64.at_distance x y z 1%float = false.
Proof.
  vm_compute. repeat split; reflexivity.
Qed.

(** A semi-major axis of 1e110, the binary64 number
    0x1.54a3047c694fep+365.  Its cube is beyond the largest binary64
    number, so that [pow(a, 3)] is infinite, and so is its square root:
    the mean motion is 0.  The power [a^1.5], about 1e165, is a binary64
    number, and [360 / (a^1.5 * 365.25)] is positive. *)
Lemma mean_motion_vanishes_when_cube_overflows :
  let a := 0x1.54a3047c694fep+365%float in
  let a_power_1_5 := 0x1.15d847ad00088p+548%float in
  (a * a * a)%float = infinity
  /\ sqrt infinity = infinity
  /\ (sqrt infinity =? a_power_1_5)%float = false
  /\ Binary64.mean_motion infinity = 0%float
  /\ (0 <? 360 / (a_power_1_5 * 365.25))%float = true
  /\ (Binary64.mean_motion infinity =? 360 / (a_power_1_5 * 365.25))%float
     = false.
Proof.
  vm_compute. repeat split; reflexivity.
Qed.

End Binary64Facts.

(** ** The concrete scenario of the specification

    [earth] at its epoch: the solver yields [E = 0], the point of the
    orbital plane is [(a (1 - e), 0) = (0.9833, 0)], the position is
    (0.9833, 0, 0) and the longitude is 0. *)

Lemma earth_M_rad : M_rad (Num 1) (Num 0) 0%Z 0%Z = Num 0.
Proof.
  destruct (@mean_anomaly_Num 1 0 0%Z 0%Z) as (s & Hs & Hm); [lra |].
  rewrite mean_sum_Num in Hs by lra.
  replace (IZR (0 - 0)) with 0%R in Hs by reflexivity.
  apply Num_inj in Hs.
  assert (Hval : s = 0%R) by (rewrite <- Hs; unfold Rdiv; ring).
  unfold M_rad. rewrite Hm, Hval, deg_to_rad_Num.
  rewrite Rtrunc_small by lra. f_equal. unfold radians. lra.
Qed.

Lemma earth_E_rad : E_rad (Num 0.0167) (Num 1) (Num 0) 0%Z 0%Z = Num 0.
Proof.
  unfold E_rad. rewrite earth_M_rad, kepler_solve_iter. apply iter_fixed.
  unfold newton_update, newton_denominator.
  cbn [Libm.sin Libm.cos lift1 dmul dsub lift2]. rewrite sin_0, cos_0.
  rewrite ddiv_Num by lra. cbn [dsub lift2]. f_equal. unfold Rdiv. ring.
Qed.

Lemma earth_x_orb : x_orb (Num 0.0167) (Num 1) (Num 0) 0%Z 0%Z = Num 0.9833.
Proof.
  unfold x_orb. rewrite earth_E_rad.
  cbn [Libm.cos lift1 dmul dsub lift2]. rewrite cos_0. f_equal. lra.
Qed.

Lemma earth_y_orb : y_orb (Num 0.0167) (Num 1) (Num 0) 0%Z 0%Z = Num 0.
Proof.
  unfold y_orb. rewrite earth_E_rad.
  cbn [Libm.sin lift1 dmul dsub lift2]. rewrite sqrt_Num by lra.
  cbn [dmul lift2]. rewrite sin_0. f_equal. ring.
Qed.

Lemma zero_degrees : radians 0 = 0%R.
Proof. unfold radians. lra. Qed.

Lemma earth_position_at_epoch :
  Elements3D.position (KeplerSim3D.calculate_position (to3d earth) 0%Z)
  = (Num 0.9833, Num 0, Num 0).
Proof.
  rewrite position_of_calculate_position by (apply dle_Num_false; lra).
  cbn [to3d earth KeplerSim3D.eccentricity KeplerSim3D.semi_major_axis_au
       KeplerSim3D.inclination_deg KeplerSim3D.lon_asc_node_deg
       KeplerSim3D.arg_periapsis_deg KeplerSim3D.mean_anomaly_deg
       KeplerSim3D.epoch KeplerSim.eccentricity KeplerSim.semi_major_axis_au
       KeplerSim.inclination_deg KeplerSim.lon_asc_node_deg
       KeplerSim.arg_periapsis_deg KeplerSim.mean_anomaly_deg KeplerSim.epoch].
  rewrite (@x_ecl_Num _ _ _ _ _ _ _ 0%R 0%R 0%R earth_x_orb earth_y_orb).
  rewrite (@y_ecl_Num _ _ _ _ _ _ _ 0%R 0%R 0%R earth_x_orb earth_y_orb).
  rewrite (@z_ecl_Num _ _ _ _ _ _ _ 0%R 0%R earth_x_orb earth_y_orb).
  rewrite !zero_degrees, sin_0, cos_0.
  repeat f_equal; ring.
Qed.

Lemma earth_longitude_at_epoch :
  KeplerSim.calculate_longitude earth 0%Z = Num 0.
Proof.
  unfold KeplerSim.calculate_longitude.
  cbn [earth KeplerSim.eccentricity KeplerSim.semi_major_axis_au
       KeplerSim.inclination_deg KeplerSim.lon_asc_node_deg
       KeplerSim.arg_periapsis_deg KeplerSim.mean_anomaly_deg KeplerSim.epoch].
  rewrite dle_Num_false by lra.
  unfold longitude_deg, longitude_rad, M_PI.
  rewrite (@x_ecl_Num _ _ _ _ _ _ _ 0%R 0%R 0%R earth_x_orb earth_y_orb).
  rewrite (@y_ecl_Num _ _ _ _ _ _ _ 0%R 0%R 0%R earth_x_orb earth_y_orb).
  rewrite !zero_degrees, sin_0, cos_0.
  replace (0.9833 * (1 * 0 + 0 * 1 * 1) + 0 * (- 0 * 0 + 1 * 1 * 1))%R
    with 0%R by ring.
  replace (0.9833 * (1 * 1 - 0 * 0 * 1) - 0 * (0 * 1 + 1 * 0 * 1))%R
    with 0.9833%R by ring.
  rewrite ddiv_Num by lra. cbn [Libm.atan2 lift2 dmul].
  assert (Hat : Ratan2 0 0.9833 = 0%R).
  { unfold Ratan2. destruct (Rlt_dec 0 0.9833) as [_ | H]; [| lra].
    unfold Rdiv. rewrite Rmult_0_l. apply atan_0. }
  rewrite Hat, Rmult_0_l. rewrite dlt_Num_false by lra. reflexivity.
Qed.

(** ** The multi-body scenario of the specification

    Three bodies over three days: three rows of three results each, in the
    order of the input; the body without a usable semi-major axis shows as
    not-a-number in each row. *)

Lemma dates_three_days : dates 0%Z 172800%Z = [0; 86400; 172800]%Z.
Proof. reflexivity. Qed.

Example three_bodies_three_days :
  outfile (KeplerSimMain.simulate [earth; mars; unparsed] 0%Z 172800%Z)
  = [ (0%Z, [Num 0; KeplerSim.calculate_longitude mars 0%Z; NaN]);
      (86400%Z, [KeplerSim.calculate_longitude earth 86400%Z;
                 KeplerSim.calculate_longitude mars 86400%Z; NaN]);
      (172800%Z, [KeplerSim.calculate_longitude earth 172800%Z;
                  KeplerSim.calculate_longitude mars 172800%Z; NaN]) ].
Proof.
  destruct (simulate2d_spec [earth; mars; unparsed] 0%Z 172800%Z)
    as (_ & -> & _).
  rewrite dates_three_days. cbn [map].
  rewrite earth_longitude_at_epoch.
  assert (Hbad : forall d, KeplerSim.calculate_longitude unparsed d = NaN).
  { intros d. apply (@calculate_longitude_invalid unparsed d 0);
      [reflexivity | lra]. }
  rewrite !Hbad. reflexivity.
Qed.

(** * Further properties of the propagation *)

(** ** The two calculators agree *)

Lemma longitude_deg_of_xy (e a i N w M0 : double) (ep t : time_t) :
  longitude_deg e a i N w M0 ep t
  = longitude_of_xy (y_ecl e a i N w M0 ep t) (x_ecl e a i N w M0 ep t).
Proof. reflexivity. Qed.

Lemma longitude_of_xy_NaN_l (x : double) : longitude_of_xy NaN x = NaN.
Proof. reflexivity. Qed.

Lemma longitude_of_xy_NaN_r (y : double) : longitude_of_xy y NaN = NaN.
Proof. destruct y; reflexivity. Qed.

(** X3.  For a struct of kepler_sim.c and a struct of kepler_sim_3d.c with
    the same elements and epoch, the longitude of [calculate_longitude] is
    the reduction [atan2(y, x)] in degrees, plus 360 when negative, of the
    x and y that [calculate_position] stores, at every date, rejected
    element sets included. *)
Theorem longitude_is_reduction_of_position
        (p : KeplerSim.Planet) (q : KeplerSim3D.Planet) (t : time_t) :
  same_elements_2d_3d p q ->
  KeplerSim.calculate_longitude p t
  = longitude_of_xy (KeplerSim3D.y (KeplerSim3D.calculate_position q t))
                    (KeplerSim3D.x (KeplerSim3D.calculate_position q t)).
Proof.
  intros (H1 & H2 & H3 & H4 & H5 & H6 & H7).
  unfold KeplerSim.calculate_longitude. rewrite H1, H2, H3, H4, H5, H6, H7.
  destruct (KeplerSim3D.semi_major_axis_au q <=? Num 0)%D eqn:Hg.
  - pose proof (position_of_invalid q t Hg) as Hpos.
    unfold Elements3D.position in Hpos. injection Hpos as -> -> _.
    reflexivity.
  - pose proof (position_of_calculate_position q t Hg) as Hpos.
    unfold Elements3D.position in Hpos. injection Hpos as -> -> _.
    apply longitude_deg_of_xy.
Qed.

Lemma longitude_is_reduction_of_position_witness :
  KeplerSim.calculate_longitude mars 86400%Z
  = longitude_of_xy
      (KeplerSim3D.y (KeplerSim3D.calculate_position (to3d mars) 86400%Z))
      (KeplerSim3D.x (KeplerSim3D.calculate_position (to3d mars) 86400%Z)).
Proof.
  apply (@longitude_is_reduction_of_position mars (to3d mars) 86400%Z).
  unfold same_elements_2d_3d. cbn. repeat split.
Defined.

(** ** Not-a-number goes through *)

Lemma dadd_NaN_r (x : double) : (x + NaN)%D = NaN.
Proof. destruct x; reflexivity. Qed.

Lemma dsub_NaN_r (x : double) : (x - NaN)%D = NaN.
Proof. destruct x; reflexivity. Qed.

Lemma dmul_NaN_r (x : double) : (x * NaN)%D = NaN.
Proof. destruct x; reflexivity. Qed.

Lemma ddiv_NaN_r (x : double) : (x / NaN)%D = NaN.
Proof. destruct x; reflexivity. Qed.

Lemma dadd_NaN_l (x : double) : (NaN + x)%D = NaN.
Proof. reflexivity. Qed.

Lemma dsub_NaN_l (x : double) : (NaN - x)%D = NaN.
Proof. reflexivity. Qed.

Lemma dmul_NaN_l (x : double) : (NaN * x)%D = NaN.
Proof. reflexivity. Qed.

Lemma ddiv_NaN_l (x : double) : (NaN / x)%D = NaN.
Proof. reflexivity. Qed.

Lemma sin_NaN : Libm.sin NaN = NaN.
Proof. reflexivity. Qed.

Lemma cos_NaN : Libm.cos NaN = NaN.
Proof. reflexivity. Qed.

Lemma fmod_NaN_l (y : double) : Libm.fmod NaN y = NaN.
Proof. reflexivity. Qed.

Create Rewrite HintDb nan.

#[local] Hint Rewrite dadd_NaN_r dsub_NaN_r dmul_NaN_r ddiv_NaN_r
  dadd_NaN_l dsub_NaN_l dmul_NaN_l ddiv_NaN_l sin_NaN cos_NaN fmod_NaN_l
  : nan.

Lemma kepler_solve_NaN (e : double) : kepler_solve e NaN = NaN.
Proof.
  rewrite kepler_solve_iter. apply iter_fixed.
  unfold newton_update. autorewrite with nan. reflexivity.
Qed.

Section NaNOrbit.

Variables (e a i N w M0 : double) (ep t : time_t).

Lemma ecl_NaN_of_orb :
  x_orb e a M0 ep t = NaN \/ y_orb e a M0 ep t = NaN ->
  x_ecl e a i N w M0 ep t = NaN
  /\ y_ecl e a i N w M0 ep t = NaN
  /\ z_ecl e a i w M0 ep t = NaN.
Proof.
  unfold x_ecl, y_ecl, z_ecl. intros [H | H]; rewrite H;
    autorewrite with nan; auto.
Qed.

Lemma x_orb_NaN :
  e = NaN \/ a = NaN \/ M0 = NaN -> x_orb e a M0 ep t = NaN.
Proof.
  unfold x_orb. intros [-> | [-> | ->]].
  - autorewrite with nan. reflexivity.
  - reflexivity.
  - assert (HE : E_rad e a NaN ep t = NaN).
    { unfold E_rad, M_rad, mean_anomaly. cbn [dadd lift2 Libm.fmod dmul ddiv].
      apply kepler_solve_NaN. }
    rewrite HE. autorewrite with nan. reflexivity.
Qed.

Lemma xy_ecl_NaN :
  some_element_NaN e a i N w M0 ->
  x_ecl e a i N w M0 ep t = NaN /\ y_ecl e a i N w M0 ep t = NaN.
Proof.
  intros [H | [H | [H | [H | [H | H]]]]].
  1, 2, 6: destruct ecl_NaN_of_orb as (Hx & Hy & _);
    [left; apply x_orb_NaN; tauto | auto].
  all: subst; unfold x_ecl, y_ecl, i_rad, N_rad, w_rad;
    autorewrite with nan; auto.
Qed.

End NaNOrbit.

(** X4.  When one of the six elements of a body is not-a-number,
    [calculate_longitude] returns not-a-number and [calculate_position]
    stores not-a-number in x and in y, at every date. *)
Theorem NaN_element_gives_NaN_result
        (p : KeplerSim.Planet) (q : KeplerSim3D.Planet) (t : time_t) :
  some_element_NaN
    (KeplerSim.eccentricity p) (KeplerSim.semi_major_axis_au p)
    (KeplerSim.inclination_deg p) (KeplerSim.lon_asc_node_deg p)
    (KeplerSim.arg_periapsis_deg p) (KeplerSim.mean_anomaly_deg p) ->
  some_element_NaN
    (KeplerSim3D.eccentricity q) (KeplerSim3D.semi_major_axis_au q)
    (KeplerSim3D.inclination_deg q) (KeplerSim3D.lon_asc_node_deg q)
    (KeplerSim3D.arg_periapsis_deg q) (KeplerSim3D.mean_anomaly_deg q) ->
  KeplerSim.calculate_longitude p t = NaN
  /\ KeplerSim3D.x (KeplerSim3D.calculate_position q t) = NaN
  /\ KeplerSim3D.y (KeplerSim3D.calculate_position q t) = NaN.
Proof.
  intros Hp Hq. split.
  - unfold KeplerSim.calculate_longitude.
    destruct (KeplerSim.semi_major_axis_au p <=? Num 0)%D; [reflexivity |].
    rewrite longitude_deg_of_xy.
    destruct (xy_ecl_NaN (KeplerSim.epoch p) t Hp) as [-> ->]. reflexivity.
  - destruct (KeplerSim3D.semi_major_axis_au q <=? Num 0)%D eqn:Hg.
    + pose proof (position_of_invalid q t Hg) as Hpos.
      unfold Elements3D.position in Hpos. injection Hpos as -> -> _. auto.
    + pose proof (position_of_calculate_position q t Hg) as Hpos.
      unfold Elements3D.position in Hpos. injection Hpos as -> -> _.
      apply xy_ecl_NaN. exact Hq.
Qed.

Lemma NaN_element_gives_NaN_result_witness :
  let p := KeplerSim.mkPlanet "Mars" "499" (Num 0.0934) (Num 1.524)
                              NaN (Num 49.6) (Num 286.5) (Num 19.4) 0%Z in
  let q := KeplerSim3D.mkPlanet "Mars" "499" (Num 0.0934) (Num 1.524)
                                (Num 1.85) (Num 49.6) (Num 286.5) NaN 0%Z
                                (Num 0) (Num 0) (Num 0) in
  KeplerSim.calculate_longitude p 86400%Z = NaN
  /\ KeplerSim3D.x (KeplerSim3D.calculate_position q 86400%Z) = NaN
  /\ KeplerSim3D.y (KeplerSim3D.calculate_position q 86400%Z) = NaN.
Proof.
  intros p q. apply (@NaN_element_gives_NaN_result p q 86400%Z).
  - unfold some_element_NaN. cbn. tauto.
  - unfold some_element_NaN. cbn. tauto.
Defined.

(** ** An eccentricity above one *)

Lemma y_orb_hyperbolic (e : R) (a M0 : double) (ep t : time_t) :
  (1 < e)%R -> y_orb (Num e) a M0 ep t = NaN.
Proof.
  intros He. unfold y_orb. cbn [dmul dsub lift2 Libm.sqrt].
  destruct (Rlt_dec (1 - e * e) 0) as [_ | H]; [| exfalso; nra].
  autorewrite with nan. reflexivity.
Qed.

(** X5.  With an eccentricity above one the square root of [1 - e^2] is
    not a number: [calculate_longitude] returns not-a-number and
    [calculate_position] stores not-a-number in x, y and z, whatever the
    other elements and the date. *)
Theorem hyperbolic_eccentricity_gives_NaN
        (p : KeplerSim.Planet) (q : KeplerSim3D.Planet) (t : time_t) (e : R) :
  (1 < e)%R ->
  KeplerSim.eccentricity p = Num e ->
  KeplerSim3D.eccentricity q = Num e ->
  KeplerSim.calculate_longitude p t = NaN
  /\ Elements3D.position (KeplerSim3D.calculate_position q t)
     = (NaN, NaN, NaN).
Proof.
  intros He Hp Hq. split.
  - unfold KeplerSim.calculate_longitude.
    destruct (KeplerSim.semi_major_axis_au p <=? Num 0)%D; [reflexivity |].
    rewrite longitude_deg_of_xy, Hp.
    destruct (@ecl_NaN_of_orb
                (Num e) (KeplerSim.semi_major_axis_au p)
                (KeplerSim.inclination_deg p) (KeplerSim.lon_asc_node_deg p)
                (KeplerSim.arg_periapsis_deg p) (KeplerSim.mean_anomaly_deg p)
                (KeplerSim.epoch p) t) as (-> & -> & _);
      [right; apply y_orb_hyperbolic; exact He | reflexivity].
  - destruct (KeplerSim3D.semi_major_axis_au q <=? Num 0)%D eqn:Hg.
    + apply position_of_invalid. exact Hg.
    + rewrite (position_of_calculate_position q t Hg), Hq.
      destruct (@ecl_NaN_of_orb
                  (Num e) (KeplerSim3D.semi_major_axis_au q)
                  (KeplerSim3D.inclination_deg q)
                  (KeplerSim3D.lon_asc_node_deg q)
                  (KeplerSim3D.arg_periapsis_deg q)
                  (KeplerSim3D.mean_anomaly_deg q)
                  (KeplerSim3D.epoch q) t) as (-> & -> & ->);
        [right; apply y_orb_hyperbolic; exact He | reflexivity].
Qed.

Lemma hyperbolic_eccentricity_gives_NaN_witness :
  let p := KeplerSim.mkPlanet "Comet" "1" (Num 1.2) (Num 1.524)
                              (Num 1.85) (Num 49.6) (Num 286.5) (Num 19.4)
                              0%Z in
  KeplerSim.calculate_longitude p 86400%Z = NaN
  /\ Elements3D.position (KeplerSim3D.calculate_position (to3d p) 86400%Z)
     = (NaN, NaN, NaN).
Proof.
  intros p.
  apply (@hyperbolic_eccentricity_gives_NaN p (to3d p) 86400%Z 1.2).
  - lra.
  - reflexivity.
  - reflexivity.
Defined.

(** * Further properties of the daily loop *)

Lemma dates_length (start_t end_t : time_t) :
  length (dates start_t end_t)
  = Z.to_nat ((end_t - start_t) / SECONDS_IN_DAY + 1).
Proof. unfold dates. rewrite length_map, length_seq. reflexivity. Qed.

Lemma in_dates (start_t end_t d : time_t) :
  In d (dates start_t end_t)
  <-> exists k : Z,
        (0 <= k <= (end_t - start_t) / SECONDS_IN_DAY)%Z
        /\ d = (start_t + SECONDS_IN_DAY * k)%Z.
Proof.
  unfold dates. rewrite in_map_iff. split.
  - intros (k & <- & Hin). apply in_seq in Hin. exists (Z.of_nat k).
    split; [lia | reflexivity].
  - intros (k & Hk & ->). exists (Z.to_nat k).
    split; [rewrite Z2Nat.id by lia; reflexivity |].
    apply in_seq. lia.
Qed.

Lemma end_in_dates (start_t end_t : time_t) :
  In end_t (dates start_t end_t)
  <-> (start_t <= end_t)%Z /\ ((end_t - start_t) mod SECONDS_IN_DAY = 0)%Z.
Proof.
  rewrite in_dates. unfold SECONDS_IN_DAY. split.
  - intros (k & Hk & Heq). split; [lia |].
    replace (end_t - start_t)%Z with (k * (24 * 60 * 60))%Z by lia.
    apply Z.mod_mul. lia.
  - intros [Hle Hmod]. exists ((end_t - start_t) / (24 * 60 * 60))%Z.
    pose proof (Z.div_mod (end_t - start_t) (24 * 60 * 60)) as Hdm.
    assert (0 <= (end_t - start_t) / (24 * 60 * 60))%Z
      by (apply Z.div_pos; lia).
    lia.
Qed.

(** ** The number of rows and the last day of the range *)

(** X9.  Both generators write [(end_t - start_t) / 86400 + 1] rows when
    that number is positive and none otherwise; the row of the end date
    itself is written exactly when [end_t] is not before [start_t] and a
    whole number of days of 86400 seconds after it. *)
Theorem rows_count_and_end_date
        (ps2 : list KeplerSim.Planet) (ps3 : list KeplerSim3D.Planet)
        (start_t end_t : time_t) :
  let rows2 := outfile (KeplerSimMain.simulate ps2 start_t end_t) in
  let rows3 := outfile (KeplerSim3DMain.simulate ps3 start_t end_t) in
  length rows2 = Z.to_nat ((end_t - start_t) / SECONDS_IN_DAY + 1)
  /\ length rows3 = Z.to_nat ((end_t - start_t) / SECONDS_IN_DAY + 1)
  /\ (In end_t (map fst rows2)
      <-> (start_t <= end_t)%Z
          /\ ((end_t - start_t) mod SECONDS_IN_DAY = 0)%Z)
  /\ (In end_t (map fst rows3)
      <-> (start_t <= end_t)%Z
          /\ ((end_t - start_t) mod SECONDS_IN_DAY = 0)%Z).
Proof.
  intros rows2 rows3. subst rows2 rows3.
  destruct (simulate2d_spec ps2 start_t end_t) as (_ & -> & _).
  destruct (simulate3d_spec ps3 start_t end_t) as (_ & -> & _).
  rewrite !rows_dates, !length_map, dates_length.
  split; [reflexivity |]. split; [reflexivity |].
  split; apply end_in_dates.
Qed.

(** ** An empty range *)

Lemma main_loop_empty (Planet Result : Type)
      (visit : Planet -> time_t -> Planet * Result)
      (end_t current_t : time_t) (st : Sim Planet Result) :
  (end_t < current_t)%Z -> main_loop visit end_t current_t st = st.
Proof.
  intros H. funelim (main_loop visit end_t current_t st); [lia | reflexivity].
Qed.

(** X10.  When the end date is before the start date neither generator
    writes a row or calls the calculator, and the array of bodies is left
    as it was. *)
Theorem empty_range_runs_nothing
        (ps2 : list KeplerSim.Planet) (ps3 : list KeplerSim3D.Planet)
        (start_t end_t : time_t) :
  (end_t < start_t)%Z ->
  KeplerSimMain.simulate ps2 start_t end_t = mkSim ps2 [] []
  /\ KeplerSim3DMain.simulate ps3 start_t end_t = mkSim ps3 [] [].
Proof.
  intros H. split; apply main_loop_empty; exact H.
Qed.

Lemma empty_range_runs_nothing_witness :
  KeplerSimMain.simulate [earth; mars] 86400%Z 0%Z = mkSim [earth; mars] [] []
  /\ KeplerSim3DMain.simulate [to3d earth; to3d mars] 86400%Z 0%Z
     = mkSim [to3d earth; to3d mars] [] [].
Proof.
  apply (@empty_range_runs_nothing
           [earth; mars] [to3d earth; to3d mars] 86400%Z 0%Z).
  lia.
Defined.

(** ** The structs after a run *)

Section FinalPlanets.

Variables Planet Result : Type.
Variable visit : Planet -> time_t -> Planet * Result.

Lemma planets_loop_planets (t : time_t) (ps : list Planet) (i : nat) :
  fst (fst (planets_loop visit t i ps)) = map (fun p => fst (visit p t)) ps.
Proof.
  revert i. induction ps as [| p ps IH]; intros i; [reflexivity |].
  cbn [planets_loop map]. specialize (IH (S i)).
  destruct (visit p t) as [p' r].
  destruct (planets_loop visit t (S i) ps) as [[ps' rs] log].
  cbn [fst] in *. rewrite IH. reflexivity.
Qed.

Lemma main_loop_planets (end_t current_t : time_t) (st : Sim Planet Result) :
  planets (main_loop visit end_t current_t st)
  = fold_left (fun ps d => map (fun p => fst (visit p d)) ps)
              (dates current_t end_t) (planets st).
Proof.
  funelim (main_loop visit end_t current_t st).
  - clear Heqcall. rewrite (dates_step l). cbn [fold_left].
    pose proof (planets_loop_planets current_t (planets st) 0) as Hps.
    destruct (planets_loop visit current_t 0 (planets st)) as [[ps rs] log].
    cbn [fst] in Hps. rewrite (H (ps, rs) log ps rs). cbn [planets].
    rewrite Hps. reflexivity.
  - rewrite dates_empty by lia. reflexivity.
Qed.

End FinalPlanets.

Lemma calculate_position_overwrites (p : KeplerSim3D.Planet) (t' t : time_t) :
  KeplerSim3D.calculate_position (KeplerSim3D.calculate_position p t') t
  = KeplerSim3D.calculate_position p t.
Proof.
  rewrite (calculate_position_frame (KeplerSim3D.calculate_position p t') t).
  pose proof (position_depends_on_elements
                t (proj2 (proj2 (calculate_position_same p t')))) as Hpos.
  unfold Elements3D.position in Hpos. injection Hpos as Hx Hy Hz.
  rewrite <- Hx, <- Hy, <- Hz.
  destruct (calculate_position_same p t')
    as (E1 & E2 & E3 & E4 & E5 & E6 & E7 & E8 & E9).
  rewrite <- E1, <- E2, <- E3, <- E4, <- E5, <- E6, <- E7, <- E8, <- E9.
  symmetry. apply calculate_position_frame.
Qed.

Lemma last_cons_default (A : Type) (l : list A) (a x y : A) :
  last (a :: l) x = last (a :: l) y.
Proof.
  revert a. induction l as [| b l IH]; intros a; [reflexivity |].
  change (last (b :: l) x = last (b :: l) y). apply IH.
Qed.

Lemma fold_calculate_position (ds : list time_t) (d : time_t)
      (ps : list KeplerSim3D.Planet) :
  fold_left (fun ps d => map (fun p => KeplerSim3D.calculate_position p d) ps)
            (d :: ds) ps
  = map (fun p => KeplerSim3D.calculate_position p (last (d :: ds) d)) ps.
Proof.
  revert d ps. induction ds as [| d' ds IH]; intros d ps; [reflexivity |].
  change (fold_left _ (d :: d' :: ds) ps)
    with (fold_left
            (fun ps d => map (fun p => KeplerSim3D.calculate_position p d) ps)
            (d' :: ds)
            (map (fun p => KeplerSim3D.calculate_position p d) ps)).
  rewrite IH, map_map.
  change (last (d :: d' :: ds) d) with (last (d' :: ds) d).
  rewrite (last_cons_default ds d' d d').
  apply map_ext. intros p. apply calculate_position_overwrites.
Qed.

Lemma last_date (start_t end_t : time_t) :
  (start_t <= end_t)%Z ->
  exists ds,
    dates start_t end_t = start_t :: ds
    /\ last (start_t :: ds) start_t
       = (start_t + SECONDS_IN_DAY * ((end_t - start_t) / SECONDS_IN_DAY))%Z.
Proof.
  intros H. eexists. split; [apply dates_step; exact H |].
  rewrite <- (dates_step H). unfold dates.
  assert (Hq : (0 <= (end_t - start_t) / SECONDS_IN_DAY)%Z)
    by (apply Z.div_pos; unfold SECONDS_IN_DAY; lia).
  replace (Z.to_nat ((end_t - start_t) / SECONDS_IN_DAY + 1))
    with (Z.to_nat ((end_t - start_t) / SECONDS_IN_DAY) + 1)%nat by lia.
  rewrite seq_app, map_app. cbn [seq map]. rewrite last_last.
  rewrite Nat.add_0_l, Z2Nat.id by exact Hq. reflexivity.
Qed.

(** X11.  After a run of kepler_sim_3d.c over a range with
    [start_t <= end_t], each struct of the array holds the position of the
    last date of the run, [start_t + 86400 ((end_t - start_t) / 86400)]:
    every call overwrites what the call of the day before stored. *)
Theorem structs_hold_last_position
        (ps : list KeplerSim3D.Planet) (start_t end_t : time_t) :
  (start_t <= end_t)%Z ->
  planets (KeplerSim3DMain.simulate ps start_t end_t)
  = map (fun p =>
           KeplerSim3D.calculate_position
             p (start_t
                + SECONDS_IN_DAY * ((end_t - start_t) / SECONDS_IN_DAY))%Z)
        ps.
Proof.
  intros H. unfold KeplerSim3DMain.simulate, simulate.
  rewrite main_loop_planets. cbn [planets].
  destruct (last_date H) as (ds & -> & <-).
  apply (fold_calculate_position ds start_t ps).
Qed.

Lemma structs_hold_last_position_witness :
  planets (KeplerSim3DMain.simulate [to3d earth; to3d mars] 0%Z 172800%Z)
  = map (fun p =>
           KeplerSim3D.calculate_position
             p (0 + SECONDS_IN_DAY * ((172800 - 0) / SECONDS_IN_DAY))%Z)
        [to3d earth; to3d mars].
Proof.
  apply (@structs_hold_last_position [to3d earth; to3d mars] 0%Z 172800%Z).
  lia.
Defined.

(** * The receive buffer *)

Lemma realloc_length (block fresh : list Byte.byte) (n : Z) :
  length (Buffer.realloc block n fresh) = Z.to_nat n.
Proof.
  unfold Buffer.realloc. apply firstn_length_le.
  rewrite !length_app, repeat_length. lia.
Qed.

Lemma realloc_keeps (block fresh : list Byte.byte) (n : Z) (k : nat) :
  (k <= length block)%nat -> (k <= Z.to_nat n)%nat ->
  firstn k (Buffer.realloc block n fresh) = firstn k block.
Proof.
  intros Hk Hn. unfold Buffer.realloc.
  rewrite firstn_firstn, Nat.min_l by exact Hn.
  rewrite firstn_app.
  replace (k - length block)%nat with 0%nat by lia.
  rewrite firstn_O, app_nil_r. reflexivity.
Qed.

Lemma append_and_terminate (ptr contents : list Byte.byte) (s : nat) :
  length ptr = (s + length contents + 1)%nat ->
  Buffer.store_at
    (Buffer.memcpy_at ptr (Z.of_nat s) contents (Z.of_nat (length contents)))
    (Z.of_nat s + Z.of_nat (length contents)) Byte.x00
  = firstn s ptr ++ contents ++ [Byte.x00].
Proof.
  intros Hlen. unfold Buffer.store_at, Buffer.memcpy_at.
  rewrite !Nat2Z.id, firstn_all.
  replace (Z.to_nat (Z.of_nat s + Z.of_nat (length contents)))
    with (s + length contents)%nat by lia.
  replace (Z.to_nat (Z.of_nat s + Z.of_nat (length contents) + 1))
    with (s + length contents + 1)%nat by lia.
  assert (Hs : length (firstn s ptr) = s) by (apply firstn_length_le; lia).
  assert (Hhead : length (firstn s ptr ++ contents) = (s + length contents)%nat)
    by (rewrite length_app, Hs; reflexivity).
  rewrite (app_assoc (firstn s ptr) contents).
  rewrite firstn_app, Hhead, Nat.sub_diag, firstn_O, app_nil_r.
  rewrite <- Hhead at 1. rewrite firstn_all.
  rewrite skipn_all2.
  - rewrite <- app_assoc. reflexivity.
  - rewrite length_app, Hhead, length_skipn. lia.
Qed.

Lemma callback_appends
      (contents fresh : list Byte.byte) (mem : Buffer.MemoryStruct)
      (size nmemb : Z) :
  (0 <= Buffer.size mem)%Z ->
  Z.of_nat (length (Buffer.memory mem)) = (Buffer.size mem + 1)%Z ->
  (size * nmemb)%Z = Z.of_nat (length contents) ->
  (Buffer.size mem + size * nmemb + 1 < Buffer.size_t_modulus)%Z ->
  Buffer.WriteMemoryCallback contents size nmemb (Some fresh) mem
  = ((size * nmemb)%Z,
     Buffer.mkMemoryStruct
       (firstn (Z.to_nat (Buffer.size mem)) (Buffer.memory mem)
        ++ contents ++ [Byte.x00])
       (Buffer.size mem + size * nmemb)).
Proof.
  intros Hsize Hblock Hcontents Hfit.
  unfold Buffer.WriteMemoryCallback. cbn [Buffer.memory Buffer.size].
  unfold Buffer.size_t_modulus in *.
  rewrite (Z.mod_small (size * nmemb)) by lia.
  rewrite !Z.mod_small by lia.
  f_equal. f_equal. rewrite Hcontents.
  set (s := Z.to_nat (Buffer.size mem)).
  replace (Buffer.size mem) with (Z.of_nat s) by (unfold s; lia).
  rewrite append_and_terminate.
  - rewrite realloc_keeps by lia. reflexivity.
  - rewrite realloc_length. lia.
Qed.

(** X12.  On a buffer of [size + 1] bytes, a call of [WriteMemoryCallback]
    whose allocation succeeds keeps the first [size] bytes, puts the
    [size * nmemb] bytes of [contents] after them and a NUL after those,
    adds [size * nmemb] to the size and returns [size * nmemb]: the old
    last byte and the indeterminate bytes of the grown block do not
    survive.  A call whose allocation fails returns 0 and leaves the
    buffer as it was. *)
Theorem write_callback_appends_and_terminates
        (contents fresh : list Byte.byte) (mem : Buffer.MemoryStruct)
        (size nmemb : Z) :
  (0 <= Buffer.size mem)%Z ->
  Z.of_nat (length (Buffer.memory mem)) = (Buffer.size mem + 1)%Z ->
  (size * nmemb)%Z = Z.of_nat (length contents) ->
  (Buffer.size mem + size * nmemb + 1 < Buffer.size_t_modulus)%Z ->
  let result := Buffer.WriteMemoryCallback contents size nmemb (Some fresh) mem in
  fst result = (size * nmemb)%Z
  /\ Buffer.memory (snd result)
     = firstn (Z.to_nat (Buffer.size mem)) (Buffer.memory mem)
       ++ contents ++ [Byte.x00]
  /\ Buffer.size (snd result) = (Buffer.size mem + size * nmemb)%Z
  /\ Buffer.terminated (snd result)
  /\ Buffer.WriteMemoryCallback contents size nmemb None mem = (0%Z, mem).
Proof.
  intros Hsize Hblock Hcontents Hfit result. subst result.
  rewrite (@callback_appends contents fresh mem size nmemb
             Hsize Hblock Hcontents Hfit).
  cbn [fst snd Buffer.memory Buffer.size].
  split; [reflexivity |]. split; [reflexivity |]. split; [reflexivity |].
  split; [| reflexivity].
  exists (firstn (Z.to_nat (Buffer.size mem)) (Buffer.memory mem) ++ contents).
  cbn [Buffer.memory Buffer.size]. split; [apply app_assoc |].
  rewrite length_app, firstn_length_le by lia. lia.
Qed.

Lemma write_callback_appends_and_terminates_witness :
  let mem := Buffer.mkMemoryStruct [Byte.x41; Byte.x00] 1 in
  let result :=
    Buffer.WriteMemoryCallback [Byte.x42; Byte.x43] 1 2
                               (Some [Byte.xff; Byte.xff]) mem in
  fst result = (1 * 2)%Z
  /\ Buffer.memory (snd result)
     = firstn (Z.to_nat 1) [Byte.x41; Byte.x00]
       ++ [Byte.x42; Byte.x43] ++ [Byte.x00]
  /\ Buffer.size (snd result) = (1 + 1 * 2)%Z
  /\ Buffer.terminated (snd result)
  /\ Buffer.WriteMemoryCallback [Byte.x42; Byte.x43] 1 2 None mem = (0%Z, mem).
Proof.
  intros mem.
  apply (@write_callback_appends_and_terminates
           [Byte.x42; Byte.x43] [Byte.xff; Byte.xff] mem 1 2).
  - cbn. lia.
  - reflexivity.
  - reflexivity.
  - reflexivity.
Defined.

(** ** A whole transfer *)

Lemma receive_appends
      (pieces : list (list Byte.byte * option (list Byte.byte)))
      (mem : Buffer.MemoryStruct) :
  all_allocated pieces ->
  (0 <= Buffer.size mem)%Z ->
  Z.of_nat (length (Buffer.memory mem)) = (Buffer.size mem + 1)%Z ->
  (Buffer.size mem + Z.of_nat (length (body_of pieces)) + 1
   < Buffer.size_t_modulus)%Z ->
  Buffer.receive pieces mem
  = (true,
     match pieces with
     | [] => mem
     | _ :: _ =>
         Buffer.mkMemoryStruct
           (firstn (Z.to_nat (Buffer.size mem)) (Buffer.memory mem)
            ++ body_of pieces ++ [Byte.x00])
           (Buffer.size mem + Z.of_nat (length (body_of pieces)))
     end).
Proof.
  intros Hall. revert mem.
  induction Hall as [| [contents allocator] pieces Hok Hall IH];
    intros mem Hsize Hblock Hfit; [reflexivity |].
  cbn [snd] in Hok. destruct allocator as [fresh |]; [| contradiction].
  unfold body_of in *. cbn [map concat fst] in *.
  rewrite length_app in Hfit.
  cbn [Buffer.receive].
  rewrite (@callback_appends contents fresh mem 1 (Z.of_nat (length contents)))
    by lia.
  rewrite Z.mul_1_l, Z.eqb_refl.
  set (s := Z.to_nat (Buffer.size mem)) in *.
  assert (Hs : length (firstn s (Buffer.memory mem)) = s)
    by (apply firstn_length_le; lia).
  rewrite IH; cbn [Buffer.memory Buffer.size].
  - f_equal. destruct pieces as [| piece pieces].
    + cbn [map concat]. rewrite app_nil_r. reflexivity.
    + f_equal.
      * replace (Z.to_nat (Buffer.size mem + Z.of_nat (length contents)))
          with (length (firstn s (Buffer.memory mem) ++ contents))
          by (rewrite length_app, Hs; lia).
        rewrite (app_assoc (firstn s (Buffer.memory mem)) contents).
        rewrite firstn_app, firstn_all, Nat.sub_diag, firstn_O, app_nil_r.
        rewrite <- !app_assoc. reflexivity.
      * rewrite length_app. lia.
  - lia.
  - rewrite !length_app, Hs. cbn [length]. lia.
  - lia.
Qed.

Lemma c_string_terminated (data : list Byte.byte) :
  Buffer.c_string (data ++ [Byte.x00]) = Buffer.c_string data.
Proof.
  induction data as [| b data IH]; [reflexivity |].
  cbn [app Buffer.c_string]. destruct (Byte.eqb b Byte.x00); [reflexivity |].
  rewrite IH. reflexivity.
Qed.

(** X13.  After a transfer of at least one piece whose allocations all
    succeed, the buffer that started as [malloc(1)] holds the bytes of the
    pieces in the order received, followed by a NUL; its size is their
    number; and the C string it starts with is the body up to its first
    NUL byte.  Neither the indeterminate first byte nor the indeterminate
    bytes of the grown blocks are part of it. *)
Theorem transfer_accumulates_body
        (pieces : list (list Byte.byte * option (list Byte.byte)))
        (indeterminate : Byte.byte) :
  pieces <> [] ->
  all_allocated pieces ->
  (Z.of_nat (length (body_of pieces)) + 1 < Buffer.size_t_modulus)%Z ->
  let result := Buffer.receive pieces (Buffer.fresh_chunk indeterminate) in
  fst result = true
  /\ Buffer.memory (snd result) = body_of pieces ++ [Byte.x00]
  /\ Buffer.size (snd result) = Z.of_nat (length (body_of pieces))
  /\ Buffer.c_string (Buffer.memory (snd result))
     = Buffer.c_string (body_of pieces).
Proof.
  intros Hne Hall Hfit result. subst result.
  rewrite receive_appends; cbn [Buffer.fresh_chunk Buffer.memory Buffer.size length].
  - destruct pieces as [| piece pieces]; [contradiction |].
    cbn [fst snd Buffer.memory Buffer.size firstn Z.to_nat app].
    split; [reflexivity |]. split; [reflexivity |]. split; [lia |].
    apply c_string_terminated.
  - exact Hall.
  - lia.
  - reflexivity.
  - lia.
Qed.

Lemma transfer_accumulates_body_witness :
  let pieces :=
    [([Byte.x24; Byte.x24], Some [Byte.xff; Byte.xff]);
     ([Byte.x53; Byte.x4f; Byte.x45], Some [])] in
  let result := Buffer.receive pieces (Buffer.fresh_chunk Byte.xaa) in
  fst result = true
  /\ Buffer.memory (snd result) = body_of pieces ++ [Byte.x00]
  /\ Buffer.size (snd result) = Z.of_nat (length (body_of pieces))
  /\ Buffer.c_string (Buffer.memory (snd result))
     = Buffer.c_string (body_of pieces).
Proof.
  intros pieces.
  apply (@transfer_accumulates_body pieces Byte.xaa).
  - discriminate.
  - repeat constructor; discriminate.
  - reflexivity.
Defined.

(** X14.  A piece of at least one byte whose allocation fails stops the
    transfer: [receive] reports the failure, the pieces after it are never
    handed over, and the buffer is the one the pieces before it left. *)
Theorem transfer_stops_at_failed_allocation
        (good rest : list (list Byte.byte * option (list Byte.byte)))
        (contents : list Byte.byte) (mem : Buffer.MemoryStruct) :
  contents <> [] ->
  all_allocated good ->
  (0 <= Buffer.size mem)%Z ->
  Z.of_nat (length (Buffer.memory mem)) = (Buffer.size mem + 1)%Z ->
  (Buffer.size mem + Z.of_nat (length (body_of good)) + 1
   < Buffer.size_t_modulus)%Z ->
  Buffer.receive (good ++ (contents, None) :: rest) mem
  = (false, snd (Buffer.receive good mem)).
Proof.
  intros Hne Hall. revert mem.
  induction Hall as [| [c allocator] good Hok Hall IH];
    intros mem Hsize Hblock Hfit.
  - cbn [app Buffer.receive Buffer.WriteMemoryCallback snd].
    destruct contents as [| b contents]; [contradiction |].
    cbn [length]. destruct (0 =? Z.of_nat (S (length contents)))%Z eqn:E;
      [apply Z.eqb_eq in E; lia | reflexivity].
  - cbn [snd] in Hok. destruct allocator as [fresh |]; [| contradiction].
    unfold body_of in *. cbn [map concat fst] in *.
    rewrite length_app in Hfit.
    cbn [app Buffer.receive].
    rewrite (@callback_appends c fresh mem 1 (Z.of_nat (length c))) by lia.
    rewrite Z.mul_1_l, Z.eqb_refl.
    apply IH; cbn [Buffer.memory Buffer.size].
    + lia.
    + rewrite !length_app, firstn_length_le by lia. cbn [length]. lia.
    + lia.
Qed.

Lemma transfer_stops_at_failed_allocation_witness :
  Buffer.receive
    ([([Byte.x24; Byte.x24], Some [])]
       ++ ([Byte.x53], None) :: [([Byte.x4f], Some [])])
    (Buffer.fresh_chunk Byte.xaa)
  = (false,
     snd (Buffer.receive [([Byte.x24; Byte.x24], Some [])]
                         (Buffer.fresh_chunk Byte.xaa))).
Proof.
  apply (@transfer_stops_at_failed_allocation
           [([Byte.x24; Byte.x24], Some [])] [([Byte.x4f], Some [])]
           [Byte.x53] (Buffer.fresh_chunk Byte.xaa)).
  - discriminate.
  - repeat constructor; discriminate.
  - cbn. lia.
  - reflexivity.
  - reflexivity.
Defined.

(** * Fetching the elements *)

Section FetchFacts.

Variable sscanf_lf : string -> string -> Libc.scan_result.
Variable mktime_date : string -> time_t.
Variable horizons_elements : string -> string -> transfer.

Variable Planet : Type.
Variable id : Planet -> string.
Variables set_eccentricity set_semi_major_axis_au set_inclination_deg
          set_lon_asc_node_deg set_arg_periapsis_deg set_mean_anomaly_deg
  : double -> Planet -> Planet.
Variable set_epoch : time_t -> Planet -> Planet.

Local Abbreviation fetch :=
  (fetch_orbital_elements
     sscanf_lf mktime_date horizons_elements id
     set_eccentricity set_semi_major_axis_au set_inclination_deg
     set_lon_asc_node_deg set_arg_periapsis_deg set_mean_anomaly_deg
     set_epoch).

Local Abbreviation parsed_planet :=
  (parsed sscanf_lf set_eccentricity set_semi_major_axis_au
          set_inclination_deg set_lon_asc_node_deg set_arg_periapsis_deg
          set_mean_anomaly_deg).

Lemma scan_into_stored (T : Type) (elements_start key format : string)
      (store : double -> T -> T) (parsed_count : Z) (target : T) :
  exists n : Z,
    scan_into sscanf_lf elements_start key format store parsed_count target
    = ((parsed_count + n)%Z,
       stored sscanf_lf elements_start key format store target)
    /\ (n <= 1)%Z
    /\ (n = 1%Z <-> scanned sscanf_lf elements_start key format <> None).
Proof.
  unfold scan_into, stored, scanned.
  destruct (Libc.strstr elements_start key) as [ptr |].
  - destruct (sscanf_lf format ptr) as [v | |].
    + exists 1%Z. repeat split; try lia; discriminate.
    + exists 0%Z. cbn [Libc.scan_count].
      repeat split; try lia; try discriminate; intros H; contradiction.
    + exists (-1)%Z. cbn [Libc.scan_count]. unfold Libc.EOF.
      repeat split; try lia; try discriminate; intros H; contradiction.
  - exists 0%Z. rewrite Z.add_0_r.
    repeat split; try lia; try discriminate; intros H; contradiction.
Qed.

Lemma fetch_received (planet : Planet) (epoch_str memory elements_start : string) :
  horizons_elements (id planet) epoch_str = Received memory ->
  Libc.strstr memory "$$SOE" = Some elements_start ->
  (all_scanned sscanf_lf elements_start ->
   fetch planet epoch_str
   = (0%Z, set_epoch (mktime_date epoch_str)
                     (parsed_planet elements_start planet)))
  /\ (~ all_scanned sscanf_lf elements_start ->
      fetch planet epoch_str = ((-1)%Z, parsed_planet elements_start planet)).
Proof.
  intros Hreq Hmark.
  unfold fetch_orbital_elements, parsed, all_scanned.
  rewrite Hreq, Hmark.
  destruct (scan_into_stored elements_start "EC=" "EC= %lf"
              set_eccentricity 0 planet) as (n1 & -> & L1 & I1).
  cbv iota beta.
  destruct (scan_into_stored elements_start "IN=" "IN= %lf"
              set_inclination_deg (0 + n1)
              (stored sscanf_lf elements_start "EC=" "EC= %lf"
                      set_eccentricity planet)) as (n2 & -> & L2 & I2).
  cbv iota beta.
  match goal with
  | |- context [scan_into _ _ "OM=" _ ?s ?c ?p] =>
      destruct (scan_into_stored elements_start "OM=" "OM= %lf" s c p)
        as (n3 & -> & L3 & I3)
  end.
  cbv iota beta.
  match goal with
  | |- context [scan_into _ _ "W =" _ ?s ?c ?p] =>
      destruct (scan_into_stored elements_start "W =" "W = %lf" s c p)
        as (n4 & -> & L4 & I4)
  end.
  cbv iota beta.
  match goal with
  | |- context [scan_into _ _ "MA=" _ ?s ?c ?p] =>
      destruct (scan_into_stored elements_start "MA=" "MA= %lf" s c p)
        as (n5 & -> & L5 & I5)
  end.
  cbv iota beta.
  match goal with
  | |- context [scan_into _ _ "A =" _ ?s ?c ?p] =>
      destruct (scan_into_stored elements_start "A =" "A = %lf" s c p)
        as (n6 & -> & L6 & I6)
  end.
  cbv iota beta zeta.
  split.
  - intros (A1 & A2 & A3 & A4 & A5 & A6).
    apply I1 in A1. apply I2 in A2. apply I3 in A3.
    apply I4 in A4. apply I5 in A5. apply I6 in A6. subst.
    reflexivity.
  - intros Hnot.
    destruct (0 + n1 + n2 + n3 + n4 + n5 + n6 =? 6)%Z eqn:E; [| reflexivity].
    apply Z.eqb_eq in E. exfalso. apply Hnot.
    assert (n1 = 1 /\ n2 = 1 /\ n3 = 1 /\ n4 = 1 /\ n5 = 1 /\ n6 = 1)%Z
      as (-> & -> & -> & -> & -> & ->) by lia.
    repeat split; [apply I1 | apply I2 | apply I3 | apply I4 | apply I5
                   | apply I6]; reflexivity.
Qed.

Lemma all_scanned_dec (elements_start : string) :
  all_scanned sscanf_lf elements_start \/ ~ all_scanned sscanf_lf elements_start.
Proof.
  unfold all_scanned.
  destruct (scanned sscanf_lf elements_start "EC=" "EC= %lf");
    [| right; intros (H & _); apply H; reflexivity].
  destruct (scanned sscanf_lf elements_start "IN=" "IN= %lf");
    [| right; intros (_ & H & _); apply H; reflexivity].
  destruct (scanned sscanf_lf elements_start "OM=" "OM= %lf");
    [| right; intros (_ & _ & H & _); apply H; reflexivity].
  destruct (scanned sscanf_lf elements_start "W =" "W = %lf");
    [| right; intros (_ & _ & _ & H & _); apply H; reflexivity].
  destruct (scanned sscanf_lf elements_start "MA=" "MA= %lf");
    [| right; intros (_ & _ & _ & _ & H & _); apply H; reflexivity].
  destruct (scanned sscanf_lf elements_start "A =" "A = %lf");
    [| right; intros (_ & _ & _ & _ & _ & H); apply H; reflexivity].
  left. repeat split; discriminate.
Qed.

(** The cases of a fetch. *)
Lemma fetch_cases (planet : Planet) (epoch_str : string) :
  (exists memory elements_start,
      horizons_elements (id planet) epoch_str = Received memory
      /\ Libc.strstr memory "$$SOE" = Some elements_start
      /\ all_scanned sscanf_lf elements_start
      /\ fetch planet epoch_str
         = (0%Z, set_epoch (mktime_date epoch_str)
                           (parsed_planet elements_start planet)))
  \/ (exists memory elements_start,
         horizons_elements (id planet) epoch_str = Received memory
         /\ Libc.strstr memory "$$SOE" = Some elements_start
         /\ ~ all_scanned sscanf_lf elements_start
         /\ fetch planet epoch_str
            = ((-1)%Z, parsed_planet elements_start planet))
  \/ ((forall memory,
          horizons_elements (id planet) epoch_str = Received memory ->
          Libc.strstr memory "$$SOE" = None)
      /\ fetch planet epoch_str = ((-1)%Z, planet)).
Proof.
  destruct (horizons_elements (id planet) epoch_str) as [| | memory] eqn:Hreq.
  - right. right. split; [discriminate |].
    unfold fetch_orbital_elements. rewrite Hreq. reflexivity.
  - right. right. split; [discriminate |].
    unfold fetch_orbital_elements. rewrite Hreq. reflexivity.
  - destruct (Libc.strstr memory "$$SOE") as [elements_start |] eqn:Hmark.
    + destruct (fetch_received Hreq Hmark) as [Hyes Hno].
      destruct (all_scanned_dec elements_start) as [Hall | Hall].
      * left. exists memory, elements_start. auto.
      * right. left. exists memory, elements_start. auto.
    + right. right. split.
      * intros memory' H. injection H as <-. exact Hmark.
      * unfold fetch_orbital_elements. rewrite Hreq, Hmark.
        reflexivity.
Qed.

Lemma fetch_status (planet : Planet) (epoch_str : string) :
  (fst (fetch planet epoch_str) = 0%Z \/ fst (fetch planet epoch_str) = (-1)%Z)
  /\ (fst (fetch planet epoch_str) = 0%Z
      <-> exists memory elements_start,
            horizons_elements (id planet) epoch_str = Received memory
            /\ Libc.strstr memory "$$SOE" = Some elements_start
            /\ all_scanned sscanf_lf elements_start).
Proof.
  destruct (fetch_cases planet epoch_str)
    as [(memory & es & Hreq & Hmark & Hall & ->)
       | [(memory & es & Hreq & Hmark & Hall & ->) | (Hnone & ->)]];
    cbn [fst].
  - split; [left; reflexivity |]. split; [| reflexivity].
    intros _. exists memory, es. auto.
  - split; [right; reflexivity |]. split; [discriminate |].
    intros (memory' & es' & Hreq' & Hmark' & Hall').
    rewrite Hreq in Hreq'. injection Hreq' as <-.
    rewrite Hmark in Hmark'. injection Hmark' as <-. contradiction.
  - split; [right; reflexivity |]. split; [discriminate |].
    intros (memory' & es' & Hreq' & Hmark' & _).
    rewrite (Hnone memory' Hreq') in Hmark'. discriminate.
Qed.

End FetchFacts.

(** ** The two instances *)

Section Fetch2D.

Variable sscanf_lf : string -> string -> Libc.scan_result.
Variable mktime_date : string -> time_t.
Variable horizons_elements : string -> string -> transfer.

Local Abbreviation fetch :=
  (KeplerSimProgram.fetch_orbital_elements
     sscanf_lf mktime_date horizons_elements).

Local Abbreviation parsed2d :=
  (parsed sscanf_lf KeplerSimProgram.set_eccentricity
          KeplerSimProgram.set_semi_major_axis_au
          KeplerSimProgram.set_inclination_deg
          KeplerSimProgram.set_lon_asc_node_deg
          KeplerSimProgram.set_arg_periapsis_deg
          KeplerSimProgram.set_mean_anomaly_deg).

Lemma parsed2d_fields (es : string) (p : KeplerSim.Planet) :
  KeplerSim.name (parsed2d es p) = KeplerSim.name p
  /\ KeplerSim.id (parsed2d es p) = KeplerSim.id p
  /\ KeplerSim.epoch (parsed2d es p) = KeplerSim.epoch p
  /\ Fetched2D.kept_or_scanned sscanf_lf es "EC=" "EC= %lf"
       (KeplerSim.eccentricity p) (KeplerSim.eccentricity (parsed2d es p))
  /\ Fetched2D.kept_or_scanned sscanf_lf es "IN=" "IN= %lf"
       (KeplerSim.inclination_deg p)
       (KeplerSim.inclination_deg (parsed2d es p))
  /\ Fetched2D.kept_or_scanned sscanf_lf es "OM=" "OM= %lf"
       (KeplerSim.lon_asc_node_deg p)
       (KeplerSim.lon_asc_node_deg (parsed2d es p))
  /\ Fetched2D.kept_or_scanned sscanf_lf es "W =" "W = %lf"
       (KeplerSim.arg_periapsis_deg p)
       (KeplerSim.arg_periapsis_deg (parsed2d es p))
  /\ Fetched2D.kept_or_scanned sscanf_lf es "MA=" "MA= %lf"
       (KeplerSim.mean_anomaly_deg p)
       (KeplerSim.mean_anomaly_deg (parsed2d es p))
  /\ KeplerSim.semi_major_axis_au (parsed2d es p)
     = (match scanned sscanf_lf es "A =" "A = %lf" with
        | Some km => km
        | None => Num 0
        end / AU_TO_KM)%D.
Proof.
  unfold parsed, stored, Fetched2D.kept_or_scanned.
  destruct (scanned sscanf_lf es "EC=" "EC= %lf");
    destruct (scanned sscanf_lf es "IN=" "IN= %lf");
    destruct (scanned sscanf_lf es "OM=" "OM= %lf");
    destruct (scanned sscanf_lf es "W =" "W = %lf");
    destruct (scanned sscanf_lf es "MA=" "MA= %lf");
    destruct (scanned sscanf_lf es "A =" "A = %lf");
    cbn; repeat split; reflexivity.
Qed.

End Fetch2D.

Section Fetch3D.

Variable sscanf_lf : string -> string -> Libc.scan_result.

Local Abbreviation parsed3d :=
  (parsed sscanf_lf KeplerSim3DProgram.set_eccentricity
          KeplerSim3DProgram.set_semi_major_axis_au
          KeplerSim3DProgram.set_inclination_deg
          KeplerSim3DProgram.set_lon_asc_node_deg
          KeplerSim3DProgram.set_arg_periapsis_deg
          KeplerSim3DProgram.set_mean_anomaly_deg).

Lemma parsed3d_fields (es : string) (p : KeplerSim3D.Planet) :
  Fetched3D.same_labels_and_position (parsed3d es p) p
  /\ KeplerSim3D.epoch (parsed3d es p) = KeplerSim3D.epoch p
  /\ Fetched2D.kept_or_scanned sscanf_lf es "EC=" "EC= %lf"
       (KeplerSim3D.eccentricity p) (KeplerSim3D.eccentricity (parsed3d es p))
  /\ Fetched2D.kept_or_scanned sscanf_lf es "IN=" "IN= %lf"
       (KeplerSim3D.inclination_deg p)
       (KeplerSim3D.inclination_deg (parsed3d es p))
  /\ Fetched2D.kept_or_scanned sscanf_lf es "OM=" "OM= %lf"
       (KeplerSim3D.lon_asc_node_deg p)
       (KeplerSim3D.lon_asc_node_deg (parsed3d es p))
  /\ Fetched2D.kept_or_scanned sscanf_lf es "W =" "W = %lf"
       (KeplerSim3D.arg_periapsis_deg p)
       (KeplerSim3D.arg_periapsis_deg (parsed3d es p))
  /\ Fetched2D.kept_or_scanned sscanf_lf es "MA=" "MA= %lf"
       (KeplerSim3D.mean_anomaly_deg p)
       (KeplerSim3D.mean_anomaly_deg (parsed3d es p))
  /\ KeplerSim3D.semi_major_axis_au (parsed3d es p)
     = (match scanned sscanf_lf es "A =" "A = %lf" with
        | Some km => km
        | None => Num 0
        end / AU_TO_KM)%D.
Proof.
  unfold parsed, stored, Fetched2D.kept_or_scanned,
    Fetched3D.same_labels_and_position.
  destruct (scanned sscanf_lf es "EC=" "EC= %lf");
    destruct (scanned sscanf_lf es "IN=" "IN= %lf");
    destruct (scanned sscanf_lf es "OM=" "OM= %lf");
    destruct (scanned sscanf_lf es "W =" "W = %lf");
    destruct (scanned sscanf_lf es "MA=" "MA= %lf");
    destruct (scanned sscanf_lf es "A =" "A = %lf");
    cbn; repeat split; reflexivity.
Qed.

End Fetch3D.

(** ** When a fetch succeeds *)

(** X15.  In both programs [fetch_orbital_elements] returns 0 or -1, and
    it returns 0 exactly when the transfer succeeds, the response holds
    the marker [$$SOE] and, after the marker, each of the six keys is found
    and its number converted: a conversion that fails, or one for which
    [sscanf] returns [EOF], is not made up for by the other five. *)
Theorem fetch_succeeds_iff_six_conversions
        (sscanf_lf : string -> string -> Libc.scan_result)
        (mktime_date : string -> time_t)
        (horizons_elements : string -> string -> transfer)
        (p2 : KeplerSim.Planet) (p3 : KeplerSim3D.Planet)
        (epoch_str : string) :
  let status2 :=
    fst (KeplerSimProgram.fetch_orbital_elements
           sscanf_lf mktime_date horizons_elements p2 epoch_str) in
  let status3 :=
    fst (KeplerSim3DProgram.fetch_orbital_elements
           sscanf_lf mktime_date horizons_elements p3 epoch_str) in
  (status2 = 0%Z \/ status2 = (-1)%Z)
  /\ (status2 = 0%Z
      <-> exists memory elements_start,
            horizons_elements (KeplerSim.id p2) epoch_str = Received memory
            /\ Libc.strstr memory "$$SOE" = Some elements_start
            /\ all_scanned sscanf_lf elements_start)
  /\ (status3 = 0%Z \/ status3 = (-1)%Z)
  /\ (status3 = 0%Z
      <-> exists memory elements_start,
            horizons_elements (KeplerSim3D.id p3) epoch_str = Received memory
            /\ Libc.strstr memory "$$SOE" = Some elements_start
            /\ all_scanned sscanf_lf elements_start).
Proof.
  intros status2 status3. subst status2 status3.
  split; [| split; [| split]];
    first [ apply fetch_status
          | apply (proj2 (fetch_status _ _ _ _ _ _ _ _ _ _ _ _ _)) ].
Qed.

Lemma kept_or_scanned_Some
      (sscanf_lf : string -> string -> Libc.scan_result)
      (es key format : string) (old new : double) :
  scanned sscanf_lf es key format <> None ->
  Fetched2D.kept_or_scanned sscanf_lf es key format old new ->
  scanned sscanf_lf es key format = Some new.
Proof.
  unfold Fetched2D.kept_or_scanned.
  destruct (scanned sscanf_lf es key format) as [v |]; [| contradiction].
  intros _ ->. reflexivity.
Qed.

(** X16.  When [fetch_orbital_elements] returns 0, the eccentricity, the
    inclination, the longitude of the ascending node, the argument of
    periapsis and the mean anomaly of the struct are the numbers converted
    after the keys [EC=], [IN=], [OM=], [W =] and [MA=] that follow the
    marker, the semi-major axis is the number converted after [A =]
    divided by [AU_TO_KM], and the epoch is the [time_t] of the epoch
    string; the name, the identifier and, in kepler_sim_3d.c, the position
    fields are as before. *)
Theorem fetched_elements_are_the_converted_numbers
        (sscanf_lf : string -> string -> Libc.scan_result)
        (mktime_date : string -> time_t)
        (horizons_elements : string -> string -> transfer)
        (p2 p2' : KeplerSim.Planet) (p3 p3' : KeplerSim3D.Planet)
        (epoch_str : string) :
  KeplerSimProgram.fetch_orbital_elements
    sscanf_lf mktime_date horizons_elements p2 epoch_str = (0%Z, p2') ->
  KeplerSim3DProgram.fetch_orbital_elements
    sscanf_lf mktime_date horizons_elements p3 epoch_str = (0%Z, p3') ->
  (exists memory elements_start,
      horizons_elements (KeplerSim.id p2) epoch_str = Received memory
      /\ Libc.strstr memory "$$SOE" = Some elements_start
      /\ Fetched2D.elements_scanned sscanf_lf elements_start p2')
  /\ KeplerSim.epoch p2' = mktime_date epoch_str
  /\ KeplerSim.name p2' = KeplerSim.name p2
  /\ KeplerSim.id p2' = KeplerSim.id p2
  /\ (exists memory elements_start,
         horizons_elements (KeplerSim3D.id p3) epoch_str = Received memory
         /\ Libc.strstr memory "$$SOE" = Some elements_start
         /\ Fetched3D.elements_scanned sscanf_lf elements_start p3')
  /\ KeplerSim3D.epoch p3' = mktime_date epoch_str
  /\ Fetched3D.same_labels_and_position p3' p3.
Proof.
  intros H2 H3.
  assert (G2 :
    (exists memory elements_start,
        horizons_elements (KeplerSim.id p2) epoch_str = Received memory
        /\ Libc.strstr memory "$$SOE" = Some elements_start
        /\ Fetched2D.elements_scanned sscanf_lf elements_start p2')
    /\ KeplerSim.epoch p2' = mktime_date epoch_str
    /\ KeplerSim.name p2' = KeplerSim.name p2
    /\ KeplerSim.id p2' = KeplerSim.id p2).
  { unfold KeplerSimProgram.fetch_orbital_elements in H2.
    destruct (fetch_cases sscanf_lf mktime_date horizons_elements
                KeplerSim.id
                KeplerSimProgram.set_eccentricity
                KeplerSimProgram.set_semi_major_axis_au
                KeplerSimProgram.set_inclination_deg
                KeplerSimProgram.set_lon_asc_node_deg
                KeplerSimProgram.set_arg_periapsis_deg
                KeplerSimProgram.set_mean_anomaly_deg
                KeplerSimProgram.set_epoch p2 epoch_str)
      as [(memory & es & Hreq & Hmark & Hall & Heq)
         | [(memory & es & _ & _ & _ & Heq) | (_ & Heq)]];
      rewrite Heq in H2; try discriminate.
    injection H2 as <-.
    destruct (parsed2d_fields sscanf_lf es p2)
      as (F1 & F2 & F3 & K1 & K2 & K3 & K4 & K5 & K6).
    destruct Hall as (A1 & A2 & A3 & A4 & A5 & A6).
    split; [| cbn; auto].
    exists memory, es. split; [exact Hreq |]. split; [exact Hmark |].
    unfold Fetched2D.elements_scanned. cbn.
    split; [apply (@kept_or_scanned_Some sscanf_lf _ _ _ _ _ A1 K1) |].
    split; [apply (@kept_or_scanned_Some sscanf_lf _ _ _ _ _ A2 K2) |].
    split; [apply (@kept_or_scanned_Some sscanf_lf _ _ _ _ _ A3 K3) |].
    split; [apply (@kept_or_scanned_Some sscanf_lf _ _ _ _ _ A4 K4) |].
    split; [apply (@kept_or_scanned_Some sscanf_lf _ _ _ _ _ A5 K5) |].
    destruct (scanned sscanf_lf es "A =" "A = %lf") as [km |];
      [| contradiction].
    exists km. split; [reflexivity | exact K6]. }
  assert (G3 :
    (exists memory elements_start,
        horizons_elements (KeplerSim3D.id p3) epoch_str = Received memory
        /\ Libc.strstr memory "$$SOE" = Some elements_start
        /\ Fetched3D.elements_scanned sscanf_lf elements_start p3')
    /\ KeplerSim3D.epoch p3' = mktime_date epoch_str
    /\ Fetched3D.same_labels_and_position p3' p3).
  { unfold KeplerSim3DProgram.fetch_orbital_elements in H3.
    destruct (fetch_cases sscanf_lf mktime_date horizons_elements
                KeplerSim3D.id
                KeplerSim3DProgram.set_eccentricity
                KeplerSim3DProgram.set_semi_major_axis_au
                KeplerSim3DProgram.set_inclination_deg
                KeplerSim3DProgram.set_lon_asc_node_deg
                KeplerSim3DProgram.set_arg_periapsis_deg
                KeplerSim3DProgram.set_mean_anomaly_deg
                KeplerSim3DProgram.set_epoch p3 epoch_str)
      as [(memory & es & Hreq & Hmark & Hall & Heq)
         | [(memory & es & _ & _ & _ & Heq) | (_ & Heq)]];
      rewrite Heq in H3; try discriminate.
    injection H3 as <-.
    destruct (parsed3d_fields sscanf_lf es p3)
      as (F1 & F3 & K1 & K2 & K3 & K4 & K5 & K6).
    destruct Hall as (A1 & A2 & A3 & A4 & A5 & A6).
    split; [| split; [reflexivity |];
             unfold Fetched3D.same_labels_and_position in *; cbn; exact F1].
    exists memory, es. split; [exact Hreq |]. split; [exact Hmark |].
    unfold Fetched3D.elements_scanned. cbn.
    split; [apply (@kept_or_scanned_Some sscanf_lf _ _ _ _ _ A1 K1) |].
    split; [apply (@kept_or_scanned_Some sscanf_lf _ _ _ _ _ A2 K2) |].
    split; [apply (@kept_or_scanned_Some sscanf_lf _ _ _ _ _ A3 K3) |].
    split; [apply (@kept_or_scanned_Some sscanf_lf _ _ _ _ _ A4 K4) |].
    split; [apply (@kept_or_scanned_Some sscanf_lf _ _ _ _ _ A5 K5) |].
    destruct (scanned sscanf_lf es "A =" "A = %lf") as [km |];
      [| contradiction].
    exists km. split; [reflexivity | exact K6]. }
  destruct G2 as (G21 & G22 & G23 & G24). destruct G3 as (G31 & G32 & G33).
  split; [exact G21 |]. split; [exact G22 |]. split; [exact G23 |].
  split; [exact G24 |]. split; [exact G31 |]. split; [exact G32 | exact G33].
Qed.

Lemma fetched_elements_are_the_converted_numbers_witness :
  let p2 := KeplerSimProgram.body "Mars" "499" in
  let p3 := KeplerSim3DProgram.body "Mars" "499" in
  let p2' :=
    snd (KeplerSimProgram.fetch_orbital_elements
           sample_sscanf sample_mktime sample_horizons p2 "2000-01-01") in
  let p3' :=
    snd (KeplerSim3DProgram.fetch_orbital_elements
           sample_sscanf sample_mktime sample_horizons p3 "2000-01-01") in
  (exists memory elements_start,
      sample_horizons (KeplerSim.id p2) "2000-01-01" = Received memory
      /\ Libc.strstr memory "$$SOE" = Some elements_start
      /\ Fetched2D.elements_scanned sample_sscanf elements_start p2')
  /\ KeplerSim.epoch p2' = sample_mktime "2000-01-01"
  /\ KeplerSim.name p2' = KeplerSim.name p2
  /\ KeplerSim.id p2' = KeplerSim.id p2
  /\ (exists memory elements_start,
         sample_horizons (KeplerSim3D.id p3) "2000-01-01" = Received memory
         /\ Libc.strstr memory "$$SOE" = Some elements_start
         /\ Fetched3D.elements_scanned sample_sscanf elements_start p3')
  /\ KeplerSim3D.epoch p3' = sample_mktime "2000-01-01"
  /\ Fetched3D.same_labels_and_position p3' p3.
Proof.
  intros p2 p3 p2' p3'.
  apply (@fetched_elements_are_the_converted_numbers
           sample_sscanf sample_mktime sample_horizons
           p2 p2' p3 p3' "2000-01-01").
  - reflexivity.
  - reflexivity.
Defined.

(** ** When a fetch fails *)

Lemma failed_fetch_2d
      (sscanf_lf : string -> string -> Libc.scan_result)
      (mktime_date : string -> time_t)
      (horizons_elements : string -> string -> transfer)
      (p : KeplerSim.Planet) (epoch_str : string) :
  let r := KeplerSimProgram.fetch_orbital_elements
             sscanf_lf mktime_date horizons_elements p epoch_str in
  fst r <> 0%Z ->
  (KeplerSim.name (snd r) = KeplerSim.name p
   /\ KeplerSim.id (snd r) = KeplerSim.id p
   /\ KeplerSim.epoch (snd r) = KeplerSim.epoch p)
  /\ ((forall memory,
          horizons_elements (KeplerSim.id p) epoch_str = Received memory ->
          Libc.strstr memory "$$SOE" = None) ->
      snd r = p)
  /\ (forall memory es,
         horizons_elements (KeplerSim.id p) epoch_str = Received memory ->
         Libc.strstr memory "$$SOE" = Some es ->
         Fetched2D.kept_or_scanned sscanf_lf es "EC=" "EC= %lf"
           (KeplerSim.eccentricity p) (KeplerSim.eccentricity (snd r))
         /\ Fetched2D.kept_or_scanned sscanf_lf es "IN=" "IN= %lf"
              (KeplerSim.inclination_deg p)
              (KeplerSim.inclination_deg (snd r))
         /\ Fetched2D.kept_or_scanned sscanf_lf es "OM=" "OM= %lf"
              (KeplerSim.lon_asc_node_deg p)
              (KeplerSim.lon_asc_node_deg (snd r))
         /\ Fetched2D.kept_or_scanned sscanf_lf es "W =" "W = %lf"
              (KeplerSim.arg_periapsis_deg p)
              (KeplerSim.arg_periapsis_deg (snd r))
         /\ Fetched2D.kept_or_scanned sscanf_lf es "MA=" "MA= %lf"
              (KeplerSim.mean_anomaly_deg p)
              (KeplerSim.mean_anomaly_deg (snd r))
         /\ KeplerSim.semi_major_axis_au (snd r)
            = (match scanned sscanf_lf es "A =" "A = %lf" with
               | Some km => km
               | None => Num 0
               end / AU_TO_KM)%D).
Proof.
  intros r H. subst r.
  unfold KeplerSimProgram.fetch_orbital_elements in *.
  destruct (fetch_cases sscanf_lf mktime_date horizons_elements
              KeplerSim.id
              KeplerSimProgram.set_eccentricity
              KeplerSimProgram.set_semi_major_axis_au
              KeplerSimProgram.set_inclination_deg
              KeplerSimProgram.set_lon_asc_node_deg
              KeplerSimProgram.set_arg_periapsis_deg
              KeplerSimProgram.set_mean_anomaly_deg
              KeplerSimProgram.set_epoch p epoch_str)
    as [(memory & es & _ & _ & _ & Heq)
       | [(memory & es & Hreq & Hmark & _ & Heq) | (Hnone & Heq)]];
    rewrite Heq in *; cbn [fst snd] in *; [contradiction | |].
  - destruct (parsed2d_fields sscanf_lf es p)
      as (F1 & F2 & F3 & K1 & K2 & K3 & K4 & K5 & K6).
    split; [auto |]. split.
    { intros Hno. rewrite (Hno memory Hreq) in Hmark. discriminate. }
    intros memory' es' Hreq' Hmark'.
    rewrite Hreq in Hreq'. injection Hreq' as <-.
    rewrite Hmark in Hmark'. injection Hmark' as <-.
    split; [exact K1 |]. split; [exact K2 |]. split; [exact K3 |].
    split; [exact K4 |]. split; [exact K5 | exact K6].
  - split; [auto |]. split; [reflexivity |].
    intros memory' es' Hreq' Hmark'.
    rewrite (Hnone memory' Hreq') in Hmark'. discriminate.
Qed.

Lemma failed_fetch_3d
      (sscanf_lf : string -> string -> Libc.scan_result)
      (mktime_date : string -> time_t)
      (horizons_elements : string -> string -> transfer)
      (p : KeplerSim3D.Planet) (epoch_str : string) :
  let r := KeplerSim3DProgram.fetch_orbital_elements
             sscanf_lf mktime_date horizons_elements p epoch_str in
  fst r <> 0%Z ->
  (Fetched3D.same_labels_and_position (snd r) p
   /\ KeplerSim3D.epoch (snd r) = KeplerSim3D.epoch p)
  /\ ((forall memory,
          horizons_elements (KeplerSim3D.id p) epoch_str = Received memory ->
          Libc.strstr memory "$$SOE" = None) ->
      snd r = p)
  /\ (forall memory es,
         horizons_elements (KeplerSim3D.id p) epoch_str = Received memory ->
         Libc.strstr memory "$$SOE" = Some es ->
         Fetched2D.kept_or_scanned sscanf_lf es "EC=" "EC= %lf"
           (KeplerSim3D.eccentricity p) (KeplerSim3D.eccentricity (snd r))
         /\ Fetched2D.kept_or_scanned sscanf_lf es "IN=" "IN= %lf"
              (KeplerSim3D.inclination_deg p)
              (KeplerSim3D.inclination_deg (snd r))
         /\ Fetched2D.kept_or_scanned sscanf_lf es "OM=" "OM= %lf"
              (KeplerSim3D.lon_asc_node_deg p)
              (KeplerSim3D.lon_asc_node_deg (snd r))
         /\ Fetched2D.kept_or_scanned sscanf_lf es "W =" "W = %lf"
              (KeplerSim3D.arg_periapsis_deg p)
              (KeplerSim3D.arg_periapsis_deg (snd r))
         /\ Fetched2D.kept_or_scanned sscanf_lf es "MA=" "MA= %lf"
              (KeplerSim3D.mean_anomaly_deg p)
              (KeplerSim3D.mean_anomaly_deg (snd r))
         /\ KeplerSim3D.semi_major_axis_au (snd r)
            = (match scanned sscanf_lf es "A =" "A = %lf" with
               | Some km => km
               | None => Num 0
               end / AU_TO_KM)%D).
Proof.
  intros r H. subst r.
  unfold KeplerSim3DProgram.fetch_orbital_elements in *.
  destruct (fetch_cases sscanf_lf mktime_date horizons_elements
              KeplerSim3D.id
              KeplerSim3DProgram.set_eccentricity
              KeplerSim3DProgram.set_semi_major_axis_au
              KeplerSim3DProgram.set_inclination_deg
              KeplerSim3DProgram.set_lon_asc_node_deg
              KeplerSim3DProgram.set_arg_periapsis_deg
              KeplerSim3DProgram.set_mean_anomaly_deg
              KeplerSim3DProgram.set_epoch p epoch_str)
    as [(memory & es & _ & _ & _ & Heq)
       | [(memory & es & Hreq & Hmark & _ & Heq) | (Hnone & Heq)]];
    rewrite Heq in *; cbn [fst snd] in *; [contradiction | |].
  - destruct (parsed3d_fields sscanf_lf es p)
      as (F1 & F3 & K1 & K2 & K3 & K4 & K5 & K6).
    split; [split; [exact F1 | exact F3] |]. split.
    { intros Hno. rewrite (Hno memory Hreq) in Hmark. discriminate. }
    intros memory' es' Hreq' Hmark'.
    rewrite Hreq in Hreq'. injection Hreq' as <-.
    rewrite Hmark in Hmark'. injection Hmark' as <-.
    split; [exact K1 |]. split; [exact K2 |]. split; [exact K3 |].
    split; [exact K4 |]. split; [exact K5 | exact K6].
  - split.
    { split; [unfold Fetched3D.same_labels_and_position; tauto | reflexivity]. }
    split; [reflexivity |].
    intros memory' es' Hreq' Hmark'.
    rewrite (Hnone memory' Hreq') in Hmark'. discriminate.
Qed.

(** X17.  When [fetch_orbital_elements] does not return 0, in kepler_sim.c
    as in kepler_sim_3d.c, the name, the identifier and the epoch of the
    struct (and the position fields in kepler_sim_3d.c) are as before.
    The struct is untouched when the transfer fails or the response has no
    marker.  When the marker is there, the eccentricity and each of the
    four angles whose conversion succeeded have been overwritten all the
    same, the others are as before, and the semi-major axis has been
    overwritten in any case: by the converted number over [AU_TO_KM], or
    by zero when ["A ="] was not converted. *)
Theorem failed_fetch_partial_update
        (sscanf_lf : string -> string -> Libc.scan_result)
        (mktime_date : string -> time_t)
        (horizons_elements : string -> string -> transfer)
        (p2 : KeplerSim.Planet) (p3 : KeplerSim3D.Planet)
        (epoch_str : string) :
  let r2 := KeplerSimProgram.fetch_orbital_elements
              sscanf_lf mktime_date horizons_elements p2 epoch_str in
  let r3 := KeplerSim3DProgram.fetch_orbital_elements
              sscanf_lf mktime_date horizons_elements p3 epoch_str in
  fst r2 <> 0%Z -> fst r3 <> 0%Z ->
  (KeplerSim.name (snd r2) = KeplerSim.name p2
   /\ KeplerSim.id (snd r2) = KeplerSim.id p2
   /\ KeplerSim.epoch (snd r2) = KeplerSim.epoch p2)
  /\ ((forall memory,
          horizons_elements (KeplerSim.id p2) epoch_str = Received memory ->
          Libc.strstr memory "$$SOE" = None) ->
      snd r2 = p2)
  /\ (forall memory es,
         horizons_elements (KeplerSim.id p2) epoch_str = Received memory ->
         Libc.strstr memory "$$SOE" = Some es ->
         Fetched2D.kept_or_scanned sscanf_lf es "EC=" "EC= %lf"
           (KeplerSim.eccentricity p2) (KeplerSim.eccentricity (snd r2))
         /\ Fetched2D.kept_or_scanned sscanf_lf es "IN=" "IN= %lf"
              (KeplerSim.inclination_deg p2)
              (KeplerSim.inclination_deg (snd r2))
         /\ Fetched2D.kept_or_scanned sscanf_lf es "OM=" "OM= %lf"
              (KeplerSim.lon_asc_node_deg p2)
              (KeplerSim.lon_asc_node_deg (snd r2))
         /\ Fetched2D.kept_or_scanned sscanf_lf es "W =" "W = %lf"
              (KeplerSim.arg_periapsis_deg p2)
              (KeplerSim.arg_periapsis_deg (snd r2))
         /\ Fetched2D.kept_or_scanned sscanf_lf es "MA=" "MA= %lf"
              (KeplerSim.mean_anomaly_deg p2)
              (KeplerSim.mean_anomaly_deg (snd r2))
         /\ KeplerSim.semi_major_axis_au (snd r2)
            = (match scanned sscanf_lf es "A =" "A = %lf" with
               | Some km => km
               | None => Num 0
               end / AU_TO_KM)%D)
  /\ (Fetched3D.same_labels_and_position (snd r3) p3
      /\ KeplerSim3D.epoch (snd r3) = KeplerSim3D.epoch p3)
  /\ ((forall memory,
          horizons_elements (KeplerSim3D.id p3) epoch_str = Received memory ->
          Libc.strstr memory "$$SOE" = None) ->
      snd r3 = p3)
  /\ (forall memory es,
         horizons_elements (KeplerSim3D.id p3) epoch_str = Received memory ->
         Libc.strstr memory "$$SOE" = Some es ->
         Fetched2D.kept_or_scanned sscanf_lf es "EC=" "EC= %lf"
           (KeplerSim3D.eccentricity p3) (KeplerSim3D.eccentricity (snd r3))
         /\ Fetched2D.kept_or_scanned sscanf_lf es "IN=" "IN= %lf"
              (KeplerSim3D.inclination_deg p3)
              (KeplerSim3D.inclination_deg (snd r3))
         /\ Fetched2D.kept_or_scanned sscanf_lf es "OM=" "OM= %lf"
              (KeplerSim3D.lon_asc_node_deg p3)
              (KeplerSim3D.lon_asc_node_deg (snd r3))
         /\ Fetched2D.kept_or_scanned sscanf_lf es "W =" "W = %lf"
              (KeplerSim3D.arg_periapsis_deg p3)
              (KeplerSim3D.arg_periapsis_deg (snd r3))
         /\ Fetched2D.kept_or_scanned sscanf_lf es "MA=" "MA= %lf"
              (KeplerSim3D.mean_anomaly_deg p3)
              (KeplerSim3D.mean_anomaly_deg (snd r3))
         /\ KeplerSim3D.semi_major_axis_au (snd r3)
            = (match scanned sscanf_lf es "A =" "A = %lf" with
               | Some km => km
               | None => Num 0
               end / AU_TO_KM)%D).
Proof.
  intros r2 r3 H2 H3. subst r2 r3.
  destruct (failed_fetch_2d sscanf_lf mktime_date horizons_elements
              p2 epoch_str H2) as (A1 & A2 & A3).
  destruct (failed_fetch_3d sscanf_lf mktime_date horizons_elements
              p3 epoch_str H3) as (B1 & B2 & B3).
  split; [exact A1 |]. split; [exact A2 |]. split; [exact A3 |].
  split; [exact B1 |]. split; [exact B2 | exact B3].
Qed.

(** The marker is there and only the eccentricity converts: both fetches
    return -1, and both structs of Mars have lost their semi-major axis
    and taken the new eccentricity. *)
Lemma failed_fetch_partial_update_witness :
  let p2 := mars in
  let p3 := to3d mars in
  let r2 := KeplerSimProgram.fetch_orbital_elements
              eccentricity_only_sscanf sample_mktime sample_horizons
              p2 "2000-01-01" in
  let r3 := KeplerSim3DProgram.fetch_orbital_elements
              eccentricity_only_sscanf sample_mktime sample_horizons
              p3 "2000-01-01" in
  (fst r2 = (-1)%Z /\ fst r3 = (-1)%Z)
  /\ (KeplerSim.eccentricity (snd r2) = Num 2
      /\ KeplerSim.inclination_deg (snd r2) = Num 1.85
      /\ KeplerSim.semi_major_axis_au (snd r2) = (Num 0 / AU_TO_KM)%D)
  /\ (KeplerSim3D.eccentricity (snd r3) = Num 2
      /\ KeplerSim3D.inclination_deg (snd r3) = Num 1.85
      /\ KeplerSim3D.semi_major_axis_au (snd r3) = (Num 0 / AU_TO_KM)%D).
Proof.
  intros p2 p3 r2 r3.
  assert (H2 : fst r2 <> 0%Z) by (vm_compute; discriminate).
  assert (H3 : fst r3 <> 0%Z) by (vm_compute; discriminate).
  destruct (@failed_fetch_partial_update
              eccentricity_only_sscanf sample_mktime sample_horizons
              p2 p3 "2000-01-01" H2 H3)
    as (_ & _ & K2 & _ & _ & K3).
  specialize (K2 sample_response sample_response eq_refl eq_refl).
  specialize (K3 sample_response sample_response eq_refl eq_refl).
  destruct K2 as (E2 & I2 & _ & _ & _ & A2).
  destruct K3 as (E3 & I3 & _ & _ & _ & A3).
  split; [split; reflexivity |].
  split; (split; [assumption |]; split; assumption).
Defined.

(** * The fetch loop and [main] *)

Section FetchLoopFacts.

Variable sscanf_lf : string -> string -> Libc.scan_result.
Variable mktime_date : string -> time_t.
Variable horizons_elements : string -> string -> transfer.

Variable Planet : Type.
Variable id : Planet -> string.
Variables set_eccentricity set_semi_major_axis_au set_inclination_deg
          set_lon_asc_node_deg set_arg_periapsis_deg set_mean_anomaly_deg
  : double -> Planet -> Planet.
Variable set_epoch : time_t -> Planet -> Planet.

Local Abbreviation fetch :=
  (fetch_orbital_elements
     sscanf_lf mktime_date horizons_elements id
     set_eccentricity set_semi_major_axis_au set_inclination_deg
     set_lon_asc_node_deg set_arg_periapsis_deg set_mean_anomaly_deg
     set_epoch).

Local Abbreviation loop :=
  (fetch_loop
     sscanf_lf mktime_date horizons_elements id
     set_eccentricity set_semi_major_axis_au set_inclination_deg
     set_lon_asc_node_deg set_arg_periapsis_deg set_mean_anomaly_deg
     set_epoch).

Lemma fetch_loop_all (epoch_str : string) (ps : list Planet) :
  Forall (fun p => fst (fetch p epoch_str) = 0%Z) ps ->
  loop epoch_str ps
  = (Some (map (fun p => snd (fetch p epoch_str)) ps), map id ps).
Proof.
  induction 1 as [| p ps Hp Hps IH]; [reflexivity |].
  cbn [fetch_loop map]. destruct (fetch p epoch_str) as [status p'].
  cbn [fst snd] in *. subst status. cbn [Z.eqb]. rewrite IH. reflexivity.
Qed.

Lemma fetch_loop_first_failure
      (epoch_str : string) (before after : list Planet) (p : Planet) :
  Forall (fun q => fst (fetch q epoch_str) = 0%Z) before ->
  fst (fetch p epoch_str) <> 0%Z ->
  loop epoch_str (before ++ p :: after) = (None, map id (before ++ [p])).
Proof.
  intros Hbefore Hp. induction Hbefore as [| q before Hq Hbefore IH].
  - cbn [app fetch_loop map]. destruct (fetch p epoch_str) as [status p'].
    cbn [fst] in Hp. destruct (status =? 0)%Z eqn:E; [| reflexivity].
    apply Z.eqb_eq in E. contradiction.
  - cbn [app fetch_loop map]. destruct (fetch q epoch_str) as [status q'].
    cbn [fst] in Hq. subst status. cbn [Z.eqb]. rewrite IH. reflexivity.
Qed.

Lemma fetch_loop_cases (epoch_str : string) (ps : list Planet) :
  Forall (fun p => fst (fetch p epoch_str) = 0%Z) ps
  \/ exists before p after,
       ps = before ++ p :: after
       /\ Forall (fun q => fst (fetch q epoch_str) = 0%Z) before
       /\ fst (fetch p epoch_str) <> 0%Z.
Proof.
  induction ps as [| p ps IH]; [left; constructor |].
  destruct (Z.eq_dec (fst (fetch p epoch_str)) 0) as [Hp | Hp].
  - destruct IH as [Hall | (before & q & after & -> & Hbefore & Hq)].
    + left. constructor; assumption.
    + right. exists (p :: before), q, after. split; [reflexivity |].
      split; [constructor; assumption | exact Hq].
  - right. exists [], p, ps. split; [reflexivity |].
    split; [constructor | exact Hp].
Qed.

End FetchLoopFacts.

Lemma fetch2d_keeps_labels
      (sscanf_lf : string -> string -> Libc.scan_result)
      (mktime_date : string -> time_t)
      (horizons_elements : string -> string -> transfer)
      (p : KeplerSim.Planet) (epoch_str : string) :
  KeplerSim.name
    (snd (KeplerSimProgram.fetch_orbital_elements
            sscanf_lf mktime_date horizons_elements p epoch_str))
  = KeplerSim.name p
  /\ KeplerSim.id
       (snd (KeplerSimProgram.fetch_orbital_elements
               sscanf_lf mktime_date horizons_elements p epoch_str))
     = KeplerSim.id p.
Proof.
  unfold KeplerSimProgram.fetch_orbital_elements.
  destruct (fetch_cases sscanf_lf mktime_date horizons_elements
              KeplerSim.id
              KeplerSimProgram.set_eccentricity
              KeplerSimProgram.set_semi_major_axis_au
              KeplerSimProgram.set_inclination_deg
              KeplerSimProgram.set_lon_asc_node_deg
              KeplerSimProgram.set_arg_periapsis_deg
              KeplerSimProgram.set_mean_anomaly_deg
              KeplerSimProgram.set_epoch p epoch_str)
    as [(memory & es & _ & _ & _ & ->)
       | [(memory & es & _ & _ & _ & ->) | (_ & ->)]];
    cbn [snd]; try (split; reflexivity);
    destruct (parsed2d_fields sscanf_lf es p) as (F1 & F2 & _);
    cbn; auto.
Qed.

Lemma fetch3d_keeps_labels
      (sscanf_lf : string -> string -> Libc.scan_result)
      (mktime_date : string -> time_t)
      (horizons_elements : string -> string -> transfer)
      (p : KeplerSim3D.Planet) (epoch_str : string) :
  KeplerSim3D.name
    (snd (KeplerSim3DProgram.fetch_orbital_elements
            sscanf_lf mktime_date horizons_elements p epoch_str))
  = KeplerSim3D.name p
  /\ KeplerSim3D.id
       (snd (KeplerSim3DProgram.fetch_orbital_elements
               sscanf_lf mktime_date horizons_elements p epoch_str))
     = KeplerSim3D.id p.
Proof.
  unfold KeplerSim3DProgram.fetch_orbital_elements.
  destruct (fetch_cases sscanf_lf mktime_date horizons_elements
              KeplerSim3D.id
              KeplerSim3DProgram.set_eccentricity
              KeplerSim3DProgram.set_semi_major_axis_au
              KeplerSim3DProgram.set_inclination_deg
              KeplerSim3DProgram.set_lon_asc_node_deg
              KeplerSim3DProgram.set_arg_periapsis_deg
              KeplerSim3DProgram.set_mean_anomaly_deg
              KeplerSim3DProgram.set_epoch p epoch_str)
    as [(memory & es & _ & _ & _ & ->)
       | [(memory & es & _ & _ & _ & ->) | (_ & ->)]];
    cbn [snd]; try (split; reflexivity);
    destruct (parsed3d_fields sscanf_lf es p) as ((F1 & F2 & _) & _);
    cbn; auto.
Qed.

(** X18.  [main] stops at the first body whose fetch does not return 0: it
    returns 1, no output file is opened, and the bodies after that one are
    never requested.  This holds for kepler_sim.c and, once its three
    inputs are read, for kepler_sim_3d.c. *)
Theorem main_stops_at_first_failed_fetch
        (sscanf_lf : string -> string -> Libc.scan_result)
        (mktime_date : string -> time_t)
        (horizons_elements : string -> string -> transfer)
        (input2 : KeplerSimProgram.Input)
        (start_date end_date filename : string) (fopen_ok3 : bool)
        (before2 after2 : list KeplerSim.Planet) (p2 : KeplerSim.Planet)
        (before3 after3 : list KeplerSim3D.Planet) (p3 : KeplerSim3D.Planet) :
  KeplerSimProgram.planets = before2 ++ p2 :: after2 ->
  Forall (fun q =>
            fst (KeplerSimProgram.fetch_orbital_elements
                   sscanf_lf mktime_date horizons_elements q
                   (KeplerSimProgram.epoch_date_input input2)) = 0%Z)
         before2 ->
  fst (KeplerSimProgram.fetch_orbital_elements
         sscanf_lf mktime_date horizons_elements p2
         (KeplerSimProgram.epoch_date_input input2)) <> 0%Z ->
  KeplerSim3DProgram.planets = before3 ++ p3 :: after3 ->
  Forall (fun q =>
            fst (KeplerSim3DProgram.fetch_orbital_elements
                   sscanf_lf mktime_date horizons_elements q start_date)
            = 0%Z)
         before3 ->
  fst (KeplerSim3DProgram.fetch_orbital_elements
         sscanf_lf mktime_date horizons_elements p3 start_date) <> 0%Z ->
  KeplerSimProgram.main sscanf_lf mktime_date horizons_elements input2
  = mkOutcome 1 (map KeplerSim.id (before2 ++ [p2])) None
  /\ KeplerSim3DProgram.main
       sscanf_lf mktime_date horizons_elements
       (KeplerSim3DProgram.mkInput (Some start_date) (Some end_date)
                                   (Some filename) fopen_ok3)
     = mkOutcome 1 (map KeplerSim3D.id (before3 ++ [p3])) None.
Proof.
  intros E2 B2 F2 E3 B3 F3. split.
  - unfold KeplerSimProgram.main, KeplerSimProgram.fetch_loop. rewrite E2.
    unfold KeplerSimProgram.fetch_orbital_elements in *.
    rewrite (@fetch_loop_first_failure _ _ _ _ _ _ _ _ _ _ _ _ _ _ after2 _ B2 F2).
    reflexivity.
  - unfold KeplerSim3DProgram.main, KeplerSim3DProgram.fetch_loop.
    cbn [KeplerSim3DProgram.start_date_input KeplerSim3DProgram.end_date_input
         KeplerSim3DProgram.output_filename].
    rewrite E3. unfold KeplerSim3DProgram.fetch_orbital_elements in *.
    rewrite (@fetch_loop_first_failure _ _ _ _ _ _ _ _ _ _ _ _ _ _ after3 _ B3 F3).
    reflexivity.
Qed.

Lemma main_stops_at_first_failed_fetch_witness :
  KeplerSimProgram.main
    sample_sscanf sample_mktime failing_horizons
    (KeplerSimProgram.mkInput "2000-01-01" "2000-01-01" "2000-01-03"
                              "out.csv" true)
  = mkOutcome 1 ["199"%string] None
  /\ KeplerSim3DProgram.main
       sample_sscanf sample_mktime failing_horizons
       (KeplerSim3DProgram.mkInput (Some "2000-01-01"%string)
                                   (Some "2000-01-03"%string)
                                   (Some "out.csv"%string) true)
     = mkOutcome 1 ["199"%string] None.
Proof.
  apply (@main_stops_at_first_failed_fetch
           sample_sscanf sample_mktime failing_horizons
           (KeplerSimProgram.mkInput "2000-01-01" "2000-01-01" "2000-01-03"
                                     "out.csv" true)
           "2000-01-01" "2000-01-03" "out.csv" true
           [] (tl KeplerSimProgram.planets)
           (KeplerSimProgram.body "Mercury" "199")
           [] (tl KeplerSim3DProgram.planets)
           (KeplerSim3DProgram.body "Mercury" "199")).
  - reflexivity.
  - constructor.
  - discriminate.
  - reflexivity.
  - constructor.
  - discriminate.
Defined.

(** ** A run of kepler_sim.c *)

Lemma header2d_names (ps qs : list KeplerSim.Planet) :
  map KeplerSim.name ps = map KeplerSim.name qs ->
  KeplerSimProgram.header ps = KeplerSimProgram.header qs.
Proof.
  intros H. unfold KeplerSimProgram.header. do 2 f_equal.
  rewrite <- (map_map KeplerSim.name (fun n => ("," ++ n)%string) ps).
  rewrite <- (map_map KeplerSim.name (fun n => ("," ++ n)%string) qs).
  rewrite H. reflexivity.
Qed.

(** X19.  kepler_sim.c returns 0 exactly when the fetch of each of its
    nine bodies returns 0 and the output file can be opened, and 1
    otherwise, without an output file.  When it returns 0 it has made one
    request per body, from Mercury to Pluto; the file starts with the
    header [Date,Mercury,...,Pluto] and its rows are those of the daily
    loop over the fetched structs, from the start date to the end
    date. *)
Theorem kepler_sim_main_outcome
        (sscanf_lf : string -> string -> Libc.scan_result)
        (mktime_date : string -> time_t)
        (horizons_elements : string -> string -> transfer)
        (input : KeplerSimProgram.Input) :
  let fetch := fun p =>
    KeplerSimProgram.fetch_orbital_elements
      sscanf_lf mktime_date horizons_elements p
      (KeplerSimProgram.epoch_date_input input) in
  let out :=
    KeplerSimProgram.main sscanf_lf mktime_date horizons_elements input in
  (exit_code out = 0%Z \/ exit_code out = 1%Z)
  /\ (exit_code out = 0%Z
      <-> Forall (fun p => fst (fetch p) = 0%Z) KeplerSimProgram.planets
          /\ KeplerSimProgram.fopen_ok input = true)
  /\ (exit_code out = 1%Z -> file out = None)
  /\ (exit_code out = 0%Z ->
      requested out
      = ["199"; "299"; "399"; "499"; "599"; "699"; "799"; "899"; "999"]%string
      /\ file out
         = Some (("Date,Mercury,Venus,Earth,Mars,Jupiter,Saturn,Uranus,"
                  ++ "Neptune,Pluto" ++ newline)%string,
                 outfile
                   (KeplerSimMain.simulate
                      (map (fun p => snd (fetch p)) KeplerSimProgram.planets)
                      (mktime_date (KeplerSimProgram.start_date_input input))
                      (mktime_date (KeplerSimProgram.end_date_input input))))).
Proof.
  intros fetch out. subst out.
  unfold KeplerSimProgram.main, KeplerSimProgram.fetch_loop.
  destruct (fetch_loop_cases sscanf_lf mktime_date horizons_elements
              KeplerSim.id
              KeplerSimProgram.set_eccentricity
              KeplerSimProgram.set_semi_major_axis_au
              KeplerSimProgram.set_inclination_deg
              KeplerSimProgram.set_lon_asc_node_deg
              KeplerSimProgram.set_arg_periapsis_deg
              KeplerSimProgram.set_mean_anomaly_deg
              KeplerSimProgram.set_epoch
              (KeplerSimProgram.epoch_date_input input)
              KeplerSimProgram.planets)
    as [Hall | (before & p & after & Heq & Hbefore & Hp)].
  - rewrite (@fetch_loop_all _ _ _ _ _ _ _ _ _ _ _ _ _ _ Hall).
    destruct (KeplerSimProgram.fopen_ok input); cbn [exit_code file requested].
    + split; [left; reflexivity |]. split; [tauto |].
      split; [discriminate |]. intros _. split; [reflexivity |].
      do 2 f_equal. 
      transitivity (KeplerSimProgram.header KeplerSimProgram.planets);
        [| reflexivity].
      apply header2d_names. rewrite map_map. apply map_ext. intros q.
      apply fetch2d_keeps_labels.
    + split; [right; reflexivity |].
      split; [split; [discriminate | intros [_ H]; discriminate] |].
      split; [reflexivity | discriminate].
  - rewrite Heq.
    rewrite (@fetch_loop_first_failure _ _ _ _ _ _ _ _ _ _ _ _ _ _ after _ Hbefore Hp).
    cbn [exit_code file requested].
    split; [right; reflexivity |]. split.
    + split; [discriminate |]. intros [Hall _]. exfalso. apply Hp.
      apply Forall_app in Hall as [_ Hall].
      inversion Hall; assumption.
    + split; [reflexivity | discriminate].
Qed.

(** ** A run of kepler_sim_3d.c *)

Lemma header3d_names (ps qs : list KeplerSim3D.Planet) :
  map KeplerSim3D.name ps = map KeplerSim3D.name qs ->
  KeplerSim3DProgram.header ps = KeplerSim3DProgram.header qs.
Proof.
  intros H. unfold KeplerSim3DProgram.header. do 2 f_equal.
  rewrite <- (map_map KeplerSim3D.name
                (fun n => ("," ++ n ++ "_x," ++ n ++ "_y," ++ n ++ "_z")%string)
                ps).
  rewrite <- (map_map KeplerSim3D.name
                (fun n => ("," ++ n ++ "_x," ++ n ++ "_y," ++ n ++ "_z")%string)
                qs).
  rewrite H. reflexivity.
Qed.

Lemma fetch3d_success_epoch
      (sscanf_lf : string -> string -> Libc.scan_result)
      (mktime_date : string -> time_t)
      (horizons_elements : string -> string -> transfer)
      (p : KeplerSim3D.Planet) (epoch_str : string) :
  fst (KeplerSim3DProgram.fetch_orbital_elements
         sscanf_lf mktime_date horizons_elements p epoch_str) = 0%Z ->
  KeplerSim3D.epoch
    (snd (KeplerSim3DProgram.fetch_orbital_elements
            sscanf_lf mktime_date horizons_elements p epoch_str))
  = mktime_date epoch_str.
Proof.
  unfold KeplerSim3DProgram.fetch_orbital_elements.
  destruct (fetch_cases sscanf_lf mktime_date horizons_elements
              KeplerSim3D.id
              KeplerSim3DProgram.set_eccentricity
              KeplerSim3DProgram.set_semi_major_axis_au
              KeplerSim3DProgram.set_inclination_deg
              KeplerSim3DProgram.set_lon_asc_node_deg
              KeplerSim3DProgram.set_arg_periapsis_deg
              KeplerSim3DProgram.set_mean_anomaly_deg
              KeplerSim3DProgram.set_epoch p epoch_str)
    as [(memory & es & _ & _ & _ & ->)
       | [(memory & es & _ & _ & _ & ->) | (_ & ->)]];
    cbn [fst snd]; try discriminate.
  intros _. reflexivity.
Qed.

Lemma dates_not_before_start (start_t end_t d : time_t) :
  In d (dates start_t end_t) -> (start_t <= d)%Z.
Proof.
  intros H. apply in_dates in H as (k & Hk & ->).
  unfold SECONDS_IN_DAY. lia.
Qed.

(** X20.  kepler_sim_3d.c makes no request when one of its three inputs
    cannot be read.  Once they are read it returns 0 exactly when the
    fetch of each of its nine bodies returns 0 and the output file can be
    opened; the file then holds the header of the nine bodies and the rows
    of the daily loop over the fetched structs; the epoch of every struct
    is the start date, so no row is dated before the epoch of a body. *)
Theorem kepler_sim_3d_main_outcome
        (sscanf_lf : string -> string -> Libc.scan_result)
        (mktime_date : string -> time_t)
        (horizons_elements : string -> string -> transfer)
        (start_date end_date filename : string) (fopen_ok : bool)
        (unread : KeplerSim3DProgram.Input) :
  let fetch := fun p =>
    KeplerSim3DProgram.fetch_orbital_elements
      sscanf_lf mktime_date horizons_elements p start_date in
  let fetched := map (fun p => snd (fetch p)) KeplerSim3DProgram.planets in
  let rows :=
    outfile (KeplerSim3DMain.simulate fetched (mktime_date start_date)
                                      (mktime_date end_date)) in
  let out :=
    KeplerSim3DProgram.main
      sscanf_lf mktime_date horizons_elements
      (KeplerSim3DProgram.mkInput (Some start_date) (Some end_date)
                                  (Some filename) fopen_ok) in
  (KeplerSim3DProgram.start_date_input unread = None
   \/ KeplerSim3DProgram.end_date_input unread = None
   \/ KeplerSim3DProgram.output_filename unread = None ->
   KeplerSim3DProgram.main sscanf_lf mktime_date horizons_elements unread
   = mkOutcome 1 [] None)
  /\ (exit_code out = 0%Z
      <-> Forall (fun p => fst (fetch p) = 0%Z) KeplerSim3DProgram.planets
          /\ fopen_ok = true)
  /\ (exit_code out = 0%Z ->
      file out
      = Some (KeplerSim3DProgram.header KeplerSim3DProgram.planets, rows)
      /\ Forall (fun p => KeplerSim3D.epoch p = mktime_date start_date) fetched
      /\ forall row p,
           In row rows -> In p fetched ->
           (KeplerSim3D.epoch p <= fst row)%Z).
Proof.
  intros fetch fetched rows out. split.
  { unfold KeplerSim3DProgram.main.
    destruct (KeplerSim3DProgram.start_date_input unread);
      destruct (KeplerSim3DProgram.end_date_input unread);
      destruct (KeplerSim3DProgram.output_filename unread);
      intros [H | [H | H]]; try discriminate; reflexivity. }
  subst out.
  unfold KeplerSim3DProgram.main, KeplerSim3DProgram.fetch_loop.
  cbn [KeplerSim3DProgram.start_date_input KeplerSim3DProgram.end_date_input
       KeplerSim3DProgram.output_filename KeplerSim3DProgram.fopen_ok].
  destruct (fetch_loop_cases sscanf_lf mktime_date horizons_elements
              KeplerSim3D.id
              KeplerSim3DProgram.set_eccentricity
              KeplerSim3DProgram.set_semi_major_axis_au
              KeplerSim3DProgram.set_inclination_deg
              KeplerSim3DProgram.set_lon_asc_node_deg
              KeplerSim3DProgram.set_arg_periapsis_deg
              KeplerSim3DProgram.set_mean_anomaly_deg
              KeplerSim3DProgram.set_epoch
              start_date KeplerSim3DProgram.planets)
    as [Hall | (before & p & after & Heq & Hbefore & Hp)].
  - rewrite (@fetch_loop_all _ _ _ _ _ _ _ _ _ _ _ _ _ _ Hall).
    assert (Hepoch :
      Forall (fun p => KeplerSim3D.epoch p = mktime_date start_date) fetched).
    { unfold fetched. apply Forall_map.
      eapply Forall_impl; [| exact Hall]. intros q Hq.
      apply fetch3d_success_epoch. exact Hq. }
    destruct fopen_ok; cbn [exit_code file].
    + split; [tauto |]. intros _. split; [| split; [exact Hepoch |]].
      * do 2 f_equal. apply header3d_names.
        rewrite map_map. apply map_ext. intros q.
        apply fetch3d_keeps_labels.
      * intros row q Hrow Hq.
        rewrite Forall_forall in Hepoch. rewrite (Hepoch q Hq).
        apply (@dates_not_before_start (mktime_date start_date)
                 (mktime_date end_date)).
        unfold rows in Hrow.
        destruct (simulate3d_spec fetched (mktime_date start_date)
                                  (mktime_date end_date)) as (_ & Hrows & _).
        rewrite Hrows in Hrow. apply in_map_iff in Hrow as (d & <- & Hd).
        exact Hd.
    + split; [split; [discriminate | intros [_ H]; discriminate] |].
      discriminate.
  - rewrite Heq.
    rewrite (@fetch_loop_first_failure _ _ _ _ _ _ _ _ _ _ _ _ _ _ after _
               Hbefore Hp).
    cbn [exit_code file]. split; [| discriminate].
    split; [discriminate |]. intros [Hall _]. exfalso. apply Hp.
    apply Forall_app in Hall as [_ Hall]. inversion Hall; assumption.
Qed.

(** * planetary_logger.c *)

Section LoggerFacts.

Variable json_result : string -> json_outcome.
Variable sscanf_lf : string -> string -> Libc.scan_result.
Variables x_km_indeterminate y_km_indeterminate : string -> time_t -> double.
Variable horizons_vectors : string -> time_t -> transfer.

Local Abbreviation parse :=
  (PlanetaryLogger.parse_planet_data json_result sscanf_lf).

Local Abbreviation visit :=
  (PlanetaryLogger.visit
     json_result sscanf_lf x_km_indeterminate y_km_indeterminate
     horizons_vectors).

Local Abbreviation day :=
  (PlanetaryLogger.day
     json_result sscanf_lf x_km_indeterminate y_km_indeterminate
     horizons_vectors).

Local Abbreviation tracked :=
  (PlanetaryLogger.tracked
     json_result sscanf_lf x_km_indeterminate y_km_indeterminate
     horizons_vectors).

Lemma parse_cases (x_km y_km : double) (json_text : string) (old : double) :
  (exists result_text data_start x_ptr y_ptr,
      json_result json_text = ResultText result_text
      /\ Libc.strstr result_text "$$SOE" = Some data_start
      /\ Libc.strstr data_start "X =" = Some x_ptr
      /\ Libc.strstr data_start "Y =" = Some y_ptr
      /\ parse x_km y_km json_text old
         = (0%Z,
            longitude_of_xy
              match sscanf_lf "Y =%lf" y_ptr with
              | Libc.Assigned v => v
              | _ => y_km
              end
              match sscanf_lf "X =%lf" x_ptr with
              | Libc.Assigned v => v
              | _ => x_km
              end))
  \/ (parse x_km y_km json_text old = ((-1)%Z, old)
      /\ ~ exists result_text data_start x_ptr y_ptr,
             json_result json_text = ResultText result_text
             /\ Libc.strstr result_text "$$SOE" = Some data_start
             /\ Libc.strstr data_start "X =" = Some x_ptr
             /\ Libc.strstr data_start "Y =" = Some y_ptr).
Proof.
  unfold PlanetaryLogger.parse_planet_data.
  destruct (json_result json_text) as [| | result_text] eqn:Hjson;
    try (right; split; [reflexivity |];
         intros (r & d & x & y & H & _); discriminate).
  destruct (Libc.strstr result_text "$$SOE") as [data_start |] eqn:Hmark.
  - destruct (Libc.strstr data_start "X =") as [x_ptr |] eqn:Hx;
      destruct (Libc.strstr data_start "Y =") as [y_ptr |] eqn:Hy.
    + left. exists result_text, data_start, x_ptr, y_ptr. auto.
    + right. split; [reflexivity |].
      intros (r & d & x & y & H1 & H2 & H3 & H4).
      injection H1 as <-. rewrite Hmark in H2. injection H2 as <-.
      rewrite Hy in H4. discriminate.
    + right. split; [reflexivity |].
      intros (r & d & x & y & H1 & H2 & H3 & H4).
      injection H1 as <-. rewrite Hmark in H2. injection H2 as <-.
      rewrite Hx in H3. discriminate.
    + right. split; [reflexivity |].
      intros (r & d & x & y & H1 & H2 & H3 & H4).
      injection H1 as <-. rewrite Hmark in H2. injection H2 as <-.
      rewrite Hx in H3. discriminate.
  - right. split; [reflexivity |].
    intros (r & d & x & y & H1 & H2 & _).
    injection H1 as <-. rewrite Hmark in H2. discriminate.
Qed.

Lemma visit_label (p : PlanetaryLogger.Planet) (t : time_t) :
  PlanetaryLogger.id (fst (visit p t)) = PlanetaryLogger.id p
  /\ PlanetaryLogger.name (fst (visit p t)) = PlanetaryLogger.name p
  /\ snd (visit p t) = PlanetaryLogger.longitude (fst (visit p t)).
Proof.
  unfold PlanetaryLogger.visit.
  destruct (horizons_vectors (PlanetaryLogger.id p) t) as [| | memory];
    try (repeat split; reflexivity).
  destruct (parse (x_km_indeterminate (PlanetaryLogger.id p) t)
                  (y_km_indeterminate (PlanetaryLogger.id p) t)
                  memory (PlanetaryLogger.longitude p)) as [status l].
  repeat split; reflexivity.
Qed.

Lemma tracked_id (start_t : time_t) (p : PlanetaryLogger.Planet) (k : nat) :
  PlanetaryLogger.id (tracked start_t p k) = PlanetaryLogger.id p.
Proof.
  induction k as [| k IH]; [reflexivity |].
  cbn [PlanetaryLogger.tracked].
  destruct (visit_label (tracked start_t p k)
                        (start_t + SECONDS_IN_DAY * Z.of_nat k)%Z) as [-> _].
  exact IH.
Qed.

Lemma planets_loop_values (t : time_t) (ps : list PlanetaryLogger.Planet)
      (i : nat) :
  snd (fst (planets_loop visit t i ps))
  = map (fun p => PlanetaryLogger.longitude (fst (visit p t))) ps.
Proof.
  revert i. induction ps as [| p ps IH]; intros i; [reflexivity |].
  cbn [planets_loop map]. specialize (IH (S i)).
  destruct (visit_label p t) as (_ & _ & Hv).
  destruct (visit p t) as [p' r].
  destruct (planets_loop visit t (S i) ps) as [[ps' rs] log].
  cbn [fst snd] in *. rewrite IH, Hv. reflexivity.
Qed.

(** The state after [n] days. *)
Lemma days_iter (start_t : time_t) (ps : list PlanetaryLogger.Planet)
      (n : nat) :
  exists log,
    Nat.iter n day (start_t, mkSim ps [] [])
    = ((start_t + SECONDS_IN_DAY * Z.of_nat n)%Z,
       mkSim (map (fun p => tracked start_t p n) ps)
             (map (fun k =>
                     ((start_t + SECONDS_IN_DAY * Z.of_nat k)%Z,
                      map (fun p =>
                             PlanetaryLogger.longitude
                               (tracked start_t p (S k))) ps))
                  (seq 0 n))
             log).
Proof.
  induction n as [| n (log & IH)].
  - exists []. cbn [Nat.iter seq map PlanetaryLogger.tracked].
    rewrite map_id.
    replace (start_t + SECONDS_IN_DAY * Z.of_nat 0)%Z with start_t
      by (unfold SECONDS_IN_DAY; lia).
    reflexivity.
  - rewrite Nat.iter_succ, IH. unfold PlanetaryLogger.day at 1.
    cbn [planets outfile invocations].
    set (t := (start_t + SECONDS_IN_DAY * Z.of_nat n)%Z).
    pose proof (planets_loop_planets visit t
                  (map (fun p => tracked start_t p n) ps) 0) as Hps.
    pose proof (planets_loop_values t
                  (map (fun p => tracked start_t p n) ps) 0) as Hrs.
    destruct (planets_loop visit t 0 (map (fun p => tracked start_t p n) ps))
      as [[ps' rs] log'].
    cbn [fst snd] in Hps, Hrs. subst ps' rs.
    exists (log ++ log'). f_equal.
    + unfold t, SECONDS_IN_DAY. lia.
    + f_equal.
      * rewrite map_map. reflexivity.
      * rewrite seq_S, map_app. cbn [map Nat.add]. f_equal. f_equal.
        rewrite map_map. reflexivity.
Qed.

End LoggerFacts.

(** X21.  [parse_planet_data] returns 0 or -1.  It returns 0 exactly when
    the text is JSON with a string "result" that holds the marker [$$SOE]
    and, after it, both ["X ="] and ["Y ="], whether or not the two numbers
    convert.  The longitude it then stores is the reduction of [y_km] and
    [x_km], each being the converted number, or what the local of that
    call held when its conversion assigns nothing; when both numbers
    convert, the stored longitude depends neither on these locals nor on
    the longitude stored before.  When it returns -1 the longitude is left
    as it was. *)
Theorem parse_planet_data_outcome
        (json_result : string -> json_outcome)
        (sscanf_lf : string -> string -> Libc.scan_result)
        (x_km_indeterminate y_km_indeterminate : double)
        (json_text : string) (old : double) :
  let parse := PlanetaryLogger.parse_planet_data json_result sscanf_lf in
  let result := parse x_km_indeterminate y_km_indeterminate json_text old in
  (fst result = 0%Z \/ fst result = (-1)%Z)
  /\ (fst result = 0%Z
      <-> exists result_text data_start x_ptr y_ptr,
            json_result json_text = ResultText result_text
            /\ Libc.strstr result_text "$$SOE" = Some data_start
            /\ Libc.strstr data_start "X =" = Some x_ptr
            /\ Libc.strstr data_start "Y =" = Some y_ptr)
  /\ (fst result = (-1)%Z -> snd result = old)
  /\ (forall result_text data_start x_ptr y_ptr,
         json_result json_text = ResultText result_text ->
         Libc.strstr result_text "$$SOE" = Some data_start ->
         Libc.strstr data_start "X =" = Some x_ptr ->
         Libc.strstr data_start "Y =" = Some y_ptr ->
         snd result
         = longitude_of_xy
             match sscanf_lf "Y =%lf"%string y_ptr with
             | Libc.Assigned v => v
             | _ => y_km_indeterminate
             end
             match sscanf_lf "X =%lf"%string x_ptr with
             | Libc.Assigned v => v
             | _ => x_km_indeterminate
             end
         /\ forall x y,
              sscanf_lf "X =%lf"%string x_ptr = Libc.Assigned x ->
              sscanf_lf "Y =%lf"%string y_ptr = Libc.Assigned y ->
              forall x_km y_km other,
                parse x_km y_km json_text other = (0%Z, longitude_of_xy y x)).
Proof.
  intros parse result. subst parse result.
  destruct (parse_cases json_result sscanf_lf
              x_km_indeterminate y_km_indeterminate json_text old)
    as [(r & d & x & y & H1 & H2 & H3 & H4 & Heq) | (Heq & Hnot)].
  - rewrite Heq. cbn [fst snd].
    split; [left; reflexivity |]. split.
    { split; [intros _; exists r, d, x, y; auto | reflexivity]. }
    split; [discriminate |].
    intros r' d' x' y' H1' H2' H3' H4'.
    rewrite H1 in H1'. injection H1' as <-.
    rewrite H2 in H2'. injection H2' as <-.
    rewrite H3 in H3'. injection H3' as <-.
    rewrite H4 in H4'. injection H4' as <-.
    split; [reflexivity |].
    intros xv yv Hx Hy x_km y_km other.
    destruct (parse_cases json_result sscanf_lf x_km y_km json_text other)
      as [(r' & d' & x' & y' & H1' & H2' & H3' & H4' & Heq')
         | (_ & Hnot)].
    + rewrite Heq'.
      rewrite H1 in H1'. injection H1' as <-.
      rewrite H2 in H2'. injection H2' as <-.
      rewrite H3 in H3'. injection H3' as <-.
      rewrite H4 in H4'. injection H4' as <-.
      rewrite Hx, Hy. reflexivity.
    + exfalso. apply Hnot. exists r, d, x, y. auto.
  - rewrite Heq. cbn [fst snd].
    split; [right; reflexivity |]. split.
    { split; [discriminate | intros H; contradiction]. }
    split; [reflexivity |].
    intros r d x y H1 H2 H3 H4. exfalso. apply Hnot.
    exists r, d, x, y. auto.
Qed.

(** X22.  planetary_logger.c returns 1 without a file when the output
    file cannot be opened.  Otherwise it returns 0 whatever the service
    answers, and for a number of days [n >= 0] the file holds the header
    of the ten bodies and [n] rows, dated [start], [start + 86400], ...;
    the value of a body in the row of day [k] is the longitude its struct
    holds after the visits of days [0] to [k]. *)
Theorem planetary_logger_main_outcome
        (json_result : string -> json_outcome)
        (sscanf_lf : string -> string -> Libc.scan_result)
        (x_km_indeterminate y_km_indeterminate : string -> time_t -> double)
        (mktime_date : string -> time_t)
        (horizons_vectors : string -> time_t -> transfer)
        (start_date filename : string) (num_days : Z) :
  let main :=
    PlanetaryLogger.main
      json_result sscanf_lf x_km_indeterminate y_km_indeterminate
      mktime_date horizons_vectors in
  let start_t := mktime_date start_date in
  let tracked :=
    PlanetaryLogger.tracked
      json_result sscanf_lf x_km_indeterminate y_km_indeterminate
      horizons_vectors start_t in
  main (PlanetaryLogger.mkInput start_date num_days filename false)
  = (1%Z, None)
  /\ main (PlanetaryLogger.mkInput start_date num_days filename true)
     = (0%Z,
        Some (("Date,Sun,Moon,Mercury,Venus,Mars,Jupiter,Saturn,Uranus,"
               ++ "Neptune,Pluto" ++ newline)%string,
              map (fun k =>
                     ((start_t + SECONDS_IN_DAY * Z.of_nat k)%Z,
                      map (fun p =>
                             PlanetaryLogger.longitude (tracked p (S k)))
                          PlanetaryLogger.planets))
                  (seq 0 (Z.to_nat num_days)))).
Proof.
  intros main start_t tracked. subst main tracked start_t.
  split; [reflexivity |].
  unfold PlanetaryLogger.main.
  cbn [PlanetaryLogger.fopen_ok PlanetaryLogger.num_days_to_log
       PlanetaryLogger.start_date_input].
  rewrite for_loop_iter, Z.sub_0_r.
  destruct (days_iter json_result sscanf_lf
              x_km_indeterminate y_km_indeterminate horizons_vectors
              (mktime_date start_date) PlanetaryLogger.planets
              (Z.to_nat num_days))
    as (log & ->).
  cbn [outfile]. reflexivity.
Qed.

(** X23.  When, on a day, the request for a body fails or the parse of
    its response returns -1, the longitude of the struct is left as it
    was: the value written for that body on that day is the value written
    for it the day before, or the initial zero on the first day.  The
    identifier of the struct, which selects the request, never changes. *)
Theorem failed_day_repeats_previous_value
        (json_result : string -> json_outcome)
        (sscanf_lf : string -> string -> Libc.scan_result)
        (x_km_indeterminate y_km_indeterminate : string -> time_t -> double)
        (horizons_vectors : string -> time_t -> transfer)
        (start_t : time_t) (p : PlanetaryLogger.Planet) (k : nat) :
  let tracked :=
    PlanetaryLogger.tracked
      json_result sscanf_lf x_km_indeterminate y_km_indeterminate
      horizons_vectors start_t p in
  (forall memory,
      horizons_vectors (PlanetaryLogger.id p)
                       (start_t + SECONDS_IN_DAY * Z.of_nat k)%Z
      = Received memory ->
      fst (PlanetaryLogger.parse_planet_data
             json_result sscanf_lf
             (x_km_indeterminate (PlanetaryLogger.id p)
                (start_t + SECONDS_IN_DAY * Z.of_nat k)%Z)
             (y_km_indeterminate (PlanetaryLogger.id p)
                (start_t + SECONDS_IN_DAY * Z.of_nat k)%Z)
             memory (PlanetaryLogger.longitude (tracked k))) = (-1)%Z) ->
  PlanetaryLogger.longitude (tracked (S k))
  = PlanetaryLogger.longitude (tracked k)
  /\ PlanetaryLogger.id (tracked (S k)) = PlanetaryLogger.id p
  /\ (k = 0%nat ->
      PlanetaryLogger.longitude (tracked (S k)) = PlanetaryLogger.longitude p).
Proof.
  intros tracked Hfail. subst tracked.
  assert (Hsame :
    PlanetaryLogger.longitude
      (PlanetaryLogger.tracked
         json_result sscanf_lf x_km_indeterminate y_km_indeterminate
         horizons_vectors start_t p (S k))
    = PlanetaryLogger.longitude
        (PlanetaryLogger.tracked
           json_result sscanf_lf x_km_indeterminate y_km_indeterminate
           horizons_vectors start_t p k)).
  { cbn [PlanetaryLogger.tracked]. unfold PlanetaryLogger.visit.
    rewrite tracked_id.
    destruct (horizons_vectors (PlanetaryLogger.id p)
                (start_t + SECONDS_IN_DAY * Z.of_nat k)%Z)
      as [| | memory] eqn:Hreq; try reflexivity.
    specialize (Hfail memory eq_refl).
    destruct (parse_cases json_result sscanf_lf
                (x_km_indeterminate (PlanetaryLogger.id p)
                   (start_t + SECONDS_IN_DAY * Z.of_nat k)%Z)
                (y_km_indeterminate (PlanetaryLogger.id p)
                   (start_t + SECONDS_IN_DAY * Z.of_nat k)%Z)
                memory
                (PlanetaryLogger.longitude
                   (PlanetaryLogger.tracked
                      json_result sscanf_lf
                      x_km_indeterminate y_km_indeterminate
                      horizons_vectors start_t p k)))
      as [(r & d & x & y & _ & _ & _ & _ & Heq) | (Heq & _)];
      rewrite Heq in *; cbn [fst] in Hfail; [discriminate |].
    reflexivity. }
  split; [exact Hsame |]. split; [apply tracked_id |].
  intros ->. exact Hsame.
Qed.

Lemma failed_day_repeats_previous_value_witness :
  let tracked :=
    PlanetaryLogger.tracked
      sample_json sample_sscanf zero_indeterminate zero_indeterminate
      failing_vectors 0%Z
      (PlanetaryLogger.body "Moon" "301") in
  PlanetaryLogger.longitude (tracked 3%nat)
  = PlanetaryLogger.longitude (tracked 2%nat)
  /\ PlanetaryLogger.id (tracked 3%nat) = "301"%string
  /\ (2%nat = 0%nat ->
      PlanetaryLogger.longitude (tracked 3%nat)
      = PlanetaryLogger.longitude (PlanetaryLogger.body "Moon" "301")).
Proof.
  intros tracked.
  apply (@failed_day_repeats_previous_value
           sample_json sample_sscanf zero_indeterminate zero_indeterminate
      failing_vectors 0%Z
           (PlanetaryLogger.body "Moon" "301") 2).
  intros memory H. discriminate.
Defined.

(** ** The stored longitude in binary64 *)

Section Binary64Logger.

Import PrimFloat.

(** X25.  The three lines that end [parse_planet_data] are those that end
    [calculate_longitude], and in binary64 they can store exactly 360.  For
    [x_km = 149597870.7] and [y_km = -3e-08], a body one astronomical unit
    away and 30 micrometres below the axis, [atan2] is the quotient of the
    two, about -2.0e-16, to within one unit in the last place; for that
    quotient and for its two neighbours the addition of 360 rounds to
    360. *)
Theorem logger_longitude_reaches_360_in_binary64 :
  let x_km := 0x1.1d55d5d666666p+27%float in
  let y_km := (-0x1.01b2b29a4692bp-25)%float in
  (0 <? x_km)%float = true
  /\ (y_km <? 0)%float = true
  /\ Binary64.longitude_deg (y_km / x_km)%float = 360%float
  /\ Binary64.longitude_deg (next_up (y_km / x_km)%float) = 360%float
  /\ Binary64.longitude_deg (next_down (y_km / x_km)%float) = 360%float
  /\ (360 <? 360)%float = false.
Proof.
  vm_compute. repeat split; reflexivity.
Qed.

End Binary64Logger.
